(** * form-master: the registration and company endpoints over a spreadsheet store

    A shallow embedding of the request handlers of
    - [src/app/api/events/register/route.ts]  (module [Register]),
    - the earlier registration handler kept in [unnamed/part_001]
      (module [Part001]),
    - [src/app/api/companies/route.ts]        (module [Companies]),
    - the company filter of [src/app/control_admin/page.tsx]
      (module [ControlAdmin]) and the handlers of that page (module
      [Dashboard]),
    - the two handlers kept in [src/app/api/test/route.ts] (modules
      [TestRoute] and [Diagnostics]),
    - the submit handlers of the two registration pages kept in
      [unnamed/part_000] (modules [Form1] and [Form2]),
    together with a model of the collaborators they call
    ([@/lib/sheets], [@/lib/github], [bcryptjs], [next-auth]), whose code is
    not part of the sources at hand. *)

From Stdlib Require Import ZArith String Ascii Bool Floats Lia.
From stdpp Require Import base option list strings gmap pretty.

Open Scope string_scope.

(** ** JavaScript values as the handlers use them *)

Module JS.

(** Every value the handlers move around is a string or is missing.
    [None] stands for [undefined] and for [null]: the handlers never tell
    the two apart (they only test truthiness, compare with [===] against a
    string, or fall back with [||]). *)
Abbreviation value := (option string).

(** [!!v]. *)
Definition truthy (v : value) : bool :=
  match v with
  | Some s => negb (bool_decide (s = ""))
  | None => false
  end.

(** [a || b]. *)
Definition or (a b : value) : value := if truthy a then a else b.

(** [a === b], where one side is a string in every use. *)
Definition eq3 (a b : value) : bool := bool_decide (a = b).

(** [`${v}`]. *)
Definition toString (v : value) : string := default "undefined" v.

(** A row of cells; [row[i]] is [undefined] past the end. *)
Definition index (r : list value) (i : nat) : value := mjoin (r !! i).

(** [l.findIndex(f)], [None] for [-1]. *)
Fixpoint findIndex {A} (f : A -> bool) (l : list A) : option nat :=
  match l with
  | [] => None
  | x :: l' => if f x then Some 0 else S <$> findIndex f l'
  end.

(** [l.some((x, index) => f index x)]. *)
Fixpoint somei {A} (f : nat -> A -> bool) (i : nat) (l : list A) : bool :=
  match l with
  | [] => false
  | x :: l' => f i x || somei f (S i) l'
  end.

(** [r[i] = v] on an array: past the end the array grows and the cells in
    between are holes. *)
Definition setIndex (r : list value) (i : nat) (v : value) : list value :=
  if bool_decide (i < length r) then <[i := v]> r
  else r ++ replicate (i - length r) None ++ [v].

(** The double quote, for messages that quote a name. *)
Definition dq : string := String (ascii_of_nat 34) "".

End JS.

(** ** The two regular expressions of the registration handlers *)

Module Regex.

(** Code points of a UTF-8 string (the request body arrives as UTF-8 JSON).
    A stray or truncated sequence is read as U+FFFD. The two expressions
    below use one-character classes only, so matching code points agrees
    with JavaScript's matching of UTF-16 units. *)
Definition cont (b : ascii) : N := N.land (N_of_ascii b) 63.

Fixpoint codePoints (l : list ascii) : list N :=
  match l with
  | [] => []
  | b0 :: l1 =>
    let n := N_of_ascii b0 in
    if (n <? 128)%N then n :: codePoints l1
    else if (n <? 192)%N then 65533%N :: codePoints l1
    else match l1 with
    | [] => [65533%N]
    | b1 :: l2 =>
      if (n <? 224)%N then (N.land n 31 * 64 + cont b1)%N :: codePoints l2
      else match l2 with
      | [] => [65533%N]
      | b2 :: l3 =>
        if (n <? 240)%N
        then (N.land n 15 * 4096 + cont b1 * 64 + cont b2)%N :: codePoints l3
        else match l3 with
        | [] => [65533%N]
        | b3 :: l4 =>
          (N.land n 7 * 262144 + cont b1 * 4096 + cont b2 * 64 + cont b3)%N
            :: codePoints l4
        end
      end
    end
  end.

Inductive re :=
| Never
| Empty
| Class (p : N -> bool)
| Cat (a b : re)
| Alt (a b : re)
| Star (a : re).

Fixpoint nullable (r : re) : bool :=
  match r with
  | Never => false
  | Empty => true
  | Class _ => false
  | Cat a b => nullable a && nullable b
  | Alt a b => nullable a || nullable b
  | Star _ => true
  end.

Fixpoint deriv (c : N) (r : re) : re :=
  match r with
  | Never => Never
  | Empty => Never
  | Class p => if p c then Empty else Never
  | Cat a b =>
    if nullable a then Alt (Cat (deriv c a) b) (deriv c b)
    else Cat (deriv c a) b
  | Alt a b => Alt (deriv c a) (deriv c b)
  | Star a => Cat (deriv c a) (Star a)
  end.

(** [/^r$/.test(s)]. *)
Definition test (r : re) (s : string) : bool :=
  nullable (fold_left (fun r c => deriv c r) (codePoints (list_ascii_of_string s)) r).

Definition plus (a : re) : re := Cat a (Star a).

(** [a{n}] and [a{0,m}]. *)
Fixpoint times (n : nat) (a : re) : re :=
  match n with O => Empty | S n' => Cat a (times n' a) end.

Fixpoint upto (m : nat) (a : re) : re :=
  match m with O => Empty | S m' => Alt Empty (Cat a (upto m' a)) end.

(** [\d]. *)
Definition digit (c : N) : bool := (48 <=? c)%N && (c <=? 57)%N.

(** [\s]. *)
Definition space (c : N) : bool :=
  ((9 <=? c) && (c <=? 13) || (c =? 32) || (c =? 160) || (c =? 5760)
   || (8192 <=? c) && (c <=? 8202) || (c =? 8232) || (c =? 8233)
   || (c =? 8239) || (c =? 8287) || (c =? 12288) || (c =? 65279))%N.

Definition chr (ch : nat) (c : N) : bool := (c =? N.of_nat ch)%N.

(** [[^\s@]]. *)
Definition notSpaceAt (c : N) : bool := negb (space c || chr 64 c).

(** [/^[^\s@]+@[^\s@]+\.[^\s@]+$/]. *)
Definition emailRegex : re :=
  Cat (plus (Class notSpaceAt))
    (Cat (Class (chr 64))
      (Cat (plus (Class notSpaceAt))
        (Cat (Class (chr 46)) (plus (Class notSpaceAt))))).

(** [/^\d{10,15}$/]. *)
Definition phoneRegex : re := Cat (times 10 (Class digit)) (upto 5 (Class digit)).

End Regex.

(** ** The world a request runs in *)

(** A row of a sheet or table: its cells, a missing cell past the end. *)
Abbreviation row := (list JS.value).

(** Modelled from the spec: the sheet of [@/lib/sheets], which is not among
    the sources. The spec names a "Spreadsheet Access Layer (external
    collaborator): read/append/update rows, create/rename sheets" and says
    that a registration is "appended as a row to an event's table" and that
    a company's sheet holds the company's events. How a table is laid out
    inside the grid of its sheet is not said, so a sheet keeps its plain
    rows (what [getSheetData] reads) and its named tables (what
    [getTableData] reads) side by side. *)
Record Sheet := { rows : list row; tables : gmap string (list row) }.

(** The calls a handler makes to [@/lib/sheets], in the order made. *)
Inductive Call :=
| CGetSheetData (sheetName : string)
| CGetTableData (sheetName tableName : string)
| CAddToTable (sheetName tableName : string) (r : row)
| CAppendToSheet (sheetName : string) (rs : list row)
| CCreateSheet (sheetName : string)
| CUpdateRow (sheetName : string) (i : nat) (r : row)
| CRenameSheet (oldName : JS.value) (newName : string).

(** The next-auth session as the handlers read it: [session.user.type]. *)
Record Session := { userType : string }.

(** The result of [uploadImage] as the handlers read it:
    [uploadResult.success] and [uploadResult.url]. *)
Record UploadResult := { success : bool; url : JS.value }.

(** Modelled from the spec: what a handler can observe and change. The
    spreadsheet ([sheets]) and the log of calls made to it ([calls]) change;
    the rest is the environment of one request: the admin session ("Auth
    Layer (external collaborator): session-based admin authentication"),
    the system clock read by [Date.now()] and [new Date()] (its k-th reading
    is [clock k]), the salted hash of [bcrypt.hash], and the outcome of
    [uploadImage] ("Image Upload Layer (external collaborator): stores
    binary images, returns URLs"), [None] when the upload throws. *)
Record World := {
  sheets : gmap string Sheet;
  calls : list Call;
  ticks : nat;
  session : option Session;
  clock : nat -> Z;
  bcryptHash : string -> nat -> string;
  upload : string -> string -> string -> option UploadResult;
}.

Definition setSheets (s : gmap string Sheet) (w : World) : World :=
  {| sheets := s; calls := calls w; ticks := ticks w; session := session w;
     clock := clock w; bcryptHash := bcryptHash w; upload := upload w |}.

Definition logCall (c : Call) (w : World) : World :=
  {| sheets := sheets w; calls := (calls w ++ [c])%list; ticks := ticks w;
     session := session w; clock := clock w; bcryptHash := bcryptHash w;
     upload := upload w |}.

Definition tick (w : World) : World :=
  {| sheets := sheets w; calls := calls w; ticks := S (ticks w);
     session := session w; clock := clock w; bcryptHash := bcryptHash w;
     upload := upload w |}.

(** ** Handlers as computations that may throw *)

Inductive outcome (A : Type) :=
| Value (a : A)
| Thrown.
Arguments Value {A} a.
Arguments Thrown {A}.

Definition M (A : Type) : Type := World -> outcome A * World.

Definition ret {A} (a : A) : M A := fun w => (Value a, w).

Definition throw {A} : M A := fun w => (Thrown, w).

Definition bind {A B} (m : M A) (k : A -> M B) : M B :=
  fun w =>
    match m w with
    | (Value a, w') => k a w'
    | (Thrown, w') => (Thrown, w')
    end.

(** [try { m } catch { h }], where [h] is the rest of the function. *)
Definition tryCatch {A} (m h : M A) : M A :=
  fun w =>
    match m w with
    | (Value a, w') => (Value a, w')
    | (Thrown, w') => h w'
    end.

(** [try { x = await m } catch { ... }] around one call: [None] when it
    threw. *)
Definition attempt {A} (m : M A) : M (option A) :=
  fun w =>
    match m w with
    | (Value a, w') => (Value (Some a), w')
    | (Thrown, w') => (Value None, w')
    end.

Definition ofOption {A} (o : option A) : M A :=
  match o with Some a => ret a | None => throw end.

Notation "x <~ m ;; k" := (bind m (fun x => k))
  (at level 100, m at next level, right associativity).

Notation "m ;;; k" := (bind m (fun _ => k))
  (at level 100, right associativity).

(** ** The collaborators *)

(** Modelled from the spec: [@/lib/sheets]. A call on a sheet or table that
    does not exist throws, and so does creating or renaming onto a title
    that is taken (a spreadsheet has one sheet per title); a call that
    throws changes nothing. *)
Definition getSheetData (sheetName : string) : M (list row) :=
  fun w =>
    let w := logCall (CGetSheetData sheetName) w in
    match sheets w !! sheetName with
    | Some sh => (Value (rows sh), w)
    | None => (Thrown, w)
    end.

(** Modelled from the spec: [getTableData] of [@/lib/sheets]. *)
Definition getTableData (sheetName tableName : string) : M (list row) :=
  fun w =>
    let w := logCall (CGetTableData sheetName tableName) w in
    match sheets w !! sheetName ≫= fun sh => tables sh !! tableName with
    | Some t => (Value t, w)
    | None => (Thrown, w)
    end.

(** Modelled from the spec: [addToTable] of [@/lib/sheets], one row appended
    to the table. *)
Definition addToTable (sheetName tableName : string) (r : row) : M unit :=
  fun w =>
    let w := logCall (CAddToTable sheetName tableName r) w in
    match sheets w !! sheetName with
    | Some sh =>
      match tables sh !! tableName with
      | Some t =>
        (Value tt,
         setSheets
           (<[sheetName :=
                {| rows := rows sh;
                   tables := <[tableName := (t ++ [r])%list]> (tables sh) |}]>
              (sheets w)) w)
      | None => (Thrown, w)
      end
    | None => (Thrown, w)
    end.

(** Modelled from the spec: [appendToSheet] of [@/lib/sheets]. *)
Definition appendToSheet (sheetName : string) (rs : list row) : M unit :=
  fun w =>
    let w := logCall (CAppendToSheet sheetName rs) w in
    match sheets w !! sheetName with
    | Some sh =>
      (Value tt,
       setSheets
         (<[sheetName := {| rows := (rows sh ++ rs)%list; tables := tables sh |}]>
            (sheets w)) w)
    | None => (Thrown, w)
    end.

(** Modelled from the spec: [createSheet] of [@/lib/sheets], a new empty
    sheet. *)
Definition createSheet (sheetName : string) : M unit :=
  fun w =>
    let w := logCall (CCreateSheet sheetName) w in
    match sheets w !! sheetName with
    | Some _ => (Thrown, w)
    | None =>
      (Value tt,
       setSheets (<[sheetName := {| rows := []; tables := ∅ |}]> (sheets w)) w)
    end.

(** Modelled from the spec: [updateRow] of [@/lib/sheets]; row [i] counts
    from the header row, which is row 0. The handlers only pass the index of
    a row they have just read; past the end the model writes nothing. *)
Definition updateRow (sheetName : string) (i : nat) (r : row) : M unit :=
  fun w =>
    let w := logCall (CUpdateRow sheetName i r) w in
    match sheets w !! sheetName with
    | Some sh =>
      (Value tt,
       setSheets
         (<[sheetName := {| rows := <[i := r]> (rows sh); tables := tables sh |}]>
            (sheets w)) w)
    | None => (Thrown, w)
    end.

(** Modelled from the spec: [renameSheet] of [@/lib/sheets]; the sheet keeps
    its rows and tables under the new title. *)
Definition renameSheet (oldName : JS.value) (newName : string) : M unit :=
  fun w =>
    let w := logCall (CRenameSheet oldName newName) w in
    match oldName with
    | Some old =>
      match sheets w !! old, sheets w !! newName with
      | Some sh, None =>
        (Value tt, setSheets (<[newName := sh]> (delete old (sheets w))) w)
      | _, _ => (Thrown, w)
      end
    | None => (Thrown, w)
    end.

(** Modelled from the spec: [uploadImage] of [@/lib/github]. *)
Definition uploadImage (fileName image folder : string) : M UploadResult :=
  fun w => ofOption (upload w fileName image folder) w.

(** Modelled from the spec: [bcrypt.hash(password, rounds)]. *)
Definition bcrypt_hash (password : string) (rounds : nat) : M string :=
  fun w => (Value (bcryptHash w password rounds), w).

(** Modelled from the spec: [getServerSession(authOptions)]. *)
Definition getServerSession : M (option Session) :=
  fun w => (Value (session w), w).

(** [Date.now()], and the instant of [new Date()]. *)
Definition Date_now : M Z :=
  fun w => (Value (clock w (ticks w)), tick w).

(** [!session || session.user.type !== 'admin']. *)
Definition notAdmin (s : option Session) : bool :=
  match s with
  | Some s => negb (bool_decide (userType s = "admin"))
  | None => true
  end.

(** ** Responses *)

(** A company as the companies endpoint sends it (never the password). *)
Module Company.
Record t := {
  id : JS.value;
  name : JS.value;
  username : JS.value;
  image : JS.value;
  status : JS.value;
  deleted : bool;
}.
End Company.

(** The JSON bodies the handlers send: [{ error }];
    [{ success: true, message: 'Registration successful', registration }];
    [{ companies }]; [{ success: true, company }];
    [{ success: true, message }]. *)
Inductive Body :=
| BError (error : string)
| BRegistration (name email : JS.value) (registrationDate : string)
| BCompanies (companies : list Company.t)
| BCompany (company : Company.t)
| BMessage (message : string).

Record Response := { body : Body; code : nat }.

(** [NextResponse.json(b, { status })]; the status is 200 when none is
    given. *)
Definition json (b : Body) (st : nat) : Response := {| body := b; code := st |}.

(** ** Reading the spreadsheet of a world *)

(** The rows [getSheetData] would read, and the table [getTableData] would
    read. *)
Definition sheetRows (w : World) (sheetName : string) : option (list row) :=
  rows <$> sheets w !! sheetName.

Definition table (w : World) (sheetName tableName : string) : option (list row) :=
  sheets w !! sheetName ≫= fun sh => tables sh !! tableName.

(** ** [src/app/api/events/register/route.ts] *)

Module Register.

(** The JSON body of a registration: each field is a string or is absent,
    which is what the form pages send. Lines 8-20 destructure the parsed
    body as it comes, so a field can also arrive as a JSON number, boolean,
    array or object; such a body is outside this type, and every statement
    about a [Request] is a statement about bodies whose fields are strings. *)
Record Request := {
  rawCompanyName : JS.value;
  eventName : JS.value;
  name : JS.value;
  whatsappNumber : JS.value;
  nationalId : JS.value;
  email : JS.value;
  education : JS.value;
  universityCollege : JS.value;
  age : JS.value;
  gender : JS.value;
}.

Section Handler.

(** The built-in [decodeURIComponent], [None] where it throws [URIError]. *)
Variable decodeURIComponent : string -> option string.

(** The built-in [Date.prototype.toISOString], from the instant in
    milliseconds. *)
Variable toISOString : Z -> string.

(** Lines 32-33: some required field is missing. *)
Definition missing (companyName : string) (req : Request) : bool :=
  negb (JS.truthy (Some companyName)) || negb (JS.truthy (eventName req))
  || negb (JS.truthy (name req)) || negb (JS.truthy (whatsappNumber req))
  || negb (JS.truthy (nationalId req)) || negb (JS.truthy (email req))
  || negb (JS.truthy (education req)) || negb (JS.truthy (universityCollege req))
  || negb (JS.truthy (age req)) || negb (JS.truthy (gender req)).

(** Lines 168-175: the stored row that matches the email or the number. *)
Definition existingRegistration (headers : row) (registrationData : list row)
    (req : Request) : option row :=
  let emailIndex := JS.findIndex (fun h => JS.eq3 h (Some "Email")) headers in
  let whatsappIndex :=
    JS.findIndex (fun h => JS.eq3 h (Some "WhatsApp Number")) headers in
  find
    (fun row =>
       match emailIndex with
       | Some i => JS.eq3 (JS.index row i) (email req)
       | None => false
       end
       || match whatsappIndex with
          | Some i => JS.eq3 (JS.index row i) (whatsappNumber req)
          | None => false
          end)
    registrationData.

(** Lines 150-162: the table says the event is disabled. *)
Definition eventDisabled (tableData : list row) : bool :=
  let headers := default [] (tableData !! 0) in
  match JS.findIndex (fun h => JS.eq3 h (Some "EventStatus")) headers with
  | Some statusIndex =>
    bool_decide (1 < length tableData)
    && JS.eq3 (JS.index (default [] (tableData !! 1)) statusIndex) (Some "disabled")
  | None => false
  end.

(** Lines 198-208: the row that is stored. *)
Definition stamped (req : Request) (registrationDate : string) : row :=
  [name req; whatsappNumber req; nationalId req; email req; education req;
   universityCollege req; age req; gender req; Some registrationDate].

(** Lines 127-234: the event is checked and the registration stored. *)
Definition registerInEvent (companyName : string) (req : Request) : M Response :=
  tryCatch
    (let eventName := JS.toString (eventName req) in
     tableData <~ attempt (getTableData companyName eventName);;
     match tableData with
     | None =>
       ret (json (BError ("Event " +:+ JS.dq +:+ eventName +:+ JS.dq
                          +:+ " not found or inaccessible")) 404)
     | Some tableData =>
       if bool_decide (length tableData = 0)
       then ret (json (BError "Event not found") 404)
       else if eventDisabled tableData
       then ret (json (BError "Event registration is currently disabled") 403)
       else
         let headers := default [] (tableData !! 0) in
         let registrationData := drop 1 tableData in
         match existingRegistration headers registrationData req with
         | Some _ =>
           ret (json (BError "You are already registered for this event") 400)
         | None =>
           now <~ Date_now;;
           let registrationDate := toISOString now in
           added <~ attempt
             (addToTable companyName eventName (stamped req registrationDate));;
           match added with
           | Some _ =>
             ret (json (BRegistration (name req) (email req) registrationDate) 200)
           | None => ret (json (BError "Failed to complete registration") 500)
           end
         end
     end)
    (ret (json (BError "Failed to verify event") 500)).

(** Lines 71-241: the company is checked, then the event. *)
Definition registerInCompany (companyName : string) (req : Request) : M Response :=
  tryCatch
    (sheetData <~ attempt (getSheetData companyName);;
     match sheetData with
     | None =>
       ret (json (BError ("Company " +:+ JS.dq +:+ companyName +:+ JS.dq
                          +:+ " not found or inaccessible")) 404)
     | Some sheetData =>
       if bool_decide (length sheetData = 0)
       then ret (json (BError "Company not found") 404)
       else
         companiesData <~ attempt (getSheetData "companies");;
         match companiesData with
         | None => ret (json (BError "Failed to verify company status") 500)
         | Some companiesData =>
           let companies := drop 1 companiesData in
           match find (fun row => JS.eq3 (JS.index row 1) (Some companyName))
                   companies with
           | Some company =>
             let status := JS.or (JS.index company 5) (Some "enabled") in
             if JS.eq3 status (Some "disabled")
             then ret (json (BError "Company is disabled, registration is not available") 403)
             else registerInEvent companyName req
           | None => ret (json (BError "Company not found in the system") 404)
           end
         end
     end)
    (ret (json (BError "Failed to verify company") 500)).

(** [POST /api/events/register]. *)
Definition POST (req : Request) : M Response :=
  tryCatch
    (companyName <~ ofOption (decodeURIComponent (JS.toString (rawCompanyName req)));;
     if missing companyName req
     then ret (json (BError "All fields are required") 400)
     else if negb (Regex.test Regex.emailRegex (JS.toString (email req)))
     then ret (json (BError "Invalid email format") 400)
     else if negb (Regex.test Regex.phoneRegex (JS.toString (whatsappNumber req)))
     then ret (json (BError "Invalid WhatsApp number format") 400)
     else registerInCompany companyName req)
    (ret (json (BError "Failed to register for event") 500)).

(** *** The checks a registration passes before the duplicate check *)

(** Lines 23-69: the company name decodes and the fields validate. *)
Definition valid (req : Request) : option string :=
  match decodeURIComponent (JS.toString (rawCompanyName req)) with
  | Some companyName =>
    if missing companyName req
       || negb (Regex.test Regex.emailRegex (JS.toString (email req)))
       || negb (Regex.test Regex.phoneRegex (JS.toString (whatsappNumber req)))
    then None
    else Some companyName
  | None => None
  end.

(** Lines 71-125: the company has a sheet with rows and a row in the
    companies sheet that is not disabled. *)
Definition companyEnabled (w : World) (companyName : string) : bool :=
  match sheetRows w companyName, sheetRows w "companies" with
  | Some sheetData, Some companiesData =>
    negb (bool_decide (length sheetData = 0))
    && match find (fun row => JS.eq3 (JS.index row 1) (Some companyName))
               (drop 1 companiesData) with
       | Some company =>
         negb (JS.eq3 (JS.or (JS.index company 5) (Some "enabled")) (Some "disabled"))
       | None => false
       end
  | _, _ => false
  end.

(** Lines 127-162: the event has a table with a header row and is not
    disabled. *)
Definition eventOpen (w : World) (companyName eventName : string)
    : option (list row) :=
  match table w companyName eventName with
  | Some tableData =>
    if bool_decide (length tableData = 0) || eventDisabled tableData
    then None
    else Some tableData
  | None => None
  end.

End Handler.

End Register.

(** ** The registration handler of [unnamed/part_001] *)

Module Part001.

(** The JSON body: the number is sent as [whatsapp] here. As in
    [Register.Request], each field is a string or is absent; a field sent
    as another kind of JSON value is outside this type. *)
Record Request := {
  rawCompanyName : JS.value;
  eventName : JS.value;
  name : JS.value;
  whatsapp : JS.value;
  email : JS.value;
  gender : JS.value;
  education : JS.value;
  universityCollege : JS.value;
  age : JS.value;
  nationalId : JS.value;
}.

Section Handler.

Variable decodeURIComponent : string -> option string.
Variable toISOString : Z -> string.

(** The built-in [Number] on a string, as a double. *)
Variable Number : string -> float.

(** Lines 32-33. *)
Definition missing (companyName : string) (req : Request) : bool :=
  negb (JS.truthy (Some companyName)) || negb (JS.truthy (eventName req))
  || negb (JS.truthy (name req)) || negb (JS.truthy (whatsapp req))
  || negb (JS.truthy (email req)) || negb (JS.truthy (gender req))
  || negb (JS.truthy (education req)) || negb (JS.truthy (universityCollege req))
  || negb (JS.truthy (age req)) || negb (JS.truthy (nationalId req)).

(** Line 72: [isNaN(Number(age)) || Number(age) < 15 || Number(age) > 100]. *)
Definition badAge (age : string) : bool :=
  PrimFloat.is_nan (Number age) || PrimFloat.ltb (Number age) 15
  || PrimFloat.ltb 100 (Number age).

(** Lines 141-143: [row[2] === email || row[1] === whatsapp]. *)
Definition existingRegistration (registrationData : list row) (req : Request)
    : option row :=
  find
    (fun row => JS.eq3 (JS.index row 2) (email req)
                || JS.eq3 (JS.index row 1) (whatsapp req))
    registrationData.

(** Lines 123-134. *)
Definition eventDisabled (tableData : list row) : bool :=
  let headers := default [] (tableData !! 0) in
  match JS.findIndex (fun h => JS.eq3 h (Some "EventStatus")) headers with
  | Some statusIndex =>
    bool_decide (1 < length tableData)
    && JS.eq3 (JS.index (default [] (tableData !! 1)) statusIndex) (Some "disabled")
  | None => false
  end.

(** Lines 162-172: the row that is stored. *)
Definition stamped (req : Request) (registrationDate : string) : row :=
  [name req; whatsapp req; nationalId req; email req; education req;
   universityCollege req; age req; gender req; Some registrationDate].

(** Lines 109-191. *)
Definition registerInEvent (companyName : string) (req : Request) : M Response :=
  tryCatch
    (let eventName := JS.toString (eventName req) in
     tableData <~ getTableData companyName eventName;;
     if bool_decide (length tableData = 0)
     then ret (json (BError "Event not found") 404)
     else if eventDisabled tableData
     then ret (json (BError "Event registration is currently disabled") 403)
     else
       let registrationData := drop 1 tableData in
       match existingRegistration registrationData req with
       | Some _ =>
         ret (json (BError "You are already registered for this event") 400)
       | None =>
         now <~ Date_now;;
         let registrationDate := toISOString now in
         addToTable companyName eventName (stamped req registrationDate);;;
         ret (json (BRegistration (name req) (email req) registrationDate) 200)
       end)
    (ret (json (BError "Event not found") 404)).

(** Lines 79-198. *)
Definition registerInCompany (companyName : string) (req : Request) : M Response :=
  tryCatch
    (sheetData <~ getSheetData companyName;;
     if bool_decide (length sheetData = 0)
     then ret (json (BError "Company not found") 404)
     else
       companiesData <~ getSheetData "companies";;
       let companies := drop 1 companiesData in
       match find (fun row => JS.eq3 (JS.index row 1) (Some companyName))
               companies with
       | Some company =>
         let status := JS.or (JS.index company 5) (Some "enabled") in
         if JS.eq3 status (Some "disabled")
         then ret (json (BError "Company is disabled, registration is not available") 403)
         else registerInEvent companyName req
       | None => registerInEvent companyName req
       end)
    (ret (json (BError "Company not found") 404)).

(** [POST /api/events/register]. *)
Definition POST (req : Request) : M Response :=
  tryCatch
    (companyName <~ ofOption (decodeURIComponent (JS.toString (rawCompanyName req)));;
     if missing companyName req
     then ret (json (BError "All fields are required") 400)
     else if negb (Regex.test Regex.emailRegex (JS.toString (email req)))
     then ret (json (BError "Invalid email format") 400)
     else if negb (Regex.test Regex.phoneRegex (JS.toString (whatsapp req)))
     then ret (json (BError "Invalid WhatsApp number format") 400)
     else if badAge (JS.toString (age req))
     then ret (json (BError "Please enter a valid age between 15 and 100") 400)
     else registerInCompany companyName req)
    (ret (json (BError "Failed to register for event") 500)).

(** *** The checks a registration passes before the duplicate check *)

(** Lines 23-77. *)
Definition valid (req : Request) : option string :=
  match decodeURIComponent (JS.toString (rawCompanyName req)) with
  | Some companyName =>
    if missing companyName req
       || negb (Regex.test Regex.emailRegex (JS.toString (email req)))
       || negb (Regex.test Regex.phoneRegex (JS.toString (whatsapp req)))
       || badAge (JS.toString (age req))
    then None
    else Some companyName
  | None => None
  end.

(** Lines 79-107: the company has a sheet with rows, and its row in the
    companies sheet, if there is one, is not disabled. *)
Definition companyEnabled (w : World) (companyName : string) : bool :=
  match sheetRows w companyName, sheetRows w "companies" with
  | Some sheetData, Some companiesData =>
    negb (bool_decide (length sheetData = 0))
    && match find (fun row => JS.eq3 (JS.index row 1) (Some companyName))
               (drop 1 companiesData) with
       | Some company =>
         negb (JS.eq3 (JS.or (JS.index company 5) (Some "enabled")) (Some "disabled"))
       | None => true
       end
  | _, _ => false
  end.

(** Lines 109-134. *)
Definition eventOpen (w : World) (companyName eventName : string)
    : option (list row) :=
  match table w companyName eventName with
  | Some tableData =>
    if bool_decide (length tableData = 0) || eventDisabled tableData
    then None
    else Some tableData
  | None => None
  end.

End Handler.

End Part001.

(** ** [src/app/api/companies/route.ts] *)

Module Companies.

(** The JSON body of [POST] and [PUT]; [deleted] is [None] unless the body
    holds a boolean there ([typeof deleted === 'boolean']). *)
Record Json := {
  id : JS.value;
  name : JS.value;
  username : JS.value;
  password : JS.value;
  image : JS.value;
  status : JS.value;
  deleted : option bool;
}.

(** Lines 24-32: a row of the companies sheet as an object. *)
Definition ofRow (row : row) : Company.t :=
  {| Company.id := JS.index row 0;
     Company.name := JS.index row 1;
     Company.username := JS.index row 2;
     Company.image := JS.or (JS.index row 4) None;
     Company.status := JS.or (JS.index row 5) (Some "enabled");
     Company.deleted := if JS.eq3 (JS.index row 6) (Some "true") then true else false |}.

Definition unauthorized : Response := json (BError "Unauthorized") 401.

(** [GET /api/companies]. *)
Definition GET : M Response :=
  tryCatch
    (session <~ getServerSession;;
     if notAdmin session then ret unauthorized
     else
       data <~ getSheetData "companies";;
       let companies := map ofRow (drop 1 data) in
       ret (json (BCompanies companies) 200))
    (ret (json (BError "Failed to get companies") 500)).

(** Lines 96-105 and 197-206: the image is uploaded when there is one. *)
Definition uploaded (id : string) (image imageUrl : JS.value) : M JS.value :=
  if JS.truthy image then
    now <~ Date_now;;
    let fileName := "company_" +:+ id +:+ "_" +:+ pretty now +:+ ".jpg" in
    uploadResult <~ uploadImage fileName (JS.toString image) "companies";;
    if success uploadResult then ret (url uploadResult) else ret imageUrl
  else ret imageUrl.

(** [POST /api/companies]. *)
Definition POST (req : Json) : M Response :=
  tryCatch
    (session <~ getServerSession;;
     if notAdmin session then ret unauthorized
     else if negb (JS.truthy (name req)) || negb (JS.truthy (username req))
             || negb (JS.truthy (password req))
     then ret (json (BError "Name, username, and password are required") 400)
     else
       tryCatch (getSheetData "companies";;; ret tt)
         (createSheet "companies";;;
          appendToSheet "companies"
            [[Some "ID"; Some "Name"; Some "Username"; Some "Password";
              Some "Image"; Some "Status"; Some "Deleted"]]);;;
       existingData <~ getSheetData "companies";;
       let existingCompanies := drop 1 existingData in
       if existsb (fun row => JS.eq3 (JS.index row 2) (username req)) existingCompanies
       then ret (json (BError "Username already exists") 400)
       else
         now <~ Date_now;;
         let id := "company_" +:+ pretty now in
         hashedPassword <~ bcrypt_hash (JS.toString (password req)) 10;;
         imageUrl <~ uploaded id (image req) None;;
         appendToSheet "companies"
           [[Some id; name req; username req; Some hashedPassword; imageUrl;
             Some "enabled"; Some "false"]];;;
         createSheet (JS.toString (name req));;;
         ret (json
                (BCompany
                   {| Company.id := Some id; Company.name := name req;
                      Company.username := username req;
                      Company.image := imageUrl;
                      Company.status := Some "enabled";
                      Company.deleted := false |}) 200))
    (ret (json (BError "Failed to create company") 500)).

(** Lines 177-179: what [PUT] reads as the current image, status and
    deleted flag of a row. *)
Definition currentImage (currentCompany : row) : JS.value :=
  JS.or (JS.index currentCompany 4) None.

Definition currentStatus (currentCompany : row) : JS.value :=
  JS.or (JS.index currentCompany 5) (Some "enabled").

Definition currentDeleted (currentCompany : row) : bool :=
  if JS.eq3 (JS.index currentCompany 6) (Some "true") then true else false.

(** Lines 182-183: the username changes to one that another row holds. *)
Definition usernameTaken (req : Json) (companyIndex : nat)
    (companies : list row) : bool :=
  let currentUsername :=
    JS.index (default [] (companies !! companyIndex)) 2 in
  JS.truthy (username req)
  && negb (JS.eq3 (username req) currentUsername)
  && JS.somei
       (fun index row =>
          negb (bool_decide (index = companyIndex))
          && JS.eq3 (JS.index row 2) (username req))
       0 companies.

(** Lines 192-195: the password is hashed when there is one. *)
Definition hashed (req : Json) (currentPassword : JS.value) : M JS.value :=
  if JS.truthy (password req)
  then h <~ bcrypt_hash (JS.toString (password req)) 10;; ret (Some h)
  else ret currentPassword.

(** Lines 209-217: the row that is written back. *)
Definition updatedCompany (req : Json) (currentCompany : row)
    (hashedPassword imageUrl : JS.value) : row :=
  [id req;
   JS.or (name req) (JS.index currentCompany 1);
   JS.or (username req) (JS.index currentCompany 2);
   hashedPassword;
   imageUrl;
   JS.or (status req) (currentStatus currentCompany);
   Some (match deleted req with
         | Some d => if d then "true" else "false"
         | None => if currentDeleted currentCompany then "true" else "false"
         end)].

(** Line 222: the name changes. *)
Definition renamed (req : Json) (currentCompany : row) : bool :=
  JS.truthy (name req) && negb (JS.eq3 (name req) (JS.index currentCompany 1)).

(** [PUT /api/companies]. *)
Definition PUT (req : Json) : M Response :=
  tryCatch
    (session <~ getServerSession;;
     if notAdmin session then ret unauthorized
     else if negb (JS.truthy (id req))
     then ret (json (BError "Company ID is required") 400)
     else
       data <~ getSheetData "companies";;
       let companies := drop 1 data in
       match JS.findIndex (fun row => JS.eq3 (JS.index row 0) (id req)) companies with
       | None => ret (json (BError "Company not found") 404)
       | Some companyIndex =>
         let currentCompany := default [] (companies !! companyIndex) in
         let currentName := JS.index currentCompany 1 in
         let currentUsername := JS.index currentCompany 2 in
         let currentPassword := JS.index currentCompany 3 in
         if usernameTaken req companyIndex companies
         then ret (json (BError "Username already exists") 400)
         else
           hashedPassword <~ hashed req currentPassword;;
           imageUrl <~ uploaded (JS.toString (id req)) (image req)
                         (currentImage currentCompany);;
           updateRow "companies" (companyIndex + 1)
             (updatedCompany req currentCompany hashedPassword imageUrl);;;
           (if renamed req currentCompany
            then renameSheet currentName (JS.toString (name req))
            else ret tt);;;
           ret (json
                  (BCompany
                     {| Company.id := id req;
                        Company.name := JS.or (name req) currentName;
                        Company.username := JS.or (username req) currentUsername;
                        Company.image := imageUrl;
                        Company.status := JS.or (status req) (currentStatus currentCompany);
                        Company.deleted :=
                          match deleted req with
                          | Some d => d
                          | None => currentDeleted currentCompany
                          end |}) 200)
       end)
    (ret (json (BError "Failed to update company") 500)).

(** [DELETE /api/companies?id={id}]; [id] is [searchParams.get('id')]. *)
Definition DELETE (id : JS.value) : M Response :=
  tryCatch
    (session <~ getServerSession;;
     if notAdmin session then ret unauthorized
     else if negb (JS.truthy id)
     then ret (json (BError "Company ID is required") 400)
     else
       data <~ getSheetData "companies";;
       let companies := drop 1 data in
       match JS.findIndex (fun row => JS.eq3 (JS.index row 0) id) companies with
       | None => ret (json (BError "Company not found") 404)
       | Some companyIndex =>
         let companyName := JS.index (default [] (companies !! companyIndex)) 1 in
         let updatedCompany :=
           JS.setIndex (default [] (companies !! companyIndex)) 6 (Some "true") in
         updateRow "companies" (companyIndex + 1) updatedCompany;;;
         renameSheet companyName (JS.toString companyName +:+ "-deleted");;;
         ret (json
                (BMessage ("Company " +:+ JS.toString companyName
                           +:+ " marked as deleted successfully")) 200)
       end)
    (ret (json (BError "Failed to mark company as deleted") 500)).

End Companies.

(** ** [src/app/control_admin/page.tsx] *)

Module ControlAdmin.

(** Line 209: the companies the dashboard lists; [showDeleted] starts as
    [false]. *)
Definition listed (showDeleted : bool) (companies : list Company.t)
    : list Company.t :=
  filter (fun company =>
            Is_true (if showDeleted then Company.deleted company
                     else negb (Company.deleted company)))
    companies.

End ControlAdmin.

(** ** A small spreadsheet to run the handlers on *)

Module Demo.

(** Stand-ins for the built-ins, right on the inputs used below:
    [decodeURIComponent] on a string without [%], [toISOString] within the
    first second of 2 November 2025, [Number] on ["21"]. *)
Definition decode (s : string) : option string := Some s.

Definition midnight : Z := 1762041600000.

Definition pad3 (n : Z) : string :=
  pretty (n / 100 `mod` 10)%Z +:+ pretty (n / 10 `mod` 10)%Z +:+ pretty (n `mod` 10)%Z.

Definition iso (t : Z) : string :=
  "2025-11-02T00:00:00." +:+ pad3 (t - midnight) +:+ "Z".

Definition number (s : string) : float :=
  if bool_decide (s = "21") then 21%float else PrimFloat.nan.

Definition companiesHeader : row :=
  [Some "ID"; Some "Name"; Some "Username"; Some "Password"; Some "Image";
   Some "Status"; Some "Deleted"].

Definition acme (status deleted : string) : row :=
  [Some "company_1700000000000"; Some "Acme"; Some "acme"; Some "$2a$10$acme";
   None; Some status; Some deleted].

(** The header the registration handler expects (its comment at lines
    196-197), and one that names the same columns differently. *)
Definition eventHeader : row :=
  [Some "Name"; Some "WhatsApp Number"; Some "ID National Number"; Some "Email";
   Some "Education"; Some "University and College"; Some "Age"; Some "Gender"].

Definition otherHeader : row :=
  [Some "Full name"; Some "Phone"; Some "National ID"; Some "E-mail";
   Some "Education"; Some "University"; Some "Age"; Some "Gender"].

Definition world (companies : list row) (company : gmap string Sheet) : World :=
  {| sheets :=
       <["companies" := {| rows := companiesHeader :: companies; tables := ∅ |}]>
         company;
     calls := [];
     ticks := 0;
     session := Some {| userType := "admin" |};
     clock := fun k => (midnight + Z.of_nat k)%Z;
     bcryptHash := fun password rounds => "$2a$" +:+ pretty rounds +:+ "$" +:+ password;
     upload := fun _ _ _ => Some {| success := false; url := None |} |}.

(** The sheet of company Acme with one event table. *)
Definition acmeSheet (launch : list row) : gmap string Sheet :=
  {["Acme" := {| rows := [[Some "Launch"]]; tables := {["Launch" := launch]} |}]}.

Definition mona : Register.Request :=
  {| Register.rawCompanyName := Some "Acme";
     Register.eventName := Some "Launch";
     Register.name := Some "Mona Adel";
     Register.whatsappNumber := Some "201001234567";
     Register.nationalId := Some "29901011234567";
     Register.email := Some "mona@example.org";
     Register.education := Some "student";
     Register.universityCollege := Some "Cairo University";
     Register.age := Some "21";
     Register.gender := Some "female" |}.

Definition mona1 (whatsapp : string) : Part001.Request :=
  {| Part001.rawCompanyName := Some "Acme";
     Part001.eventName := Some "Launch";
     Part001.name := Some "Mona Adel";
     Part001.whatsapp := Some whatsapp;
     Part001.email := Some "mona@example.org";
     Part001.gender := Some "female";
     Part001.education := Some "student";
     Part001.universityCollege := Some "Cairo University";
     Part001.age := Some "21";
     Part001.nationalId := Some "29901011234567" |}.

(** Acme with an open event, under the expected header and under the other
    one, before and after Mona registers. *)
Definition fresh (header : row) : World :=
  world [acme "enabled" "false"] (acmeSheet [header]).

Definition registeredOnce (header : row) : World :=
  (Register.POST decode iso mona (fresh header)).2.

(** The admin's requests on Acme and for a new company Beta. *)
Definition acmeId : string := "company_1700000000000".

Definition put (name status : JS.value) : Companies.Json :=
  {| Companies.id := Some acmeId; Companies.name := name;
     Companies.username := None; Companies.password := None;
     Companies.image := None; Companies.status := status;
     Companies.deleted := None |}.

Definition beta : Companies.Json :=
  {| Companies.id := None; Companies.name := Some "Beta";
     Companies.username := Some "beta"; Companies.password := Some "secret";
     Companies.image := Some "data:image/jpeg;base64,AAAA";
     Companies.status := None; Companies.deleted := None |}.

(** What the dashboard sends to restore Acme, and Acme once soft-deleted. *)
Definition restore : Companies.Json :=
  {| Companies.id := Some acmeId; Companies.name := None;
     Companies.username := None; Companies.password := None;
     Companies.image := None; Companies.status := None;
     Companies.deleted := Some false |}.

Definition softDeleted : World :=
  (Companies.DELETE (Some acmeId) (fresh eventHeader)).2.

(** A row of Acme whose image and status cells are empty. *)
Definition bare : row :=
  [Some acmeId; Some "Acme"; Some "acme"; Some "$2a$10$acme"; Some ""; Some "";
   Some "false"].

End Demo.

(** ** The registration handler kept in [src/app/api/test/route.ts] *)

(** Lines 118-319 of the file, after its [GET /api/test]: the handler of
    [route.ts] without the [try] around each collaborator call and without
    the answer for a company that is not in the companies list. It reads the
    same body as [route.ts] and has the same validation (lines 148-186),
    event status and duplicate check (lines 231-262) and stored row (lines
    276-286), for which the definitions of [Register] are used. *)
Module TestRoute.

Section Handler.

Variable decodeURIComponent : string -> option string.
Variable toISOString : Z -> string.

(** Lines 217-305. *)
Definition registerInEvent (companyName : string) (req : Register.Request)
    : M Response :=
  tryCatch
    (let eventName := JS.toString (Register.eventName req) in
     tableData <~ getTableData companyName eventName;;
     if bool_decide (length tableData = 0)
     then ret (json (BError "Event not found") 404)
     else if Register.eventDisabled tableData
     then ret (json (BError "Event registration is currently disabled") 403)
     else
       let headers := default [] (tableData !! 0) in
       let registrationData := drop 1 tableData in
       match Register.existingRegistration headers registrationData req with
       | Some _ =>
         ret (json (BError "You are already registered for this event") 400)
       | None =>
         now <~ Date_now;;
         let registrationDate := toISOString now in
         addToTable companyName eventName (Register.stamped req registrationDate);;;
         ret (json (BRegistration (Register.name req) (Register.email req)
                      registrationDate) 200)
       end)
    (ret (json (BError "Event not found") 404)).

(** Lines 187-312. *)
Definition registerInCompany (companyName : string) (req : Register.Request)
    : M Response :=
  tryCatch
    (sheetData <~ getSheetData companyName;;
     if bool_decide (length sheetData = 0)
     then ret (json (BError "Company not found") 404)
     else
       companiesData <~ getSheetData "companies";;
       let companies := drop 1 companiesData in
       match find (fun row => JS.eq3 (JS.index row 1) (Some companyName))
               companies with
       | Some company =>
         let status := JS.or (JS.index company 5) (Some "enabled") in
         if JS.eq3 status (Some "disabled")
         then ret (json (BError "Company is disabled, registration is not available") 403)
         else registerInEvent companyName req
       | None => registerInEvent companyName req
       end)
    (ret (json (BError "Company not found") 404)).

(** [POST /api/events/register], lines 121-319. *)
Definition POST (req : Register.Request) : M Response :=
  tryCatch
    (companyName <~
       ofOption (decodeURIComponent (JS.toString (Register.rawCompanyName req)));;
     if Register.missing companyName req
     then ret (json (BError "All fields are required") 400)
     else if negb (Regex.test Regex.emailRegex (JS.toString (Register.email req)))
     then ret (json (BError "Invalid email format") 400)
     else if negb (Regex.test Regex.phoneRegex
                     (JS.toString (Register.whatsappNumber req)))
     then ret (json (BError "Invalid WhatsApp number format") 400)
     else registerInCompany companyName req)
    (ret (json (BError "Failed to register for event") 500)).

End Handler.

End TestRoute.

(** ** [GET /api/test] of [src/app/api/test/route.ts] (lines 1-117) *)

(** The endpoint reads no session. It reports what [getSheetData] and
    [getTableData] find for the [company] and [event] of the query string,
    and lists the companies table. Where a collaborator throws, the report
    says [found: false] and repeats the message of the error; the model of
    the collaborators carries no message, so [NotFound] stands for that
    entry. *)
Module Diagnostics.

Inductive Probe (A : Type) :=
| Found (a : A)
| NotFound.
Arguments Found {A} a.
Arguments NotFound {A}.

(** An entry of [results.companies.list]. *)
Record Listed := { id : JS.value; name : JS.value; status : JS.value }.

(** The body [{ status: 'ok', timestamp, query, results }]; a key of
    [results] that is never set is [None]. [company] holds the row count,
    [event] the row count and [eventData[0]], [companies] the row count and
    the list. *)
Record Report := {
  timestamp : string;
  queryCompany : JS.value;
  queryEvent : JS.value;
  company : option (Probe nat);
  event : option (Probe (nat * option row));
  companies : Probe (nat * list Listed);
}.

(** The answers: the report with status 200, or
    [{ status: 'error', message, stack }] with status 500. *)
Inductive Answer :=
| Ok (report : Report)
| Failed.

Section Handler.

Variable toISOString : Z -> string.

(** Lines 64-79: the event of the query. *)
Definition probeEvent (company : string) (event : JS.value)
    : M (option (Probe (nat * option row))) :=
  if JS.truthy event then
    tryCatch
      (eventData <~ getTableData company (JS.toString event);;
       ret (Some (Found (length eventData, eventData !! 0))))
      (ret (Some NotFound))
  else ret None.

(** Lines 55-86: the company of the query, then its event. *)
Definition probeCompany (company event : JS.value)
    : M (option (Probe nat) * option (Probe (nat * option row))) :=
  if JS.truthy company then
    tryCatch
      (companyData <~ getSheetData (JS.toString company);;
       probed <~ probeEvent (JS.toString company) event;;
       ret (Some (Found (length companyData)), probed))
      (ret (Some NotFound, None))
  else ret (None, None).

(** Lines 88-105: the companies table. *)
Definition probeCompanies : M (Probe (nat * list Listed)) :=
  tryCatch
    (companiesData <~ getSheetData "companies";;
     ret (Found (length companiesData,
                 map (fun row =>
                        {| id := JS.index row 0;
                           name := JS.index row 1;
                           status := JS.or (JS.index row 5) (Some "enabled") |})
                   (drop 1 companiesData))))
    (ret NotFound).

(** [GET /api/test?company={company}&event={event}]; the two arguments are
    [searchParams.get('company')] and [searchParams.get('event')]. *)
Definition GET (company event : JS.value) : M (Answer * nat) :=
  tryCatch
    (now <~ Date_now;;
     probed <~ probeCompany company event;;
     listed <~ probeCompanies;;
     ret (Ok {| timestamp := toISOString now;
                queryCompany := company;
                queryEvent := event;
                company := probed.1;
                event := probed.2;
                companies := listed |}, 200))
    (ret (Failed, 500)).

End Handler.

End Diagnostics.

(** ** What a page does with a response *)

Module Fetch.

(** [response.ok]. *)
Definition ok (response : Response) : bool :=
  bool_decide (200 <= code response) && bool_decide (code response <= 299).

(** [errorData.error] of the parsed body. *)
Definition error (response : Response) : JS.value :=
  match body response with
  | BError e => Some e
  | _ => None
  end.

(** [data.companies || []] of the parsed body. *)
Definition companies (response : Response) : list Company.t :=
  match body response with
  | BCompanies l => l
  | _ => []
  end.

End Fetch.

(** ** The first registration page of [unnamed/part_000] (lines 1-563) *)

Module Form1.

Record FormData := {
  name : string;
  whatsapp : string;
  nationalId : string;
  email : string;
  education : string;
  universityCollege : string;
  age : string;
  gender : string;
}.

(** The state [handleSubmit] reads and sets. *)
Record Page := {
  companyName : string;
  exactEventName : JS.value;
  eventDisabled : bool;
  companyDisabled : bool;
  formData : FormData;
  error : string;
  success : bool;
  submitting : bool;
}.

Definition setError (e : string) (p : Page) : Page :=
  {| companyName := companyName p; exactEventName := exactEventName p;
     eventDisabled := eventDisabled p; companyDisabled := companyDisabled p;
     formData := formData p; error := e; success := success p;
     submitting := submitting p |}.

(** Lines 199-208: the form after a registration. *)
Definition emptyForm : FormData :=
  {| name := ""; whatsapp := ""; email := ""; gender := "male";
     education := "student"; universityCollege := ""; nationalId := "";
     age := "" |}.

(** The body of this page as the handler of [route.ts] destructures it (its
    lines 9-20): the number is sent under the key [whatsapp], so
    [whatsappNumber] is not in it. *)
Definition destructured (b : Part001.Request) : Register.Request :=
  {| Register.rawCompanyName := Part001.rawCompanyName b;
     Register.eventName := Part001.eventName b;
     Register.name := Part001.name b;
     Register.whatsappNumber := None;
     Register.nationalId := Part001.nationalId b;
     Register.email := Part001.email b;
     Register.education := Part001.education b;
     Register.universityCollege := Part001.universityCollege b;
     Register.age := Part001.age b;
     Register.gender := Part001.gender b |}.

Section Handler.

Variable Number : string -> float.

(** What [fetch('/api/events/register', { method: 'POST', body })] runs on
    the server. *)
Variable register : Part001.Request -> M Response.

(** Lines 184-188: [{ companyName, eventName: exactEventName, ...formData }]. *)
Definition body (p : Page) : Part001.Request :=
  {| Part001.rawCompanyName := Some (companyName p);
     Part001.eventName := exactEventName p;
     Part001.name := Some (name (formData p));
     Part001.whatsapp := Some (whatsapp (formData p));
     Part001.email := Some (email (formData p));
     Part001.gender := Some (gender (formData p));
     Part001.education := Some (education (formData p));
     Part001.universityCollege := Some (universityCollege (formData p));
     Part001.age := Some (age (formData p));
     Part001.nationalId := Some (nationalId (formData p)) |}.

(** Lines 124-169: the message the page shows instead of submitting. *)
Definition refusal (p : Page) : option string :=
  let f := formData p in
  if negb (JS.truthy (exactEventName p))
  then Some "Event information is missing. Please refresh the page and try again."
  else if eventDisabled p || companyDisabled p
  then Some "Registration is currently disabled for this event."
  else if negb (JS.truthy (Some (name f))) || negb (JS.truthy (Some (whatsapp f)))
          || negb (JS.truthy (Some (email f))) || negb (JS.truthy (Some (gender f)))
          || negb (JS.truthy (Some (education f)))
          || negb (JS.truthy (Some (universityCollege f)))
          || negb (JS.truthy (Some (nationalId f))) || negb (JS.truthy (Some (age f)))
  then Some "All fields are required"
  else if negb (Regex.test Regex.emailRegex (email f))
  then Some "Invalid email format"
  else if negb (Regex.test Regex.phoneRegex (whatsapp f))
  then Some "Invalid WhatsApp number format"
  else if PrimFloat.is_nan (Number (age f)) || PrimFloat.ltb (Number (age f)) 15
          || PrimFloat.ltb 100 (Number (age f))
  then Some "Please enter a valid age between 15 and 100"
  else None.

(** Lines 121-216. *)
Definition handleSubmit (p : Page) : M Page :=
  match refusal p with
  | Some e => ret (setError e p)
  | None =>
    response <~ register (body p);;
    if negb (Fetch.ok response)
    then
      ret {| companyName := companyName p; exactEventName := exactEventName p;
             eventDisabled := eventDisabled p; companyDisabled := companyDisabled p;
             formData := formData p;
             error := JS.toString (JS.or (Fetch.error response)
                                     (Some "Failed to register for event"));
             success := success p; submitting := false |}
    else
      ret {| companyName := companyName p; exactEventName := exactEventName p;
             eventDisabled := eventDisabled p; companyDisabled := companyDisabled p;
             formData := emptyForm; error := ""; success := true;
             submitting := false |}
  end.

End Handler.

End Form1.

(** ** The second registration page of [unnamed/part_000] (lines 565-1196) *)

Module Form2.

Record FormData := {
  name : string;
  nationalId : string;
  passportNumber : string;
  phone : string;
  email : string;
  university : string;
  faculty : string;
  level : string;
  gender : string;
  age : string;
}.

Record Page := {
  companyName : string;
  exactEventName : JS.value;
  eventDisabled : bool;
  companyDisabled : bool;
  formData : FormData;
  error : string;
  success : bool;
  submitting : bool;
}.

Definition setError (e : string) (p : Page) : Page :=
  {| companyName := companyName p; exactEventName := exactEventName p;
     eventDisabled := eventDisabled p; companyDisabled := companyDisabled p;
     formData := formData p; error := e; success := success p;
     submitting := submitting p |}.

(** Lines 761-773: the form after a registration. *)
Definition emptyForm : FormData :=
  {| name := ""; nationalId := ""; passportNumber := ""; phone := "";
     email := ""; university := ""; faculty := ""; level := "";
     gender := "male"; age := "" |}.

(** Lines 746-750: the body [{ companyName, eventName: exactEventName,
    ...formData }]. *)
Record Sent := { sentCompanyName : string; sentEventName : JS.value; sentForm : FormData }.

(** The body as the handler of [route.ts] destructures it (its lines 9-20):
    the keys [whatsappNumber], [education] and [universityCollege] are not
    in it. *)
Definition destructured (b : Sent) : Register.Request :=
  {| Register.rawCompanyName := Some (sentCompanyName b);
     Register.eventName := sentEventName b;
     Register.name := Some (name (sentForm b));
     Register.whatsappNumber := None;
     Register.nationalId := Some (nationalId (sentForm b));
     Register.email := Some (email (sentForm b));
     Register.education := None;
     Register.universityCollege := None;
     Register.age := Some (age (sentForm b));
     Register.gender := Some (gender (sentForm b)) |}.

Section Handler.

(** What [fetch('/api/events/register', { method: 'POST', body })] runs on
    the server. *)
Variable register : Sent -> M Response.

Definition body (p : Page) : Sent :=
  {| sentCompanyName := companyName p; sentEventName := exactEventName p;
     sentForm := formData p |}.

(** Lines 691-731: the message the page shows instead of submitting. *)
Definition refusal (p : Page) : option string :=
  let f := formData p in
  if negb (JS.truthy (exactEventName p))
  then Some "Event information is missing. Please refresh the page and try again."
  else if eventDisabled p || companyDisabled p
  then Some "Registration is currently disabled for this event."
  else if negb (JS.truthy (Some (name f))) || negb (JS.truthy (Some (phone f)))
          || negb (JS.truthy (Some (email f))) || negb (JS.truthy (Some (gender f)))
          || negb (JS.truthy (Some (university f)))
          || negb (JS.truthy (Some (faculty f)))
          || negb (JS.truthy (Some (level f))) || negb (JS.truthy (Some (age f)))
          || (negb (JS.truthy (Some (nationalId f)))
              && negb (JS.truthy (Some (passportNumber f))))
  then Some "All fields are required"
  else if negb (Regex.test Regex.emailRegex (email f))
  then Some "Invalid email format"
  else if negb (Regex.test Regex.phoneRegex (phone f))
  then Some "Invalid phone number format"
  else None.

(** Lines 688-781. *)
Definition handleSubmit (p : Page) : M Page :=
  match refusal p with
  | Some e => ret (setError e p)
  | None =>
    response <~ register (body p);;
    if negb (Fetch.ok response)
    then
      ret {| companyName := companyName p; exactEventName := exactEventName p;
             eventDisabled := eventDisabled p; companyDisabled := companyDisabled p;
             formData := formData p;
             error := JS.toString (JS.or (Fetch.error response)
                                     (Some "Failed to register for event"));
             success := success p; submitting := false |}
    else
      ret {| companyName := companyName p; exactEventName := exactEventName p;
             eventDisabled := eventDisabled p; companyDisabled := companyDisabled p;
             formData := emptyForm; error := ""; success := true;
             submitting := false |}
  end.

End Handler.

End Form2.

(** ** The handlers of the dashboard, [src/app/control_admin/page.tsx] *)

Module Dashboard.

(** The state the handlers read and set. *)
Record State := {
  companies : list Company.t;
  loading : bool;
  error : string;
  showDeleted : bool;
}.

Definition setError (e : string) (s : State) : State :=
  {| companies := companies s; loading := loading s; error := e;
     showDeleted := showDeleted s |}.

(** Lines 44-62; [fetch('/api/companies')] runs [GET]. *)
Definition fetchCompanies (s : State) : M State :=
  response <~ Companies.GET;;
  if negb (Fetch.ok response)
  then ret {| companies := companies s; loading := false;
              error := "Failed to load companies"; showDeleted := showDeleted s |}
  else ret {| companies := Fetch.companies response; loading := false;
              error := error s; showDeleted := showDeleted s |}.

(** Lines 118-143; [{ id, status: newStatus }] goes to [PUT]. *)
Definition handleToggleCompanyStatus (id : JS.value) (currentStatus : string)
    (s : State) : M State :=
  let newStatus :=
    if bool_decide (currentStatus = "disabled") then "enabled" else "disabled" in
  response <~
    Companies.PUT
      {| Companies.id := id; Companies.name := None; Companies.username := None;
         Companies.password := None; Companies.image := None;
         Companies.status := Some newStatus; Companies.deleted := None |};;
  if negb (Fetch.ok response)
  then ret (setError "Failed to update company status" s)
  else fetchCompanies s.

(** Lines 86-116; [confirmed] is the answer to [confirm(...)], and
    [{ id, deleted: false }] goes to [PUT]. *)
Definition handleRestoreCompany (confirmed : bool) (id : JS.value) (s : State)
    : M State :=
  if negb confirmed then ret s
  else
    match find (fun c => JS.eq3 (Company.id c) id) (companies s) with
    | None => ret s
    | Some _ =>
      response <~
        Companies.PUT
          {| Companies.id := id; Companies.name := None;
             Companies.username := None; Companies.password := None;
             Companies.image := None; Companies.status := None;
             Companies.deleted := Some false |};;
      if negb (Fetch.ok response)
      then ret (setError "Failed to restore company" s)
      else fetchCompanies s
    end.

Section Delete.

(** [searchParams.get('id')] on the server for the URL
    [`/api/companies?id=${id}`] the page builds. *)
Variable idOfQuery : JS.value -> JS.value.

(** Lines 64-84. *)
Definition handleDeleteCompany (confirmed : bool) (id : JS.value) (s : State)
    : M State :=
  if negb confirmed then ret s
  else
    response <~ Companies.DELETE (idOfQuery id);;
    if negb (Fetch.ok response)
    then ret (setError "Failed to delete company" s)
    else fetchCompanies s.

End Delete.

(** Line 260: the status the switch of a listed company passes to
    [handleToggleCompanyStatus], [company.status || 'enabled']. *)
Definition shownStatus (company : Company.t) : string :=
  JS.toString (JS.or (Company.status company) (Some "enabled")).

End Dashboard.

(** ** Reading the companies table *)


(** ** The words a regular expression matches *)

Module Matching.

(** [Match r l]: the code points [l], from first to last, are a word of
    [r]. [Regex.test] decides it (lemma [test_Match] below). *)
Inductive Match : Regex.re -> list N -> Prop :=
| MEmpty : Match Regex.Empty []
| MClass p c : p c = true -> Match (Regex.Class p) [c]
| MCat a b l1 l2 : Match a l1 -> Match b l2 -> Match (Regex.Cat a b) (l1 ++ l2)
| MAltL a b l : Match a l -> Match (Regex.Alt a b) l
| MAltR a b l : Match b l -> Match (Regex.Alt a b) l
| MStarNil a : Match (Regex.Star a) []
| MStarApp a l1 l2 :
    Match a l1 -> Match (Regex.Star a) l2 -> Match (Regex.Star a) (l1 ++ l2).

End Matching.

(** ** More inputs to run the handlers on *)

Module Cases.

(** The spreadsheet of [Demo.fresh] seen without a session. *)
Definition signedOut : World :=
  {| sheets := sheets (Demo.fresh Demo.eventHeader);
     calls := [];
     ticks := 0;
     session := None;
     clock := fun k => (Demo.midnight + Z.of_nat k)%Z;
     bcryptHash := fun password rounds => "$2a$" +:+ pretty rounds +:+ "$" +:+ password;
     upload := fun _ _ _ => None |}.

(** A second company, and the spreadsheet with both. *)
Definition betaRow : row :=
  [Some "company_1700000000001"; Some "Beta"; Some "beta"; Some "$2a$10$beta";
   None; Some "enabled"; Some "false"].

Definition twoCompanies : World :=
  Demo.world [Demo.acme "enabled" "false"; betaRow] (Demo.acmeSheet [Demo.eventHeader]).

(** The sheets of [Demo.fresh] as records. *)
Definition companiesSheet : Sheet :=
  {| rows := [Demo.companiesHeader; Demo.acme "enabled" "false"]; tables := ∅ |}.

Definition acmeSheet : Sheet :=
  {| rows := [[Some "Launch"]]; tables := {["Launch" := [Demo.eventHeader]]} |}.

(** A request for a company named like one that has a sheet already. *)
Definition acmeAgain : Companies.Json :=
  {| Companies.id := None; Companies.name := Some "Acme";
     Companies.username := Some "acme2"; Companies.password := Some "secret";
     Companies.image := None; Companies.status := None;
     Companies.deleted := None |}.

(** The dashboard before its first fetch (lines 21-24 of
    [control_admin/page.tsx]). *)
Definition dashboard : Dashboard.State :=
  {| Dashboard.companies := []; Dashboard.loading := true; Dashboard.error := "";
     Dashboard.showDeleted := false |}.

(** The first page of [part_000], filled in by Mona for Acme's event. *)
Definition page1 : Form1.Page :=
  {| Form1.companyName := "Acme";
     Form1.exactEventName := Some "Launch";
     Form1.eventDisabled := false;
     Form1.companyDisabled := false;
     Form1.formData :=
       {| Form1.name := "Mona Adel"; Form1.whatsapp := "201001234567";
          Form1.nationalId := "29901011234567"; Form1.email := "mona@example.org";
          Form1.education := "student";
          Form1.universityCollege := "Cairo University";
          Form1.age := "21"; Form1.gender := "female" |};
     Form1.error := "";
     Form1.success := false;
     Form1.submitting := false |}.

(** Mona's request of [Demo.mona], for another company. *)
Definition monaFor (company : string) : Register.Request :=
  {| Register.rawCompanyName := Some company;
     Register.eventName := Some "Launch";
     Register.name := Some "Mona Adel";
     Register.whatsappNumber := Some "201001234567";
     Register.nationalId := Some "29901011234567";
     Register.email := Some "mona@example.org";
     Register.education := Some "student";
     Register.universityCollege := Some "Cairo University";
     Register.age := Some "21";
     Register.gender := Some "female" |}.

End Cases.

(** * Properties *)

(** ** The regular expressions on a few inputs *)

Example email_ok : Regex.test Regex.emailRegex "mona@example.org" = true.
Proof. vm_compute. reflexivity. Qed.

Example email_two_ats : Regex.test Regex.emailRegex "mona@@example.org" = false.
Proof. vm_compute. reflexivity. Qed.

Example email_no_dot : Regex.test Regex.emailRegex "mona@example" = false.
Proof. vm_compute. reflexivity. Qed.

Example phone_ok : Regex.test Regex.phoneRegex "201001234567" = true.
Proof. vm_compute. reflexivity. Qed.

Example phone_short : Regex.test Regex.phoneRegex "123456789" = false.
Proof. vm_compute. reflexivity. Qed.

Example phone_long : Regex.test Regex.phoneRegex "1234567890123456" = false.
Proof. vm_compute. reflexivity. Qed.

(** ** Running computations *)

Lemma bind_value {A B} (m : M A) (k : A -> M B) w a w' :
  m w = (Value a, w') -> bind m k w = k a w'.
Proof. intros H. unfold bind. by rewrite H. Qed.

Lemma bind_thrown {A B} (m : M A) (k : A -> M B) w w' :
  m w = (Thrown, w') -> bind m k w = (Thrown, w').
Proof. intros H. unfold bind. by rewrite H. Qed.

Lemma tryCatch_value {A} (m h : M A) w a w' :
  m w = (Value a, w') -> tryCatch m h w = (Value a, w').
Proof. intros H. unfold tryCatch. by rewrite H. Qed.

Lemma tryCatch_thrown {A} (m h : M A) w w' :
  m w = (Thrown, w') -> tryCatch m h w = h w'.
Proof. intros H. unfold tryCatch. by rewrite H. Qed.

(** A [try] whose [catch] returns a response always answers. *)
Lemma tryCatch_answers {A} (m : M A) (a : A) w :
  exists r w', tryCatch m (ret a) w = (Value r, w').
Proof.
  unfold tryCatch, ret. destruct (m w) as [[r|] w']; eauto.
Qed.

Lemma getSheetData_some w sheetName sh :
  sheets w !! sheetName = Some sh ->
  getSheetData sheetName w = (Value (rows sh), logCall (CGetSheetData sheetName) w).
Proof. intros H. unfold getSheetData. cbn. by rewrite H. Qed.

Lemma getSheetData_none w sheetName :
  sheets w !! sheetName = None ->
  getSheetData sheetName w = (Thrown, logCall (CGetSheetData sheetName) w).
Proof. intros H. unfold getSheetData. cbn. by rewrite H. Qed.

Lemma getTableData_some w sheetName tableName t :
  table w sheetName tableName = Some t ->
  getTableData sheetName tableName w
  = (Value t, logCall (CGetTableData sheetName tableName) w).
Proof. intros H. unfold getTableData, table in *. cbn. by rewrite H. Qed.

Lemma addToTable_some w sheetName tableName sh t r :
  sheets w !! sheetName = Some sh ->
  tables sh !! tableName = Some t ->
  addToTable sheetName tableName r w
  = (Value tt,
     setSheets
       (<[sheetName := {| rows := rows sh;
                          tables := <[tableName := (t ++ [r])%list]> (tables sh) |}]>
          (sheets w))
       (logCall (CAddToTable sheetName tableName r) w)).
Proof. intros H1 H2. unfold addToTable. cbn. by rewrite H1, H2. Qed.

Lemma table_inv w sheetName tableName t :
  table w sheetName tableName = Some t ->
  exists sh, sheets w !! sheetName = Some sh /\ tables sh !! tableName = Some t.
Proof.
  unfold table. destruct (sheets w !! sheetName) as [sh|]; cbn; [eauto | done].
Qed.

(** What a stored row leaves of the spreadsheet. *)
Lemma table_stored_eq (s : gmap string Sheet) w sheetName tableName sh t :
  table
    (setSheets
       (<[sheetName := {| rows := rows sh;
                          tables := <[tableName := t]> (tables sh) |}]> s) w)
    sheetName tableName = Some t.
Proof. unfold table. cbn. rewrite lookup_insert_eq. cbn. by rewrite lookup_insert_eq. Qed.

Lemma table_stored_ne w w0 sheetName tableName sh t s' t' :
  sheets w !! sheetName = Some sh ->
  (s', t') <> (sheetName, tableName) ->
  table
    (setSheets
       (<[sheetName := {| rows := rows sh;
                          tables := <[tableName := t]> (tables sh) |}]> (sheets w))
       w0)
    s' t' = table w s' t'.
Proof.
  intros Hsh Hne. unfold table. cbn.
  destruct (decide (sheetName = s')) as [<-|Hs].
  - rewrite lookup_insert_eq, Hsh. cbn.
    rewrite lookup_insert_ne; [done | congruence].
  - by rewrite lookup_insert_ne.
Qed.

Lemma sheetRows_stored w w0 sheetName sh tbls s' :
  sheets w !! sheetName = Some sh ->
  sheetRows
    (setSheets (<[sheetName := {| rows := rows sh; tables := tbls |}]> (sheets w)) w0)
    s'
  = sheetRows w s'.
Proof.
  intros Hsh. unfold sheetRows. cbn.
  destruct (decide (sheetName = s')) as [<-|Hs].
  - by rewrite lookup_insert_eq, Hsh.
  - by rewrite lookup_insert_ne.
Qed.

(** ** The registration handler of [route.ts] *)

Section RegisterProperties.

Variable decodeURIComponent : string -> option string.
Variable toISOString : Z -> string.

#[local] Abbreviation POST := (Register.POST decodeURIComponent toISOString).
#[local] Abbreviation valid := (Register.valid decodeURIComponent).

Lemma Register_valid_inv req companyName :
  valid req = Some companyName ->
  decodeURIComponent (JS.toString (Register.rawCompanyName req)) = Some companyName
  /\ Register.missing companyName req = false
  /\ Regex.test Regex.emailRegex (JS.toString (Register.email req)) = true
  /\ Regex.test Regex.phoneRegex (JS.toString (Register.whatsappNumber req)) = true.
Proof.
  unfold Register.valid. intros H.
  destruct (decodeURIComponent _) as [c|]; [|done].
  destruct (Register.missing c req) eqn:Hm; [done|].
  destruct (Regex.test Regex.emailRegex _) eqn:He; [|done].
  destruct (Regex.test Regex.phoneRegex _) eqn:Hp; [|done].
  cbn in H. by simplify_eq.
Qed.

Lemma Register_registerInEvent_answers companyName req w :
  exists r w', Register.registerInEvent toISOString companyName req w = (Value r, w').
Proof. apply tryCatch_answers. Qed.

Lemma Register_registerInCompany_answers companyName req w :
  exists r w', Register.registerInCompany toISOString companyName req w = (Value r, w').
Proof. apply tryCatch_answers. Qed.

Lemma Register_POST_valid req companyName w :
  valid req = Some companyName ->
  POST req w = Register.registerInCompany toISOString companyName req w.
Proof.
  intros (Hd & Hm & He & Hp)%Register_valid_inv.
  destruct (Register_registerInCompany_answers companyName req w) as (r & w' & Hr).
  unfold Register.POST, tryCatch at 1. unfold bind. rewrite Hd.
  unfold ofOption, ret. rewrite Hm, He, Hp. cbn [negb]. by rewrite Hr.
Qed.

Lemma Register_companyEnabled_inv w companyName :
  Register.companyEnabled w companyName = true ->
  exists sh csh company,
    sheets w !! companyName = Some sh /\ length (rows sh) <> 0
    /\ sheets w !! "companies" = Some csh
    /\ find (fun row => JS.eq3 (JS.index row 1) (Some companyName))
         (drop 1 (rows csh)) = Some company
    /\ JS.eq3 (JS.or (JS.index company 5) (Some "enabled")) (Some "disabled") = false.
Proof.
  unfold Register.companyEnabled, sheetRows. intros H.
  destruct (sheets w !! companyName) as [sh|]; [|done].
  destruct (sheets w !! "companies") as [csh|]; [|done]. cbn in H.
  apply andb_true_iff in H as [Hlen H].
  destruct (find _ _) as [company|] eqn:Hfind; [|done].
  exists sh, csh, company.
  apply negb_true_iff in Hlen, H. apply bool_decide_eq_false in Hlen.
  by split_and!.
Qed.

Lemma Register_registerInCompany_enabled companyName req w :
  Register.companyEnabled w companyName = true ->
  Register.registerInCompany toISOString companyName req w
  = Register.registerInEvent toISOString companyName req
      (logCall (CGetSheetData "companies") (logCall (CGetSheetData companyName) w)).
Proof.
  intros (sh & csh & company & Hsh & Hlen & Hcsh & Hfind & Hst)%Register_companyEnabled_inv.
  destruct (Register_registerInEvent_answers companyName req
              (logCall (CGetSheetData "companies") (logCall (CGetSheetData companyName) w)))
    as (r & w' & Hr).
  unfold Register.registerInCompany, tryCatch at 1. unfold bind, attempt.
  rewrite (getSheetData_some _ _ _ Hsh).
  rewrite bool_decide_eq_false_2 by done.
  rewrite (getSheetData_some (logCall (CGetSheetData companyName) w) "companies" csh Hcsh).
  cbn zeta. rewrite Hfind, Hst. by rewrite Hr.
Qed.

Lemma Register_eventOpen_inv w companyName eventName tableData :
  Register.eventOpen w companyName eventName = Some tableData ->
  table w companyName eventName = Some tableData
  /\ length tableData <> 0 /\ Register.eventDisabled tableData = false.
Proof.
  unfold Register.eventOpen. intros H.
  destruct (table w companyName eventName) as [t|]; [|done].
  destruct (bool_decide (length t = 0)) eqn:Hl; [done|].
  destruct (Register.eventDisabled t) eqn:Hd; [done|].
  cbn in H. simplify_eq. by apply bool_decide_eq_false in Hl.
Qed.

Lemma Register_registerInEvent_open companyName req w sh tableData :
  let eventName := JS.toString (Register.eventName req) in
  sheets w !! companyName = Some sh ->
  tables sh !! eventName = Some tableData ->
  length tableData <> 0 ->
  Register.eventDisabled tableData = false ->
  Register.registerInEvent toISOString companyName req w
  = match Register.existingRegistration (default [] (tableData !! 0))
            (drop 1 tableData) req with
    | Some _ =>
      (Value (json (BError "You are already registered for this event") 400),
       logCall (CGetTableData companyName eventName) w)
    | None =>
      (Value (json (BRegistration (Register.name req) (Register.email req)
                      (toISOString (clock w (ticks w)))) 200),
       setSheets
         (<[companyName :=
              {| rows := rows sh;
                 tables :=
                   <[eventName :=
                       (tableData
                        ++ [Register.stamped req (toISOString (clock w (ticks w)))])%list]>
                     (tables sh) |}]> (sheets w))
         (logCall (CAddToTable companyName eventName (Register.stamped req (toISOString (clock w (ticks w)))))
            (tick (logCall (CGetTableData companyName eventName) w))))
    end.
Proof.
  intros eventName Hsh Ht Hlen Hopen.
  unfold Register.registerInEvent, tryCatch. unfold bind at 1. unfold attempt at 1.
  fold eventName.
  rewrite (getTableData_some w companyName eventName tableData)
    by (unfold table; by rewrite Hsh).
  rewrite bool_decide_eq_false_2 by done. rewrite Hopen.
  destruct (Register.existingRegistration _ _ _); [done|].
  unfold bind, attempt, Date_now.
  erewrite addToTable_some; [done | apply Hsh | done].
Qed.

(** A request that passes the checks ends in the duplicate check. *)
Lemma Register_POST_checked req w companyName tableData :
  let eventName := JS.toString (Register.eventName req) in
  valid req = Some companyName ->
  Register.companyEnabled w companyName = true ->
  Register.eventOpen w companyName eventName = Some tableData ->
  exists sh w0,
    sheets w !! companyName = Some sh /\ sheets w0 = sheets w
    /\ ticks w0 = ticks w /\ clock w0 = clock w
    /\ POST req w
       = match Register.existingRegistration (default [] (tableData !! 0))
                 (drop 1 tableData) req with
         | Some _ =>
           (Value (json (BError "You are already registered for this event") 400),
            logCall (CGetTableData companyName eventName) w0)
         | None =>
           (Value (json (BRegistration (Register.name req) (Register.email req)
                           (toISOString (clock w (ticks w)))) 200),
            setSheets
              (<[companyName :=
                   {| rows := rows sh;
                      tables :=
                        <[eventName :=
                            (tableData
                             ++ [Register.stamped req (toISOString (clock w (ticks w)))])%list]>
                          (tables sh) |}]> (sheets w))
              (logCall
                 (CAddToTable companyName eventName
                    (Register.stamped req (toISOString (clock w (ticks w)))))
                 (tick (logCall (CGetTableData companyName eventName) w0))))
         end.
Proof.
  intros eventName Hv Hc (Ht & Hlen & Hopen)%Register_eventOpen_inv.
  destruct (table_inv _ _ _ _ Ht) as (sh & Hsh & Htd).
  exists sh, (logCall (CGetSheetData "companies") (logCall (CGetSheetData companyName) w)).
  split_and!; try done.
  rewrite (Register_POST_valid _ _ _ Hv), (Register_registerInCompany_enabled _ _ _ Hc).
  by rewrite (Register_registerInEvent_open companyName req _ sh tableData).
Qed.

Lemma find_is_Some {A} (f : A -> bool) (l : list A) x :
  x ∈ l -> f x = true -> is_Some (find f l).
Proof.
  induction 1 as [x l|x y l _ IH]; intros Hf; cbn.
  - rewrite Hf. eauto.
  - destruct (f y); eauto.
Qed.


(** The duplicate check finds a row once a stored row holds the email
    under the [Email] header or the number under the [WhatsApp Number]
    header. *)
Lemma Register_existing_found headers registrationData req stored :
  stored ∈ registrationData ->
  (exists i, JS.findIndex (fun h => JS.eq3 h (Some "Email")) headers = Some i
             /\ JS.index stored i = Register.email req)
  \/ (exists i, JS.findIndex (fun h => JS.eq3 h (Some "WhatsApp Number")) headers = Some i
                /\ JS.index stored i = Register.whatsappNumber req) ->
  is_Some (Register.existingRegistration headers registrationData req).
Proof.
  intros Hin Hmatch. unfold Register.existingRegistration.
  apply (find_is_Some _ _ stored Hin).
  destruct Hmatch as [(i & -> & Hi)|(i & -> & Hi)].
  - unfold JS.eq3. by rewrite bool_decide_eq_true_2.
  - unfold JS.eq3. rewrite (bool_decide_eq_true_2 _ Hi). apply orb_true_r.
Qed.


End RegisterProperties.

(** ** The registration handler of [unnamed/part_001] *)

Section Part001Properties.

Variable decodeURIComponent : string -> option string.
Variable toISOString : Z -> string.
Variable Number : string -> float.

#[local] Abbreviation POST1 := (Part001.POST decodeURIComponent toISOString Number).
#[local] Abbreviation valid1 := (Part001.valid decodeURIComponent Number).

Lemma Part001_valid_inv req companyName :
  valid1 req = Some companyName ->
  decodeURIComponent (JS.toString (Part001.rawCompanyName req)) = Some companyName
  /\ Part001.missing companyName req = false
  /\ Regex.test Regex.emailRegex (JS.toString (Part001.email req)) = true
  /\ Regex.test Regex.phoneRegex (JS.toString (Part001.whatsapp req)) = true
  /\ Part001.badAge Number (JS.toString (Part001.age req)) = false.
Proof.
  unfold Part001.valid. intros H.
  destruct (decodeURIComponent _) as [c|]; [|done].
  destruct (Part001.missing c req) eqn:Hm; [done|].
  destruct (Regex.test Regex.emailRegex _) eqn:He; [|done].
  destruct (Regex.test Regex.phoneRegex _) eqn:Hp; [|done].
  destruct (Part001.badAge Number _) eqn:Ha; [done|].
  cbn in H. by simplify_eq.
Qed.

Lemma Part001_registerInEvent_answers companyName req w :
  exists r w', Part001.registerInEvent toISOString companyName req w = (Value r, w').
Proof. apply tryCatch_answers. Qed.

Lemma Part001_registerInCompany_answers companyName req w :
  exists r w', Part001.registerInCompany toISOString companyName req w = (Value r, w').
Proof. apply tryCatch_answers. Qed.

Lemma Part001_POST_valid req companyName w :
  valid1 req = Some companyName ->
  POST1 req w = Part001.registerInCompany toISOString companyName req w.
Proof.
  intros (Hd & Hm & He & Hp & Ha)%Part001_valid_inv.
  destruct (Part001_registerInCompany_answers companyName req w) as (r & w' & Hr).
  unfold Part001.POST, tryCatch at 1. unfold bind. rewrite Hd.
  unfold ofOption, ret. rewrite Hm, He, Hp, Ha. cbn [negb]. by rewrite Hr.
Qed.

Lemma Part001_companyEnabled_inv w companyName :
  Part001.companyEnabled w companyName = true ->
  exists sh csh,
    sheets w !! companyName = Some sh /\ length (rows sh) <> 0
    /\ sheets w !! "companies" = Some csh
    /\ match find (fun row => JS.eq3 (JS.index row 1) (Some companyName))
               (drop 1 (rows csh)) with
       | Some company =>
         JS.eq3 (JS.or (JS.index company 5) (Some "enabled")) (Some "disabled") = false
       | None => True
       end.
Proof.
  unfold Part001.companyEnabled, sheetRows. intros H.
  destruct (sheets w !! companyName) as [sh|]; [|done].
  destruct (sheets w !! "companies") as [csh|]; [|done]. cbn in H.
  apply andb_true_iff in H as [Hlen H].
  exists sh, csh.
  apply negb_true_iff, bool_decide_eq_false in Hlen.
  split_and!; try done.
  destruct (find _ _) as [company|]; [|done]. by apply negb_true_iff in H.
Qed.

Lemma Part001_registerInCompany_enabled companyName req w :
  Part001.companyEnabled w companyName = true ->
  Part001.registerInCompany toISOString companyName req w
  = Part001.registerInEvent toISOString companyName req
      (logCall (CGetSheetData "companies") (logCall (CGetSheetData companyName) w)).
Proof.
  intros (sh & csh & Hsh & Hlen & Hcsh & Hst)%Part001_companyEnabled_inv.
  destruct (Part001_registerInEvent_answers companyName req
              (logCall (CGetSheetData "companies") (logCall (CGetSheetData companyName) w)))
    as (r & w' & Hr).
  unfold Part001.registerInCompany, tryCatch at 1. unfold bind.
  rewrite (getSheetData_some _ _ _ Hsh).
  rewrite bool_decide_eq_false_2 by done.
  rewrite (getSheetData_some (logCall (CGetSheetData companyName) w) "companies" csh Hcsh).
  cbn zeta. destruct (find _ _) as [company|].
  - by rewrite Hst, Hr.
  - by rewrite Hr.
Qed.

Lemma Part001_eventOpen_inv w companyName eventName tableData :
  Part001.eventOpen w companyName eventName = Some tableData ->
  table w companyName eventName = Some tableData
  /\ length tableData <> 0 /\ Part001.eventDisabled tableData = false.
Proof.
  unfold Part001.eventOpen. intros H.
  destruct (table w companyName eventName) as [t|]; [|done].
  destruct (bool_decide (length t = 0)) eqn:Hl; [done|].
  destruct (Part001.eventDisabled t) eqn:Hd; [done|].
  cbn in H. simplify_eq. by apply bool_decide_eq_false in Hl.
Qed.

Lemma Part001_registerInEvent_open companyName req w sh tableData :
  let eventName := JS.toString (Part001.eventName req) in
  sheets w !! companyName = Some sh ->
  tables sh !! eventName = Some tableData ->
  length tableData <> 0 ->
  Part001.eventDisabled tableData = false ->
  Part001.registerInEvent toISOString companyName req w
  = match Part001.existingRegistration (drop 1 tableData) req with
    | Some _ =>
      (Value (json (BError "You are already registered for this event") 400),
       logCall (CGetTableData companyName eventName) w)
    | None =>
      (Value (json (BRegistration (Part001.name req) (Part001.email req)
                      (toISOString (clock w (ticks w)))) 200),
       setSheets
         (<[companyName :=
              {| rows := rows sh;
                 tables :=
                   <[eventName :=
                       (tableData
                        ++ [Part001.stamped req (toISOString (clock w (ticks w)))])%list]>
                     (tables sh) |}]> (sheets w))
         (logCall
            (CAddToTable companyName eventName
               (Part001.stamped req (toISOString (clock w (ticks w)))))
            (tick (logCall (CGetTableData companyName eventName) w))))
    end.
Proof.
  intros eventName Hsh Ht Hlen Hopen.
  unfold Part001.registerInEvent, tryCatch. unfold bind at 1.
  fold eventName.
  rewrite (getTableData_some w companyName eventName tableData)
    by (unfold table; by rewrite Hsh).
  rewrite bool_decide_eq_false_2 by done. rewrite Hopen.
  destruct (Part001.existingRegistration _ _); [done|].
  unfold bind, Date_now.
  erewrite addToTable_some; [done | apply Hsh | done].
Qed.

Lemma Part001_POST_checked req w companyName tableData :
  let eventName := JS.toString (Part001.eventName req) in
  valid1 req = Some companyName ->
  Part001.companyEnabled w companyName = true ->
  Part001.eventOpen w companyName eventName = Some tableData ->
  exists sh w0,
    sheets w !! companyName = Some sh /\ sheets w0 = sheets w
    /\ ticks w0 = ticks w /\ clock w0 = clock w
    /\ POST1 req w
       = match Part001.existingRegistration (drop 1 tableData) req with
         | Some _ =>
           (Value (json (BError "You are already registered for this event") 400),
            logCall (CGetTableData companyName eventName) w0)
         | None =>
           (Value (json (BRegistration (Part001.name req) (Part001.email req)
                           (toISOString (clock w (ticks w)))) 200),
            setSheets
              (<[companyName :=
                   {| rows := rows sh;
                      tables :=
                        <[eventName :=
                            (tableData
                             ++ [Part001.stamped req (toISOString (clock w (ticks w)))])%list]>
                          (tables sh) |}]> (sheets w))
              (logCall
                 (CAddToTable companyName eventName
                    (Part001.stamped req (toISOString (clock w (ticks w)))))
                 (tick (logCall (CGetTableData companyName eventName) w0))))
         end.
Proof.
  intros eventName Hv Hc (Ht & Hlen & Hopen)%Part001_eventOpen_inv.
  destruct (table_inv _ _ _ _ Ht) as (sh & Hsh & Htd).
  exists sh, (logCall (CGetSheetData "companies") (logCall (CGetSheetData companyName) w)).
  split_and!; try done.
  rewrite (Part001_POST_valid _ _ _ Hv), (Part001_registerInCompany_enabled _ _ _ Hc).
  by rewrite (Part001_registerInEvent_open companyName req _ sh tableData).
Qed.

(** The duplicate check finds a row once a stored row holds the number in
    its second cell. *)
Lemma Part001_existing_found registrationData req stored :
  stored ∈ registrationData ->
  JS.index stored 1 = Part001.whatsapp req ->
  is_Some (Part001.existingRegistration registrationData req).
Proof.
  intros Hin Hi. unfold Part001.existingRegistration.
  apply (find_is_Some _ _ stored Hin).
  unfold JS.eq3. rewrite (bool_decide_eq_true_2 _ Hi). apply orb_true_r.
Qed.

End Part001Properties.

(** ** Claims about registration *)

Section Registration.

Variable decodeURIComponent : string -> option string.
Variable toISOString : Z -> string.
Variable Number : string -> float.

(** C5. A registration that passes the validation, the company and event
    checks and the duplicate check gets the answer 200 with the submitted
    name and email and the timestamp [new Date().toISOString()]; the event's
    table gains exactly one row, the registration fields followed by that
    timestamp; every other table and the plain rows of every sheet stay as
    they were. This holds for the handler of [route.ts] and for the one of
    [part_001]. *)
Theorem registration_appends_one_row :
  (forall req w companyName tableData,
     let eventName := JS.toString (Register.eventName req) in
     let date := toISOString (clock w (ticks w)) in
     let out := Register.POST decodeURIComponent toISOString req w in
     Register.valid decodeURIComponent req = Some companyName ->
     Register.companyEnabled w companyName = true ->
     Register.eventOpen w companyName eventName = Some tableData ->
     Register.existingRegistration (default [] (tableData !! 0))
       (drop 1 tableData) req = None ->
     out.1 = Value (json (BRegistration (Register.name req) (Register.email req) date) 200)
     /\ table out.2 companyName eventName
        = Some (tableData
                ++ [[Register.name req; Register.whatsappNumber req;
                     Register.nationalId req; Register.email req;
                     Register.education req; Register.universityCollege req;
                     Register.age req; Register.gender req; Some date]])%list
     /\ (forall s t, (s, t) <> (companyName, eventName) -> table out.2 s t = table w s t)
     /\ (forall s, sheetRows out.2 s = sheetRows w s))
  /\ (forall req w companyName tableData,
        let eventName := JS.toString (Part001.eventName req) in
        let date := toISOString (clock w (ticks w)) in
        let out := Part001.POST decodeURIComponent toISOString Number req w in
        Part001.valid decodeURIComponent Number req = Some companyName ->
        Part001.companyEnabled w companyName = true ->
        Part001.eventOpen w companyName eventName = Some tableData ->
        Part001.existingRegistration (drop 1 tableData) req = None ->
        out.1 = Value (json (BRegistration (Part001.name req) (Part001.email req) date) 200)
        /\ table out.2 companyName eventName
           = Some (tableData
                   ++ [[Part001.name req; Part001.whatsapp req;
                        Part001.nationalId req; Part001.email req;
                        Part001.education req; Part001.universityCollege req;
                        Part001.age req; Part001.gender req; Some date]])%list
        /\ (forall s t, (s, t) <> (companyName, eventName) -> table out.2 s t = table w s t)
        /\ (forall s, sheetRows out.2 s = sheetRows w s)).
Proof.
  split.
  - intros req w companyName tableData eventName date out Hv Hc Ho Hnew.
    destruct (Register_POST_checked _ toISOString _ _ _ _ Hv Hc Ho)
      as (sh & w0 & Hsh & _ & _ & _ & Hrun).
    rewrite Hnew in Hrun. subst out. rewrite Hrun. cbn [fst snd].
    split_and!.
    + done.
    + apply table_stored_eq.
    + intros s t Hne. by apply table_stored_ne.
    + intros s. by apply sheetRows_stored.
  - intros req w companyName tableData eventName date out Hv Hc Ho Hnew.
    destruct (Part001_POST_checked _ toISOString _ _ _ _ _ Hv Hc Ho)
      as (sh & w0 & Hsh & _ & _ & _ & Hrun).
    rewrite Hnew in Hrun. subst out. rewrite Hrun. cbn [fst snd].
    split_and!.
    + done.
    + apply table_stored_eq.
    + intros s t Hne. by apply table_stored_ne.
    + intros s. by apply sheetRows_stored.
Qed.


(** C1 (as amended). A request whose fields are strings, as [Request] has
    them, and that passes the validation and the company and event checks
    is answered 400 "You are already registered for this event", and
    nothing is stored, when a stored row of the event's table holds the
    request's email in the column headed [Email] or its number in the
    column headed [WhatsApp Number] ([route.ts]); in [part_001], when a
    stored row holds the request's number in its second cell. The
    comparison is [===] against the stored cell, which is a string: a
    number sent as a JSON number is equal to no cell, and no statement is
    made about it. *)
Theorem duplicate_registration_rejected :
  (forall req w companyName tableData stored,
     let eventName := JS.toString (Register.eventName req) in
     let headers := default [] (tableData !! 0) in
     let out := Register.POST decodeURIComponent toISOString req w in
     Register.valid decodeURIComponent req = Some companyName ->
     Register.companyEnabled w companyName = true ->
     Register.eventOpen w companyName eventName = Some tableData ->
     stored ∈ drop 1 tableData ->
     (exists i, JS.findIndex (fun h => JS.eq3 h (Some "Email")) headers = Some i
                /\ JS.index stored i = Register.email req)
     \/ (exists i, JS.findIndex (fun h => JS.eq3 h (Some "WhatsApp Number")) headers = Some i
                   /\ JS.index stored i = Register.whatsappNumber req) ->
     out.1 = Value (json (BError "You are already registered for this event") 400)
     /\ sheets out.2 = sheets w)
  /\ (forall req w companyName tableData stored,
        let eventName := JS.toString (Part001.eventName req) in
        let out := Part001.POST decodeURIComponent toISOString Number req w in
        Part001.valid decodeURIComponent Number req = Some companyName ->
        Part001.companyEnabled w companyName = true ->
        Part001.eventOpen w companyName eventName = Some tableData ->
        stored ∈ drop 1 tableData ->
        JS.index stored 1 = Part001.whatsapp req ->
        out.1 = Value (json (BError "You are already registered for this event") 400)
        /\ sheets out.2 = sheets w).
Proof.
  split.
  - intros req w companyName tableData stored eventName headers out Hv Hc Ho Hin Hm.
    destruct (Register_existing_found headers _ req stored Hin Hm) as [found Hf].
    destruct (Register_POST_checked _ toISOString _ _ _ _ Hv Hc Ho)
      as (sh & w0 & _ & Hw0 & _ & _ & Hrun).
    fold headers in Hrun. rewrite Hf in Hrun. subst out. by rewrite Hrun.
  - intros req w companyName tableData stored eventName out Hv Hc Ho Hin Hm.
    destruct (Part001_existing_found _ req stored Hin Hm) as [found Hf].
    destruct (Part001_POST_checked _ toISOString _ _ _ _ _ Hv Hc Ho)
      as (sh & w0 & _ & Hw0 & _ & _ & Hrun).
    rewrite Hf in Hrun. subst out. by rewrite Hrun.
Qed.

(** C4 (as amended). When the company's own sheet can be read and has rows,
    and the first row of the companies sheet that bears the company's name
    has status [disabled], a registration request for that company that
    passes the field validation is answered 403 and nothing is stored. *)
Theorem disabled_company_rejected :
  (forall req w companyName sheetData companiesData company,
     let out := Register.POST decodeURIComponent toISOString req w in
     Register.valid decodeURIComponent req = Some companyName ->
     sheetRows w companyName = Some sheetData ->
     sheetData <> [] ->
     sheetRows w "companies" = Some companiesData ->
     find (fun row => JS.eq3 (JS.index row 1) (Some companyName))
       (drop 1 companiesData) = Some company ->
     JS.index company 5 = Some "disabled" ->
     out.1 = Value (json (BError "Company is disabled, registration is not available") 403)
     /\ sheets out.2 = sheets w)
  /\ (forall req w companyName sheetData companiesData company,
        let out := Part001.POST decodeURIComponent toISOString Number req w in
        Part001.valid decodeURIComponent Number req = Some companyName ->
        sheetRows w companyName = Some sheetData ->
        sheetData <> [] ->
        sheetRows w "companies" = Some companiesData ->
        find (fun row => JS.eq3 (JS.index row 1) (Some companyName))
          (drop 1 companiesData) = Some company ->
        JS.index company 5 = Some "disabled" ->
        out.1 = Value (json (BError "Company is disabled, registration is not available") 403)
        /\ sheets out.2 = sheets w).
Proof.
  split.
  - intros req w companyName sheetData companiesData company out Hv Hs Hne Hc Hf Hd.
    subst out. rewrite (Register_POST_valid _ _ _ _ _ Hv).
    unfold sheetRows in Hs, Hc.
    destruct (sheets w !! companyName) as [sh|] eqn:Hsh; [|done].
    destruct (sheets w !! "companies") as [csh|] eqn:Hcsh; [|done].
    cbn in Hs, Hc. simplify_eq.
    unfold Register.registerInCompany, tryCatch. unfold bind, attempt.
    rewrite (getSheetData_some _ _ _ Hsh).
    rewrite bool_decide_eq_false_2 by (by destruct (rows sh)).
    rewrite (getSheetData_some (logCall (CGetSheetData companyName) w) "companies" csh Hcsh).
    cbn zeta. rewrite Hf, Hd. done.
  - intros req w companyName sheetData companiesData company out Hv Hs Hne Hc Hf Hd.
    subst out. rewrite (Part001_POST_valid _ _ _ _ _ _ Hv).
    unfold sheetRows in Hs, Hc.
    destruct (sheets w !! companyName) as [sh|] eqn:Hsh; [|done].
    destruct (sheets w !! "companies") as [csh|] eqn:Hcsh; [|done].
    cbn in Hs, Hc. simplify_eq.
    unfold Part001.registerInCompany, tryCatch. unfold bind.
    rewrite (getSheetData_some _ _ _ Hsh).
    rewrite bool_decide_eq_false_2 by (by destruct (rows sh)).
    rewrite (getSheetData_some (logCall (CGetSheetData companyName) w) "companies" csh Hcsh).
    cbn zeta. rewrite Hf, Hd. done.
Qed.

Ltac branches :=
  repeat (first
    [ progress cbn [fst snd sheets setSheets logCall tick calls ticks code body
                    json ret throw ofOption]
    | progress unfold bind, tryCatch, attempt, ret, throw, ofOption,
        getSheetData, getTableData, addToTable, Date_now
    | case_match; simplify_eq/= ]).

(** C9. Whatever the request and the spreadsheet, the registration handler
    answers, and when its answer is not the 200 of a stored registration the
    spreadsheet is as it was before the request. *)
Theorem registration_error_stores_nothing :
  (forall req w,
     let out := Register.POST decodeURIComponent toISOString req w in
     exists response,
       out.1 = Value response
       /\ (code response <> 200 -> sheets out.2 = sheets w))
  /\ (forall req w,
        let out := Part001.POST decodeURIComponent toISOString Number req w in
        exists response,
          out.1 = Value response
          /\ (code response <> 200 -> sheets out.2 = sheets w)).
Proof.
  split; intros req w out; subst out.
  - unfold Register.POST, Register.registerInCompany, Register.registerInEvent.
    branches; eexists; (split; [reflexivity|]); cbn; intros; done.
  - unfold Part001.POST, Part001.registerInCompany, Part001.registerInEvent.
    branches; eexists; (split; [reflexivity|]); cbn; intros; done.
Qed.

End Registration.

Lemma registration_appends_one_row_witness :
  ((Register.POST Demo.decode Demo.iso Demo.mona (Demo.fresh Demo.eventHeader)).1
   = Value (json (BRegistration (Some "Mona Adel") (Some "mona@example.org")
                    "2025-11-02T00:00:00.000Z") 200)
   /\ table (Register.POST Demo.decode Demo.iso Demo.mona (Demo.fresh Demo.eventHeader)).2
        "Acme" "Launch"
      = Some [Demo.eventHeader;
              [Some "Mona Adel"; Some "201001234567"; Some "29901011234567";
               Some "mona@example.org"; Some "student"; Some "Cairo University";
               Some "21"; Some "female"; Some "2025-11-02T00:00:00.000Z"]]).
Proof.
  pose proof (proj1 (registration_appends_one_row Demo.decode Demo.iso Demo.number)
                Demo.mona (Demo.fresh Demo.eventHeader) "Acme" [Demo.eventHeader]) as H.
  cbn zeta in H.
  destruct H as (H1 & H2 & _); [vm_compute; reflexivity ..|].
  split; [exact H1 | exact H2].
Defined.


(** Against C1 as stated: under a header row that names the columns
    differently, the stored row holds Mona's email and number, and her
    second, identical request is answered 200 and stored again. *)
Lemma duplicate_accepted_under_other_header :
  table (Demo.registeredOnce Demo.otherHeader) "Acme" "Launch"
  = Some [Demo.otherHeader; Register.stamped Demo.mona "2025-11-02T00:00:00.000Z"]
  /\ JS.index (Register.stamped Demo.mona "2025-11-02T00:00:00.000Z") 3
     = Register.email Demo.mona
  /\ JS.index (Register.stamped Demo.mona "2025-11-02T00:00:00.000Z") 1
     = Register.whatsappNumber Demo.mona
  /\ (Register.POST Demo.decode Demo.iso Demo.mona
        (Demo.registeredOnce Demo.otherHeader)).1
     = Value (json (BRegistration (Some "Mona Adel") (Some "mona@example.org")
                      "2025-11-02T00:00:00.001Z") 200).
Proof. vm_compute. done. Qed.

Lemma duplicate_registration_rejected_witness :
  (Register.POST Demo.decode Demo.iso Demo.mona
     (Demo.registeredOnce Demo.eventHeader)).1
  = Value (json (BError "You are already registered for this event") 400)
  /\ sheets (Register.POST Demo.decode Demo.iso Demo.mona
               (Demo.registeredOnce Demo.eventHeader)).2
     = sheets (Demo.registeredOnce Demo.eventHeader).
Proof.
  apply (proj1 (duplicate_registration_rejected Demo.decode Demo.iso Demo.number)
           Demo.mona (Demo.registeredOnce Demo.eventHeader) "Acme"
           [Demo.eventHeader; Register.stamped Demo.mona "2025-11-02T00:00:00.000Z"]
           (Register.stamped Demo.mona "2025-11-02T00:00:00.000Z")).
  - vm_compute; reflexivity.
  - vm_compute; reflexivity.
  - vm_compute; reflexivity.
  - cbn. apply list_elem_of_here.
  - left. exists 3. split; vm_compute; reflexivity.
Defined.

Lemma registration_error_stores_nothing_witness :
  sheets (Register.POST Demo.decode Demo.iso Demo.mona
            (Demo.registeredOnce Demo.eventHeader)).2
  = sheets (Demo.registeredOnce Demo.eventHeader).
Proof.
  destruct (proj1 (registration_error_stores_nothing Demo.decode Demo.iso Demo.number)
              Demo.mona (Demo.registeredOnce Demo.eventHeader))
    as (response & Hresponse & Hkeep).
  apply Hkeep. vm_compute in Hresponse. injection Hresponse as <-. discriminate.
Defined.

Lemma disabled_company_rejected_witness :
  (Register.POST Demo.decode Demo.iso Demo.mona
     (Demo.world [Demo.acme "disabled" "false"] (Demo.acmeSheet [Demo.eventHeader]))).1
  = Value (json (BError "Company is disabled, registration is not available") 403)
  /\ sheets (Register.POST Demo.decode Demo.iso Demo.mona
               (Demo.world [Demo.acme "disabled" "false"]
                  (Demo.acmeSheet [Demo.eventHeader]))).2
     = sheets (Demo.world [Demo.acme "disabled" "false"]
                 (Demo.acmeSheet [Demo.eventHeader])).
Proof.
  apply (proj1 (disabled_company_rejected Demo.decode Demo.iso Demo.number)
           Demo.mona
           (Demo.world [Demo.acme "disabled" "false"] (Demo.acmeSheet [Demo.eventHeader]))
           "Acme" [[Some "Launch"]]
           [Demo.companiesHeader; Demo.acme "disabled" "false"]
           (Demo.acme "disabled" "false")).
  - vm_compute; reflexivity.
  - vm_compute; reflexivity.
  - discriminate.
  - vm_compute; reflexivity.
  - vm_compute; reflexivity.
  - vm_compute; reflexivity.
Defined.

(** Against C4 as stated: Acme is disabled and then soft-deleted, which
    renames its sheet. Its row in the companies sheet still says [disabled],
    and a valid registration for Acme is answered 404 by both handlers. *)
Lemma disabled_company_without_sheet_is_404 :
  sheetRows
    (Companies.DELETE (Some "company_1700000000000")
       (Demo.world [Demo.acme "disabled" "false"] (Demo.acmeSheet [Demo.eventHeader]))).2
    "companies"
  = Some [Demo.companiesHeader; Demo.acme "disabled" "true"]
  /\ Register.valid Demo.decode Demo.mona = Some "Acme"
  /\ (Register.POST Demo.decode Demo.iso Demo.mona
        (Companies.DELETE (Some "company_1700000000000")
           (Demo.world [Demo.acme "disabled" "false"]
              (Demo.acmeSheet [Demo.eventHeader]))).2).1
     = Value (json (BError ("Company " +:+ JS.dq +:+ "Acme" +:+ JS.dq
                            +:+ " not found or inaccessible")) 404)
  /\ Part001.valid Demo.decode Demo.number (Demo.mona1 "201001234567") = Some "Acme"
  /\ (Part001.POST Demo.decode Demo.iso Demo.number (Demo.mona1 "201001234567")
        (Companies.DELETE (Some "company_1700000000000")
           (Demo.world [Demo.acme "disabled" "false"]
              (Demo.acmeSheet [Demo.eventHeader]))).2).1
     = Value (json (BError "Company not found") 404).
Proof. vm_compute. done. Qed.

(** ** The companies endpoint *)

Lemma findIndex_lookup {A} (f : A -> bool) (l : list A) i :
  JS.findIndex f l = Some i -> exists x, l !! i = Some x /\ f x = true.
Proof.
  revert i. induction l as [|y l IH]; intros i; cbn; [done|].
  destruct (f y) eqn:Hy.
  - intros [= <-]. by exists y.
  - destruct (JS.findIndex f l) as [j|]; cbn; [|done].
    intros [= <-]. destruct (IH j eq_refl) as (x & ? & ?). by exists x.
Qed.

Lemma index_setIndex_eq (r : list (option string)) i v : JS.index (JS.setIndex r i v) i = v.
Proof.
  unfold JS.index, JS.setIndex. case_bool_decide as Hi.
  - by rewrite list_lookup_insert_eq.
  - rewrite (lookup_app_r r) by lia.
    rewrite lookup_app_r by (rewrite length_replicate; lia).
    rewrite length_replicate. by replace (i - length r - (i - length r)) with 0 by lia.
Qed.

Lemma index_setIndex_ne (r : list (option string)) i j v :
  j <> i -> JS.index (JS.setIndex r i v) j = JS.index r j.
Proof.
  intros Hne. unfold JS.index, JS.setIndex. case_bool_decide as Hi.
  - by rewrite list_lookup_insert_ne.
  - destruct (decide (j < length r)) as [Hj|Hj].
    + by rewrite lookup_app_l.
    + rewrite (lookup_ge_None_2 r j) by lia. cbn.
      rewrite (lookup_app_r r) by lia.
      destruct (decide (j - length r < i - length r)) as [Hlt|Hge].
      * rewrite lookup_app_l by (by rewrite length_replicate).
        by rewrite lookup_replicate_2.
      * rewrite lookup_app_r by (rewrite length_replicate; lia).
        rewrite length_replicate.
        rewrite lookup_ge_None_2; [done | cbn; lia].
Qed.

(** Marking one entry as filtered out is the same, for the filtered list,
    as taking it away. *)
Lemma filter_insert_out {A} (P : A -> Prop) `{!forall x, Decision (P x)}
    (l : list A) i x :
  i < length l -> ~ P x -> filter P (<[i := x]> l) = filter P (delete i l).
Proof.
  revert i. induction l as [|y l IH]; intros i Hi Hx; [cbn in Hi; lia|].
  destruct i as [|i].
  - change (<[0 := x]> (y :: l)) with (x :: l).
    change (delete 0 (y :: l)) with l. by rewrite filter_cons_False.
  - change (<[S i := x]> (y :: l)) with (y :: <[i := x]> l).
    change (delete (S i) (y :: l)) with (y :: delete i l).
    rewrite !filter_cons, IH; [done | cbn in Hi; lia | done].
Qed.

Lemma updateRow_some w sheetName sh i r :
  sheets w !! sheetName = Some sh ->
  updateRow sheetName i r w
  = (Value tt,
     setSheets
       (<[sheetName := {| rows := <[i := r]> (rows sh); tables := tables sh |}]>
          (sheets w))
       (logCall (CUpdateRow sheetName i r) w)).
Proof. intros H. unfold updateRow. cbn. by rewrite H. Qed.

Lemma renameSheet_some w old newName sh :
  sheets w !! old = Some sh ->
  sheets w !! newName = None ->
  renameSheet (Some old) newName w
  = (Value tt,
     setSheets (<[newName := sh]> (delete old (sheets w)))
       (logCall (CRenameSheet (Some old) newName) w)).
Proof. intros H1 H2. unfold renameSheet. cbn. by rewrite H1, H2. Qed.

Lemma GET_listing w csh :
  notAdmin (session w) = false ->
  sheets w !! "companies" = Some csh ->
  Companies.GET w
  = (Value (json (BCompanies (map Companies.ofRow (drop 1 (rows csh)))) 200),
     logCall (CGetSheetData "companies") w).
Proof.
  intros Ha Hc. unfold Companies.GET, tryCatch, bind, getServerSession.
  rewrite Ha. by rewrite (getSheetData_some _ _ _ Hc).
Qed.

Lemma renameSheet_calls oldName newName w :
  calls (renameSheet oldName newName w).2
  = (calls w ++ [CRenameSheet oldName newName])%list.
Proof. unfold renameSheet. by repeat case_match. Qed.

Lemma renameSheet_session oldName newName w :
  session (renameSheet oldName newName w).2 = session w.
Proof. unfold renameSheet. by repeat case_match. Qed.

(** A rename leaves every sheet it is not asked to move where it is. *)
Lemma renameSheet_keeps oldName newName w s sh :
  sheets w !! s = Some sh ->
  oldName <> Some s ->
  sheets (renameSheet oldName newName w).2 !! s = Some sh.
Proof.
  intros Hs Hne. unfold renameSheet. cbn [sheets logCall].
  destruct oldName as [old|]; [|done].
  destruct (sheets w !! old) as [moved|] eqn:Hold; [|done].
  destruct (sheets w !! newName) eqn:Hnew; [done|].
  cbn [snd sheets setSheets].
  rewrite lookup_insert_ne by congruence.
  rewrite lookup_delete_ne by congruence. done.
Qed.

(** What [DELETE] does once the company is found. *)
Lemma DELETE_found (id : JS.value) (w : World) (csh : Sheet) (i : nat) (r : row) :
  let marked := JS.setIndex r 6 (Some "true") in
  let newName := JS.toString (JS.index r 1) +:+ "-deleted" in
  let w2 :=
    setSheets
      (<["companies" := {| rows := <[i + 1 := marked]> (rows csh);
                           tables := tables csh |}]> (sheets w))
      (logCall (CUpdateRow "companies" (i + 1) marked)
         (logCall (CGetSheetData "companies") w)) in
  notAdmin (session w) = false ->
  JS.truthy id = true ->
  sheets w !! "companies" = Some csh ->
  JS.findIndex (fun row => JS.eq3 (JS.index row 0) id) (drop 1 (rows csh)) = Some i ->
  drop 1 (rows csh) !! i = Some r ->
  Companies.DELETE id w
  = match renameSheet (JS.index r 1) newName w2 with
    | (Value _, w3) =>
      (Value (json (BMessage ("Company " +:+ JS.toString (JS.index r 1)
                              +:+ " marked as deleted successfully")) 200), w3)
    | (Thrown, w3) =>
      (Value (json (BError "Failed to mark company as deleted") 500), w3)
    end.
Proof.
  intros marked newName w2 Ha Hid Hc Hi Hr.
  unfold Companies.DELETE, tryCatch, bind, getServerSession.
  rewrite Ha, Hid. cbn [negb].
  rewrite (getSheetData_some _ _ _ Hc). cbn zeta. rewrite Hi, Hr.
  cbn [default from_option Datatypes.id].
  rewrite (updateRow_some _ _ csh) by done.
  fold marked newName. cbn [sheets logCall]. fold w2.
  by destruct (renameSheet _ _ w2) as [[[]|] w3].
Qed.

(** C2 (as amended). For an admin's DELETE with the id of a company of the
    companies table: the company's row is written back with the deleted
    cell set to ["true"] and every other cell as it was, and [renameSheet]
    is called from the company's name to [{name}-deleted]. Unless the
    company is itself named [companies], a GET on the result still returns
    the company, now with [deleted: true]; it is the dashboard's default
    listing, the filter of line 209 of [control_admin/page.tsx] over what
    GET returned, that is what it would be without that company.
    When the company's sheet exists under its name and the new title is
    free, the answer is 200 and the sheet has moved to the new title. *)
Theorem soft_delete_marks_renames_hides
    (id : JS.value) (w : World) (csh : Sheet) (i : nat) (r : row) :
  let out := Companies.DELETE id w in
  let marked := JS.setIndex r 6 (Some "true") in
  let before := map Companies.ofRow (drop 1 (rows csh)) in
  let newName := JS.toString (JS.index r 1) +:+ "-deleted" in
  notAdmin (session w) = false ->
  JS.truthy id = true ->
  sheets w !! "companies" = Some csh ->
  JS.findIndex (fun row => JS.eq3 (JS.index row 0) id) (drop 1 (rows csh)) = Some i ->
  drop 1 (rows csh) !! i = Some r ->
  calls out.2
  = (calls w ++ [CGetSheetData "companies";
                 CUpdateRow "companies" (i + 1) marked;
                 CRenameSheet (JS.index r 1) newName])%list
  /\ JS.index marked 6 = Some "true"
  /\ (forall j, j <> 6 -> JS.index marked j = JS.index r j)
  /\ (JS.index r 1 <> Some "companies" ->
      sheetRows out.2 "companies" = Some (<[i + 1 := marked]> (rows csh))
      /\ exists listing company,
           (Companies.GET out.2).1 = Value (json (BCompanies listing) 200)
           /\ listing !! i = Some company
           /\ Company.id company = id
           /\ Company.deleted company = true
           /\ ControlAdmin.listed false listing
              = ControlAdmin.listed false (delete i before))
  /\ (forall companyName sh,
        JS.index r 1 = Some companyName ->
        companyName <> "companies" ->
        sheets w !! companyName = Some sh ->
        sheets w !! newName = None ->
        out.1 = Value (json (BMessage ("Company " +:+ companyName
                                       +:+ " marked as deleted successfully")) 200)
        /\ sheets out.2 !! companyName = None
        /\ sheets out.2 !! newName = Some sh).
Proof.
  intros out marked before newName Ha Hid Hc Hi Hr.
  pose proof (DELETE_found id w csh i r Ha Hid Hc Hi Hr) as Hrun.
  cbn zeta in Hrun. fold marked newName in Hrun.
  destruct (findIndex_lookup _ _ _ Hi) as (r' & Hr' & Hid'). simplify_eq.
  apply bool_decide_eq_true in Hid'.
  set (w2 := setSheets
               (<["companies" := {| rows := <[i + 1 := marked]> (rows csh);
                                    tables := tables csh |}]> (sheets w))
               (logCall (CUpdateRow "companies" (i + 1) marked)
                  (logCall (CGetSheetData "companies") w))) in *.
  assert (out.2 = (renameSheet (JS.index r 1) newName w2).2) as Hworld.
  { subst out. rewrite Hrun. by destruct (renameSheet _ _ w2) as [[[]|] w3]. }
  split_and!.
  - rewrite Hworld, renameSheet_calls. subst w2. cbn [calls logCall setSheets].
    by rewrite <- !app_assoc.
  - apply index_setIndex_eq.
  - intros j Hj. by apply index_setIndex_ne.
  - intros Hne.
    assert (sheets out.2 !! "companies"
            = Some {| rows := <[i + 1 := marked]> (rows csh); tables := tables csh |})
      as Hafter.
    { rewrite Hworld. apply renameSheet_keeps; [|done].
      subst w2. cbn [sheets setSheets]. by rewrite lookup_insert_eq. }
    split; [unfold sheetRows; by rewrite Hafter|].
    exists (map Companies.ofRow (drop 1 (<[i + 1 := marked]> (rows csh)))),
      (Companies.ofRow marked).
    assert (drop 1 (<[i + 1 := marked]> (rows csh)) = <[i := marked]> (drop 1 (rows csh)))
      as Hdrop.
    { destruct (rows csh) as [|h rs]; [done|]. by replace (i + 1) with (S i) by lia. }
    split_and!.
    + rewrite (GET_listing _ {| rows := <[i + 1 := marked]> (rows csh);
                                tables := tables csh |}); [reflexivity | | exact Hafter].
      by rewrite Hworld, renameSheet_session.
    + rewrite Hdrop, list_lookup_fmap, list_lookup_insert_eq; [done|].
      by apply lookup_lt_Some in Hr.
    + change (JS.index marked 0 = id). subst marked.
      by rewrite index_setIndex_ne.
    + change ((if JS.eq3 (JS.index marked 6) (Some "true") then true else false)
              = true).
      subst marked. by rewrite index_setIndex_eq.
    + rewrite Hdrop, list_fmap_insert. subst before.
      apply filter_insert_out.
      * rewrite length_map. by apply lookup_lt_Some in Hr.
      * change (~ negb (if JS.eq3 (JS.index marked 6) (Some "true")
                        then true else false)).
        subst marked. rewrite index_setIndex_eq. cbn. tauto.
  - intros companyName sh Hn Hne Hsh Hfree.
    assert (newName <> "companies") as Hne'
      by (intros E; rewrite E in Hfree; congruence).
    subst out. rewrite Hrun, Hn. cbn [JS.toString default from_option Datatypes.id].
    erewrite renameSheet_some.
    + cbn [fst snd sheets setSheets logCall]. split_and!.
      * done.
      * destruct (decide (companyName = newName)) as [E|E];
          [rewrite <- E in Hfree; congruence|].
        rewrite lookup_insert_ne by done. by rewrite lookup_delete_eq.
      * by rewrite lookup_insert_eq.
    + subst w2. cbn [sheets setSheets]. by rewrite lookup_insert_ne.
    + subst w2. cbn [sheets setSheets]. by rewrite lookup_insert_ne.
Qed.

Lemma existsb_elem {A} (f : A -> bool) (l : list A) x :
  x ∈ l -> f x = true -> existsb f l = true.
Proof.
  induction 1 as [x l|x y l _ IH]; intros Hf; cbn.
  - by rewrite Hf.
  - rewrite IH by done. apply orb_true_r.
Qed.

(** C3 (as amended). An admin's POST with name, username and password
    whose username is the username of some row of the companies table,
    deleted or not, is answered 400 "Username already exists" and changes
    nothing. *)
Theorem taken_username_rejected
    (req : Companies.Json) (w : World) (csh : Sheet) (taken : row) :
  let out := Companies.POST req w in
  notAdmin (session w) = false ->
  JS.truthy (Companies.name req) = true ->
  JS.truthy (Companies.username req) = true ->
  JS.truthy (Companies.password req) = true ->
  sheets w !! "companies" = Some csh ->
  taken ∈ drop 1 (rows csh) ->
  JS.index taken 2 = Companies.username req ->
  out.1 = Value (json (BError "Username already exists") 400)
  /\ sheets out.2 = sheets w.
Proof.
  intros out Ha Hn Hu Hp Hc Hin Ht. subst out.
  assert (Companies.POST req w
          = (Value (json (BError "Username already exists") 400),
             logCall (CGetSheetData "companies")
               (logCall (CGetSheetData "companies") w))) as ->; [|done].
  unfold Companies.POST, tryCatch at 1. unfold bind at 1, getServerSession.
  rewrite Ha, Hn, Hu, Hp. cbn [negb orb].
  unfold bind at 1. unfold tryCatch at 1. unfold bind at 1.
  rewrite (getSheetData_some _ _ _ Hc). unfold ret at 1.
  unfold bind at 1.
  rewrite (getSheetData_some (logCall (CGetSheetData "companies") w) "companies" csh Hc).
  rewrite (existsb_elem _ _ taken Hin)
    by (unfold JS.eq3; by apply bool_decide_eq_true_2).
  done.
Qed.

Lemma taken_username_rejected_witness :
  (Companies.POST
     {| Companies.id := None; Companies.name := Some "Acme Two";
        Companies.username := Some "acme"; Companies.password := Some "secret";
        Companies.image := None; Companies.status := None;
        Companies.deleted := None |}
     (Demo.fresh Demo.eventHeader)).1
  = Value (json (BError "Username already exists") 400)
  /\ sheets (Companies.POST
               {| Companies.id := None; Companies.name := Some "Acme Two";
                  Companies.username := Some "acme"; Companies.password := Some "secret";
                  Companies.image := None; Companies.status := None;
                  Companies.deleted := None |}
               (Demo.fresh Demo.eventHeader)).2
     = sheets (Demo.fresh Demo.eventHeader).
Proof.
  apply (taken_username_rejected _ (Demo.fresh Demo.eventHeader)
           {| rows := [Demo.companiesHeader; Demo.acme "enabled" "false"]; tables := ∅ |}
           (Demo.acme "enabled" "false")).
  - reflexivity.
  - reflexivity.
  - reflexivity.
  - reflexivity.
  - vm_compute; reflexivity.
  - cbn. apply list_elem_of_here.
  - reflexivity.
Defined.

(** Against C3 as stated: the only company with username [acme] is
    deleted, and a new company with that username is still refused. *)
Lemma deleted_username_still_taken :
  sheetRows (Demo.world [Demo.acme "enabled" "true"] ∅) "companies"
  = Some [Demo.companiesHeader; Demo.acme "enabled" "true"]
  /\ Company.username (Companies.ofRow (Demo.acme "enabled" "true")) = Some "acme"
  /\ Company.deleted (Companies.ofRow (Demo.acme "enabled" "true")) = true
  /\ (Companies.POST
        {| Companies.id := None; Companies.name := Some "Acme Two";
           Companies.username := Some "acme"; Companies.password := Some "secret";
           Companies.image := None; Companies.status := None;
           Companies.deleted := None |}
        (Demo.world [Demo.acme "enabled" "true"] ∅)).1
     = Value (json (BError "Username already exists") 400).
Proof. vm_compute. done. Qed.

(** The rows of the companies sheet when [POST] checks the username: the
    sheet as it is, or just the header row when the sheet had to be
    created. *)
Lemma POST_existing w :
  notAdmin (session w) = false ->
  exists w1,
    sheets w1 = match sheets w !! "companies" with
                | Some _ => sheets w
                | None =>
                  <["companies" :=
                      {| rows := [[Some "ID"; Some "Name"; Some "Username";
                                   Some "Password"; Some "Image"; Some "Status";
                                   Some "Deleted"]];
                         tables := ∅ |}]> (sheets w)
                end
    /\ ticks w1 = ticks w /\ clock w1 = clock w /\ bcryptHash w1 = bcryptHash w
    /\ upload w1 = upload w
    /\ tryCatch (getSheetData "companies";;; ret tt)
         (createSheet "companies";;;
          appendToSheet "companies"
            [[Some "ID"; Some "Name"; Some "Username"; Some "Password";
              Some "Image"; Some "Status"; Some "Deleted"]]) w
       = (Value tt, w1).
Proof.
  intros _. unfold tryCatch, bind, getSheetData, createSheet, appendToSheet, ret.
  cbn [sheets logCall]. destruct (sheets w !! "companies") as [csh|] eqn:Hc.
  - eexists. split_and!; [| | | | | reflexivity]; done.
  - cbn [sheets logCall setSheets]. rewrite Hc. cbn [sheets logCall setSheets].
    rewrite lookup_insert_eq.
    eexists. split_and!; [| | | | | reflexivity]; cbn; try done.
    by rewrite insert_insert_eq.
Qed.

Lemma appendToSheet_some w sheetName sh rs :
  sheets w !! sheetName = Some sh ->
  appendToSheet sheetName rs w
  = (Value tt,
     setSheets
       (<[sheetName := {| rows := (rows sh ++ rs)%list; tables := tables sh |}]>
          (sheets w))
       (logCall (CAppendToSheet sheetName rs) w)).
Proof. intros H. unfold appendToSheet. cbn. by rewrite H. Qed.

Lemma createSheet_free w sheetName :
  sheets w !! sheetName = None ->
  createSheet sheetName w
  = (Value tt,
     setSheets (<[sheetName := {| rows := []; tables := ∅ |}]> (sheets w))
       (logCall (CCreateSheet sheetName) w)).
Proof. intros H. unfold createSheet. cbn. by rewrite H. Qed.

(** C8. An admin's POST with name, username, password and an image, whose
    upload comes back without success, is still answered 200: the company
    is returned and stored with a null image. The username is free and no
    sheet bears the company's name yet, so that nothing else fails. *)
Theorem failed_upload_leaves_image_null (req : Companies.Json) (w : World) :
  let out := Companies.POST req w in
  let existing :=
    match sheetRows w "companies" with
    | Some existingData => existingData
    | None => [[Some "ID"; Some "Name"; Some "Username"; Some "Password";
                Some "Image"; Some "Status"; Some "Deleted"]]
    end in
  let id := "company_" +:+ pretty (clock w (ticks w)) in
  let hashedPassword := bcryptHash w (JS.toString (Companies.password req)) 10 in
  notAdmin (session w) = false ->
  JS.truthy (Companies.name req) = true ->
  JS.truthy (Companies.username req) = true ->
  JS.truthy (Companies.password req) = true ->
  JS.truthy (Companies.image req) = true ->
  (forall fileName,
     exists result,
       upload w fileName (JS.toString (Companies.image req)) "companies" = Some result
       /\ success result = false) ->
  existsb (fun row => JS.eq3 (JS.index row 2) (Companies.username req))
    (drop 1 existing) = false ->
  sheets w !! JS.toString (Companies.name req) = None ->
  JS.toString (Companies.name req) <> "companies" ->
  out.1 = Value (json (BCompany
                         {| Company.id := Some id;
                            Company.name := Companies.name req;
                            Company.username := Companies.username req;
                            Company.image := None;
                            Company.status := Some "enabled";
                            Company.deleted := false |}) 200)
  /\ sheetRows out.2 "companies"
     = Some (existing
             ++ [[Some id; Companies.name req; Companies.username req;
                  Some hashedPassword; None; Some "enabled"; Some "false"]])%list
  /\ sheetRows out.2 (JS.toString (Companies.name req)) = Some [].
Proof.
  intros out existing id hashedPassword Ha Hn Hu Hp Him Hup Hfree Hsheet Hname.
  destruct (POST_existing w Ha) as (w1 & Hs1 & Ht1 & Hc1 & Hb1 & Hu1 & Hrun1).
  assert (exists csh, sheets w1 !! "companies" = Some csh /\ rows csh = existing
                      /\ sheets w1 !! JS.toString (Companies.name req) = None)
    as (csh & Hcsh & Hrows & Hsheet1).
  { rewrite Hs1. subst existing. unfold sheetRows.
    destruct (sheets w !! "companies") as [csh|] eqn:Hc; cbn.
    - by exists csh.
    - eexists. rewrite lookup_insert_eq. split_and!; [done | done |].
      by rewrite lookup_insert_ne. }
  set (w2 := logCall (CGetSheetData "companies") w1).
  destruct (Hup ("company_" +:+ id +:+ "_" +:+ pretty (clock w (S (ticks w))) +:+ ".jpg"))
    as (result & Hres & Hfail).
  set (newRow := [Some id; Companies.name req; Companies.username req;
                  Some hashedPassword; None; Some "enabled"; Some "false"]).
  assert (out
          = (Value (json (BCompany
                         {| Company.id := Some id;
                            Company.name := Companies.name req;
                            Company.username := Companies.username req;
                            Company.image := None;
                            Company.status := Some "enabled";
                            Company.deleted := false |}) 200),
             setSheets
               (<[JS.toString (Companies.name req) := {| rows := []; tables := ∅ |}]>
                  (<["companies" := {| rows := (existing ++ [newRow])%list;
                                       tables := tables csh |}]> (sheets w1)))
               (logCall (CCreateSheet (JS.toString (Companies.name req)))
                  (logCall (CAppendToSheet "companies" [newRow])
                     (tick (tick w2)))))) as ->.
  { subst out. unfold Companies.POST, tryCatch at 1. unfold bind at 1, getServerSession.
    rewrite Ha, Hn, Hu, Hp. cbn [negb orb].
    unfold bind at 1. rewrite Hrun1.
    unfold bind at 1. rewrite (getSheetData_some _ _ _ Hcsh).
    rewrite Hrows, Hfree. subst w2.
    unfold bind at 1, Date_now. cbn [ticks clock logCall].
    unfold bind at 1, bcrypt_hash. cbn [bcryptHash tick logCall].
    unfold bind at 1, Companies.uploaded. rewrite Him.
    unfold bind at 1, Date_now. cbn [ticks clock tick logCall].
    unfold bind at 1, uploadImage. cbn [upload tick logCall].
    rewrite Ht1, Hc1, Hb1, Hu1. fold id. rewrite Hres. cbn [ofOption ret].
    unfold ret at 1. rewrite Hfail. unfold ret at 1.
    unfold bind at 1. fold hashedPassword. fold newRow.
    rewrite (appendToSheet_some _ _ csh) by done. rewrite Hrows.
    unfold bind at 1.
    rewrite createSheet_free; [done|].
    cbn [sheets setSheets logCall tick]. by rewrite lookup_insert_ne. }
  cbn [fst snd]. unfold sheetRows. cbn [sheets setSheets].
  split_and!.
  - done.
  - rewrite lookup_insert_ne by done. by rewrite lookup_insert_eq.
  - by rewrite lookup_insert_eq.
Qed.

(** What [PUT] does once the company is found and the username is free:
    one row is written back, then the sheet is renamed if the name
    changes. *)
Lemma PUT_found (req : Companies.Json) (w : World) (csh : Sheet) (i : nat) :
  let r := default [] (drop 1 (rows csh) !! i) in
  notAdmin (session w) = false ->
  JS.truthy (Companies.id req) = true ->
  sheets w !! "companies" = Some csh ->
  JS.findIndex (fun row => JS.eq3 (JS.index row 0) (Companies.id req))
    (drop 1 (rows csh)) = Some i ->
  Companies.usernameTaken req i (drop 1 (rows csh)) = false ->
  (JS.truthy (Companies.image req) = true ->
   forall fileName,
     is_Some (upload w fileName (JS.toString (Companies.image req)) "companies")) ->
  exists hashedPassword imageUrl w1,
    hashedPassword
    = (if JS.truthy (Companies.password req)
       then Some (bcryptHash w (JS.toString (Companies.password req)) 10)
       else JS.index r 3)
    /\ (JS.truthy (Companies.image req) = false -> imageUrl = Companies.currentImage r)
    /\ sheets w1 = sheets w
    /\ calls w1 = (calls w ++ [CGetSheetData "companies"])%list
    /\ let updated := Companies.updatedCompany req r hashedPassword imageUrl in
       let w2 :=
         setSheets
           (<["companies" := {| rows := <[i + 1 := updated]> (rows csh);
                                tables := tables csh |}]> (sheets w))
           (logCall (CUpdateRow "companies" (i + 1) updated) w1) in
       let ok :=
         json (BCompany
                 {| Company.id := Companies.id req;
                    Company.name := JS.or (Companies.name req) (JS.index r 1);
                    Company.username := JS.or (Companies.username req) (JS.index r 2);
                    Company.image := imageUrl;
                    Company.status :=
                      JS.or (Companies.status req) (Companies.currentStatus r);
                    Company.deleted :=
                      match Companies.deleted req with
                      | Some d => d
                      | None => Companies.currentDeleted r
                      end |}) 200 in
       Companies.PUT req w
       = if Companies.renamed req r
         then match renameSheet (JS.index r 1) (JS.toString (Companies.name req)) w2 with
              | (Value _, w3) => (Value ok, w3)
              | (Thrown, w3) => (Value (json (BError "Failed to update company") 500), w3)
              end
         else (Value ok, w2).
Proof.
  intros r Ha Hid Hc Hi Hfree Hup.
  set (w0 := logCall (CGetSheetData "companies") w).
  assert (exists imageUrl w1,
            (JS.truthy (Companies.image req) = false -> imageUrl = Companies.currentImage r)
            /\ sheets w1 = sheets w
            /\ calls w1 = (calls w ++ [CGetSheetData "companies"])%list
            /\ Companies.uploaded (JS.toString (Companies.id req)) (Companies.image req)
                 (Companies.currentImage r) w0 = (Value imageUrl, w1))
    as (imageUrl & w1 & Himg & Hs1 & Hc1 & Hrun1).
  { unfold Companies.uploaded.
    destruct (JS.truthy (Companies.image req)) eqn:Him.
    - unfold bind at 1, Date_now. unfold bind at 1, uploadImage.
      cbn [upload tick logCall w0].
      destruct (Hup eq_refl ("company_" +:+ JS.toString (Companies.id req) +:+ "_"
                             +:+ pretty (clock w0 (ticks w0)) +:+ ".jpg"))
        as [result Hres].
      exists (if success result then url result else Companies.currentImage r),
        (tick w0).
      subst w0. cbn [clock ticks logCall] in *. rewrite Hres. cbn [ofOption ret].
      unfold ret. split_and!; [done | done | done |].
      by destruct (success result).
    - exists (Companies.currentImage r), w0. by split_and!. }
  exists (if JS.truthy (Companies.password req)
          then Some (bcryptHash w (JS.toString (Companies.password req)) 10)
          else JS.index r 3), imageUrl, w1.
  split_and!; try done.
  cbn zeta.
  unfold Companies.PUT, tryCatch at 1. unfold bind at 1, getServerSession.
  rewrite Ha, Hid. cbn [negb].
  unfold bind at 1. rewrite (getSheetData_some _ _ _ Hc). fold w0.
  cbn zeta. rewrite Hi, Hfree. fold r.
  unfold bind at 1, Companies.hashed.
  assert ((if JS.truthy (Companies.password req)
           then h <~ bcrypt_hash (JS.toString (Companies.password req)) 10;; ret (Some h)
           else ret (JS.index r 3)) w0
          = (Value (if JS.truthy (Companies.password req)
                    then Some (bcryptHash w (JS.toString (Companies.password req)) 10)
                    else JS.index r 3), w0)) as ->.
  { by destruct (JS.truthy (Companies.password req)). }
  unfold bind at 1. rewrite Hrun1.
  unfold bind at 1. rewrite (updateRow_some _ _ csh) by (by rewrite Hs1).
  rewrite Hs1.
  destruct (Companies.renamed req r).
  - unfold bind at 1.
    destruct (renameSheet _ _ _) as [[[]|] w3]; done.
  - done.
Qed.

Lemma renamed_true req r :
  JS.truthy (Companies.name req) = true ->
  Companies.name req <> JS.index r 1 ->
  Companies.renamed req r = true.
Proof.
  intros Hn Hne. unfold Companies.renamed, JS.eq3. rewrite Hn.
  by rewrite bool_decide_eq_false_2.
Qed.

Lemma renamed_false req r :
  JS.truthy (Companies.name req) = false \/ Companies.name req = JS.index r 1 ->
  Companies.renamed req r = false.
Proof.
  intros [Hn|He]; unfold Companies.renamed, JS.eq3.
  - by rewrite Hn.
  - rewrite (bool_decide_eq_true_2 _ He). apply andb_false_r.
Qed.

(** C7. For an admin's PUT that finds the company, takes no other row's
    username and whose image upload, if any, does not throw: when the
    request carries a name other than the current one, the row is written
    back and then [renameSheet] is called from the current name to the new
    one, which moves the company's sheet to the new title when that title is
    free; when the name is absent or unchanged no rename is called and every
    sheet but the companies sheet is as before. *)
Theorem rename_follows_name
    (req : Companies.Json) (w : World) (csh : Sheet) (i : nat) (r : row) :
  let out := Companies.PUT req w in
  let newName := JS.toString (Companies.name req) in
  notAdmin (session w) = false ->
  JS.truthy (Companies.id req) = true ->
  sheets w !! "companies" = Some csh ->
  JS.findIndex (fun row => JS.eq3 (JS.index row 0) (Companies.id req))
    (drop 1 (rows csh)) = Some i ->
  drop 1 (rows csh) !! i = Some r ->
  Companies.usernameTaken req i (drop 1 (rows csh)) = false ->
  (JS.truthy (Companies.image req) = true ->
   forall fileName,
     is_Some (upload w fileName (JS.toString (Companies.image req)) "companies")) ->
  (JS.truthy (Companies.name req) = true ->
   Companies.name req <> JS.index r 1 ->
   (exists updated,
      calls out.2
      = (calls w ++ [CGetSheetData "companies";
                     CUpdateRow "companies" (i + 1) updated;
                     CRenameSheet (JS.index r 1) newName])%list)
   /\ (forall old sh,
         JS.index r 1 = Some old ->
         old <> "companies" ->
         sheets w !! old = Some sh ->
         sheets w !! newName = None ->
         (exists company, out.1 = Value (json (BCompany company) 200))
         /\ sheets out.2 !! old = None
         /\ sheets out.2 !! newName = Some sh))
  /\ (JS.truthy (Companies.name req) = false \/ Companies.name req = JS.index r 1 ->
      (exists updated,
         calls out.2
         = (calls w ++ [CGetSheetData "companies";
                        CUpdateRow "companies" (i + 1) updated])%list)
      /\ (exists company, out.1 = Value (json (BCompany company) 200))
      /\ (forall s, s <> "companies" -> sheets out.2 !! s = sheets w !! s)).
Proof.
  intros out newName Ha Hid Hc Hi Hr Hfree Hup.
  destruct (PUT_found req w csh i Ha Hid Hc Hi Hfree Hup)
    as (hp & img & w1 & _ & _ & Hs1 & Hc1 & Hrun).
  rewrite Hr in Hrun. cbn [default from_option Datatypes.id] in Hrun. cbn zeta in Hrun.
  split.
  - intros Hn Hne. rewrite (renamed_true _ _ Hn Hne) in Hrun. split.
    + exists (Companies.updatedCompany req r hp img). subst out. rewrite Hrun.
      match goal with
      | |- context [renameSheet ?o ?n ?w2] =>
        pose proof (renameSheet_calls o n w2) as Hcalls;
        destruct (renameSheet o n w2) as [[[]|] w3]
      end; cbn [fst snd calls logCall setSheets] in *;
        by rewrite Hcalls, Hc1, <- !app_assoc.
    + intros old sh Hold Hne' Hsh Hnew. subst out newName. rewrite Hrun, Hold.
      assert (JS.toString (Companies.name req) <> "companies") as Hne''
        by (intros E; rewrite E in Hnew; congruence).
      erewrite renameSheet_some.
      * cbn [fst snd sheets setSheets logCall]. split_and!.
        -- eauto.
        -- destruct (decide (old = JS.toString (Companies.name req))) as [E|E];
             [rewrite <- E in Hnew; congruence|].
           rewrite lookup_insert_ne by done. by rewrite lookup_delete_eq.
        -- by rewrite lookup_insert_eq.
      * cbn [sheets setSheets logCall]. by rewrite lookup_insert_ne.
      * cbn [sheets setSheets logCall]. by rewrite lookup_insert_ne.
  - intros Hsame. rewrite (renamed_false _ _ Hsame) in Hrun.
    subst out. rewrite Hrun. cbn [fst snd sheets setSheets logCall calls].
    split_and!.
    + eexists. by rewrite Hc1, <- !app_assoc.
    + eauto.
    + intros s Hs. by rewrite lookup_insert_ne.
Qed.

Lemma or_or (a b : JS.value) : JS.or (JS.or a b) b = JS.or a b.
Proof. unfold JS.or. destruct (JS.truthy a) eqn:Ha; [by rewrite Ha | by destruct (JS.truthy b)]. Qed.

(** C6 (as amended). For an admin's PUT that finds the company, takes no
    other row's username and whose image upload, if any, does not throw,
    exactly one row is written, the company's. In it the id is the stored
    one; name, username and password hash are the stored cells when the
    request has none, and the hash is [bcrypt.hash] of the password when it
    has one; image, status and deleted, when the request has none, are the
    values the endpoint reads from the row (image or null, status or
    ["enabled"], ["true"] only for a deleted cell ["true"]), so that the row
    read back gives the same image, status and deleted flag as before.
    Unless the company is itself named [companies], the companies sheet
    afterwards differs from the one before in that row only. *)
Theorem update_keeps_absent_fields
    (req : Companies.Json) (w : World) (csh : Sheet) (i : nat) (r : row) :
  let out := Companies.PUT req w in
  notAdmin (session w) = false ->
  JS.truthy (Companies.id req) = true ->
  sheets w !! "companies" = Some csh ->
  JS.findIndex (fun row => JS.eq3 (JS.index row 0) (Companies.id req))
    (drop 1 (rows csh)) = Some i ->
  drop 1 (rows csh) !! i = Some r ->
  Companies.usernameTaken req i (drop 1 (rows csh)) = false ->
  (JS.truthy (Companies.image req) = true ->
   forall fileName,
     is_Some (upload w fileName (JS.toString (Companies.image req)) "companies")) ->
  exists updated rest,
    calls out.2
    = (calls w ++ [CGetSheetData "companies"; CUpdateRow "companies" (i + 1) updated]
       ++ rest)%list
    /\ (rest = [] \/ exists oldName newName, rest = [CRenameSheet oldName newName])
    /\ JS.index updated 0 = JS.index r 0
    /\ (JS.truthy (Companies.name req) = false -> JS.index updated 1 = JS.index r 1)
    /\ (JS.truthy (Companies.username req) = false ->
        JS.index updated 2 = JS.index r 2)
    /\ (JS.truthy (Companies.password req) = false ->
        JS.index updated 3 = JS.index r 3)
    /\ (JS.truthy (Companies.password req) = true ->
        JS.index updated 3
        = Some (bcryptHash w (JS.toString (Companies.password req)) 10))
    /\ (JS.truthy (Companies.image req) = false ->
        JS.index updated 4 = JS.or (JS.index r 4) None
        /\ Company.image (Companies.ofRow updated) = Company.image (Companies.ofRow r))
    /\ (JS.truthy (Companies.status req) = false ->
        JS.index updated 5 = JS.or (JS.index r 5) (Some "enabled")
        /\ Company.status (Companies.ofRow updated) = Company.status (Companies.ofRow r))
    /\ (Companies.deleted req = None ->
        JS.index updated 6
        = Some (if JS.eq3 (JS.index r 6) (Some "true") then "true" else "false")
        /\ Company.deleted (Companies.ofRow updated)
           = Company.deleted (Companies.ofRow r))
    /\ (JS.index r 1 <> Some "companies" ->
        exists rows',
          sheetRows out.2 "companies" = Some rows'
          /\ rows' !! (i + 1) = Some updated
          /\ forall j, j <> i + 1 -> rows' !! j = rows csh !! j).
Proof.
  intros out Ha Hid Hc Hi Hr Hfree Hup.
  destruct (PUT_found req w csh i Ha Hid Hc Hi Hfree Hup)
    as (hp & img & w1 & Hhp & Himg & Hs1 & Hc1 & Hrun).
  rewrite Hr in Hrun, Hhp, Himg.
  cbn [default from_option Datatypes.id] in Hrun, Hhp, Himg. cbn zeta in Hrun.
  destruct (findIndex_lookup _ _ _ Hi) as (r' & Hr' & Hid'). simplify_eq.
  apply bool_decide_eq_true in Hid'.
  set (updated := Companies.updatedCompany req r
                    (if JS.truthy (Companies.password req)
                     then Some (bcryptHash w (JS.toString (Companies.password req)) 10)
                     else JS.index r 3) img) in *.
  set (w2 := setSheets
               (<["companies" := {| rows := <[i + 1 := updated]> (rows csh);
                                    tables := tables csh |}]> (sheets w))
               (logCall (CUpdateRow "companies" (i + 1) updated) w1)) in *.
  assert (i + 1 < length (rows csh)) as Hlen.
  { apply lookup_lt_Some in Hr. rewrite length_drop in Hr. lia. }
  assert (exists rest,
             calls out.2
             = (calls w ++ [CGetSheetData "companies";
                            CUpdateRow "companies" (i + 1) updated] ++ rest)%list
             /\ (rest = [] \/ exists oldName newName, rest = [CRenameSheet oldName newName])
             /\ (JS.index r 1 <> Some "companies" ->
                 sheets out.2 !! "companies"
                 = Some {| rows := <[i + 1 := updated]> (rows csh);
                           tables := tables csh |}))
    as (rest & Hcalls & Hrest & Hsheet).
  { subst out. rewrite Hrun. destruct (Companies.renamed req r).
    - exists [CRenameSheet (JS.index r 1) (JS.toString (Companies.name req))].
      pose proof (renameSheet_calls (JS.index r 1)
                    (JS.toString (Companies.name req)) w2) as Hcalls.
      assert (JS.index r 1 <> Some "companies" ->
              sheets (renameSheet (JS.index r 1)
                        (JS.toString (Companies.name req)) w2).2 !! "companies"
              = Some {| rows := <[i + 1 := updated]> (rows csh);
                        tables := tables csh |}) as Hkeep.
      { intros Hne. unfold renameSheet.
        destruct (JS.index r 1) as [old|]; [|by cbn; rewrite lookup_insert_eq].
        cbn [sheets logCall setSheets w2].
        destruct (decide (JS.toString (Companies.name req) = "companies")) as [->|Hn].
        - rewrite (lookup_insert_eq (sheets w)).
          destruct (_ !! old); cbn; by rewrite lookup_insert_eq.
        - destruct (_ !! old) as [sh|]; [|by cbn; rewrite lookup_insert_eq].
          destruct (_ !! JS.toString _); cbn; [by rewrite lookup_insert_eq|].
          rewrite lookup_insert_ne by done.
          rewrite lookup_delete_ne by congruence. by rewrite lookup_insert_eq. }
      destruct (renameSheet _ _ w2) as [[[]|] w3];
        cbn [fst snd] in *; (split_and!; [|eauto|done]);
        rewrite Hcalls; subst w2; cbn [calls logCall setSheets];
        by rewrite Hc1, <- !app_assoc.
    - exists []. cbn [fst snd]. subst w2. cbn [calls logCall setSheets sheets].
      split_and!; [by rewrite Hc1, <- !app_assoc | by left |].
      intros _. by rewrite lookup_insert_eq. }
  exists updated, rest. split_and!; try done.
  - intros Hn.
    change (JS.or (Companies.name req) (JS.index r 1) = JS.index r 1).
    unfold JS.or. by rewrite Hn.
  - intros Hn.
    change (JS.or (Companies.username req) (JS.index r 2) = JS.index r 2).
    unfold JS.or. by rewrite Hn.
  - intros Hn. subst updated. by rewrite Hn.
  - intros Hn. subst updated. by rewrite Hn.
  - intros Hn.
    change (JS.index updated 4 = JS.or (JS.index r 4) None
            /\ JS.or (JS.index updated 4) None = JS.or (JS.index r 4) None).
    assert (JS.index updated 4 = img) as -> by done.
    rewrite (Himg Hn). split; [done | apply or_or].
  - intros Hn.
    assert (JS.or (Companies.status req) (Companies.currentStatus r)
            = Companies.currentStatus r) as Hst
      by (unfold JS.or at 1; by rewrite Hn).
    change (JS.or (Companies.status req) (Companies.currentStatus r)
            = JS.or (JS.index r 5) (Some "enabled")
            /\ JS.or (JS.or (Companies.status req) (Companies.currentStatus r))
                 (Some "enabled")
               = JS.or (JS.index r 5) (Some "enabled")).
    rewrite Hst. split; [done | apply or_or].
  - intros Hn.
    change (Some (match Companies.deleted req with
                  | Some d => if d then "true" else "false"
                  | None => if Companies.currentDeleted r then "true" else "false"
                  end)
            = Some (if JS.eq3 (JS.index r 6) (Some "true") then "true" else "false")
            /\ (if JS.eq3 (Some (match Companies.deleted req with
                                 | Some d => if d then "true" else "false"
                                 | None => if Companies.currentDeleted r
                                           then "true" else "false"
                                 end)) (Some "true") then true else false)
               = Companies.currentDeleted r).
    rewrite Hn. unfold Companies.currentDeleted.
    by destruct (JS.eq3 (JS.index r 6) (Some "true")).
  - intros Hne. exists (<[i + 1 := updated]> (rows csh)).
    unfold sheetRows. rewrite (Hsheet Hne). split_and!.
    + done.
    + by apply list_lookup_insert_eq.
    + intros j Hj. by apply list_lookup_insert_ne.
Qed.

(** Against C2 as stated: an admin soft-deletes Acme, the only company;
    the answer is 200, and the listing that GET returns afterwards still
    holds Acme, with [deleted] set. *)
Lemma deleted_company_still_returned :
  (Companies.DELETE (Some Demo.acmeId) (Demo.fresh Demo.eventHeader)).1
  = Value (json (BMessage "Company Acme marked as deleted successfully") 200)
  /\ (Companies.GET
        (Companies.DELETE (Some Demo.acmeId) (Demo.fresh Demo.eventHeader)).2).1
     = Value (json (BCompanies
                      [{| Company.id := Some Demo.acmeId;
                          Company.name := Some "Acme";
                          Company.username := Some "acme";
                          Company.image := None;
                          Company.status := Some "enabled";
                          Company.deleted := true |}]) 200).
Proof. vm_compute. done. Qed.

Lemma soft_delete_marks_renames_hides_witness :
  (Companies.DELETE (Some Demo.acmeId) (Demo.fresh Demo.eventHeader)).1
  = Value (json (BMessage "Company Acme marked as deleted successfully") 200)
  /\ sheetRows (Companies.DELETE (Some Demo.acmeId) (Demo.fresh Demo.eventHeader)).2
       "companies"
     = Some [Demo.companiesHeader; Demo.acme "enabled" "true"]
  /\ sheets (Companies.DELETE (Some Demo.acmeId) (Demo.fresh Demo.eventHeader)).2
       !! "Acme" = None
  /\ sheetRows (Companies.DELETE (Some Demo.acmeId) (Demo.fresh Demo.eventHeader)).2
       "Acme-deleted"
     = Some [[Some "Launch"]].
Proof.
  destruct (soft_delete_marks_renames_hides (Some Demo.acmeId)
              (Demo.fresh Demo.eventHeader)
              {| rows := [Demo.companiesHeader; Demo.acme "enabled" "false"];
                 tables := ∅ |}
              0 (Demo.acme "enabled" "false"))
    as (_ & _ & _ & Hlist & Hmove).
  - reflexivity.
  - reflexivity.
  - vm_compute; reflexivity.
  - vm_compute; reflexivity.
  - reflexivity.
  - destruct Hlist as [Hrows _]; [discriminate|].
    destruct (Hmove "Acme"
                {| rows := [[Some "Launch"]];
                   tables := {["Launch" := [Demo.eventHeader]]} |})
      as (H1 & H2 & H3).
    + reflexivity.
    + discriminate.
    + vm_compute; reflexivity.
    + vm_compute; reflexivity.
    + split_and!.
      * exact H1.
      * exact Hrows.
      * exact H2.
      * unfold sheetRows.
        change "Acme-deleted"
          with (JS.toString (JS.index (Demo.acme "enabled" "false") 1) +:+ "-deleted").
        by rewrite H3.
Defined.

Lemma failed_upload_leaves_image_null_witness :
  (Companies.POST Demo.beta (Demo.fresh Demo.eventHeader)).1
  = Value (json (BCompany
                   {| Company.id := Some "company_1762041600000";
                      Company.name := Some "Beta";
                      Company.username := Some "beta";
                      Company.image := None;
                      Company.status := Some "enabled";
                      Company.deleted := false |}) 200)
  /\ sheetRows (Companies.POST Demo.beta (Demo.fresh Demo.eventHeader)).2 "companies"
     = Some [Demo.companiesHeader; Demo.acme "enabled" "false";
             [Some "company_1762041600000"; Some "Beta"; Some "beta";
              Some "$2a$10$secret"; None; Some "enabled"; Some "false"]].
Proof.
  destruct (failed_upload_leaves_image_null Demo.beta (Demo.fresh Demo.eventHeader))
    as (H1 & H2 & _).
  - reflexivity.
  - reflexivity.
  - reflexivity.
  - reflexivity.
  - reflexivity.
  - intros fileName. eexists. split; reflexivity.
  - vm_compute; reflexivity.
  - vm_compute; reflexivity.
  - discriminate.
  - split; [exact H1 | exact H2].
Defined.

Lemma rename_follows_name_witness :
  sheets (Companies.PUT (Demo.put (Some "Acme Labs") None)
            (Demo.fresh Demo.eventHeader)).2 !! "Acme" = None
  /\ sheetRows (Companies.PUT (Demo.put (Some "Acme Labs") None)
                  (Demo.fresh Demo.eventHeader)).2 "Acme Labs"
     = Some [[Some "Launch"]].
Proof.
  destruct (rename_follows_name (Demo.put (Some "Acme Labs") None)
              (Demo.fresh Demo.eventHeader)
              {| rows := [Demo.companiesHeader; Demo.acme "enabled" "false"];
                 tables := ∅ |}
              0 (Demo.acme "enabled" "false")) as [Hrename _].
  - reflexivity.
  - reflexivity.
  - vm_compute; reflexivity.
  - vm_compute; reflexivity.
  - reflexivity.
  - vm_compute; reflexivity.
  - intros H. discriminate H.
  - destruct Hrename as [_ Hmove]; [reflexivity | discriminate |].
    destruct (Hmove "Acme"
                {| rows := [[Some "Launch"]];
                   tables := {["Launch" := [Demo.eventHeader]]} |})
      as (_ & H1 & H2).
    + reflexivity.
    + discriminate.
    + vm_compute; reflexivity.
    + vm_compute; reflexivity.
    + split; [exact H1|]. unfold sheetRows.
      change (JS.toString (Companies.name (Demo.put (Some "Acme Labs") None)))
        with "Acme Labs" in H2.
      by rewrite H2.
Defined.

Lemma update_keeps_absent_fields_witness :
  exists updated,
    CUpdateRow "companies" 1 updated
      ∈ calls (Companies.PUT (Demo.put None (Some "disabled"))
                 (Demo.fresh Demo.eventHeader)).2
    /\ JS.index updated 1 = Some "Acme"
    /\ JS.index updated 2 = Some "acme"
    /\ JS.index updated 3 = Some "$2a$10$acme".
Proof.
  destruct (update_keeps_absent_fields (Demo.put None (Some "disabled"))
              (Demo.fresh Demo.eventHeader)
              {| rows := [Demo.companiesHeader; Demo.acme "enabled" "false"];
                 tables := ∅ |}
              0 (Demo.acme "enabled" "false"))
    as (updated & rest & Hcalls & _ & _ & Hname & Huser & Hpass & _).
  - reflexivity.
  - reflexivity.
  - vm_compute; reflexivity.
  - vm_compute; reflexivity.
  - reflexivity.
  - vm_compute; reflexivity.
  - intros H. discriminate H.
  - exists updated. split_and!.
    + rewrite Hcalls. set_solver.
    + by rewrite Hname.
    + by rewrite Huser.
    + by rewrite Hpass.
Defined.

(** Against C6 as stated: the stored status cell of Acme is empty, the
    request carries the id alone, and the row written back says
    ["enabled"] (and the empty image cell has become null). *)
Lemma update_fills_empty_status :
  Companies.status (Demo.put None None) = None
  /\ JS.index Demo.bare 5 = Some ""
  /\ sheetRows (Demo.world [Demo.bare] (Demo.acmeSheet [Demo.eventHeader])) "companies"
     = Some [Demo.companiesHeader; Demo.bare]
  /\ sheetRows (Companies.PUT (Demo.put None None)
                  (Demo.world [Demo.bare] (Demo.acmeSheet [Demo.eventHeader]))).2
       "companies"
     = Some [Demo.companiesHeader;
             [Some Demo.acmeId; Some "Acme"; Some "acme"; Some "$2a$10$acme"; None;
              Some "enabled"; Some "false"]].
Proof. vm_compute. done. Qed.

(** ** Further properties of the handlers *)

Section Validation.

Variable decodeURIComponent : string -> option string.
Variable toISOString : Z -> string.
Variable Number : string -> float.

(** X1. The field validation of [route.ts], in the order of the code: a missing
    field, then the email, then the number. Each is answered 400 before any
    collaborator is called, so the world is left as it was. *)
Theorem registration_validation (req : Register.Request) (w : World)
    (companyName : string) :
  let out := Register.POST decodeURIComponent toISOString req w in
  decodeURIComponent (JS.toString (Register.rawCompanyName req)) = Some companyName ->
  (Register.missing companyName req = true ->
   out = (Value (json (BError "All fields are required") 400), w))
  /\ (Register.missing companyName req = false ->
      Regex.test Regex.emailRegex (JS.toString (Register.email req)) = false ->
      out = (Value (json (BError "Invalid email format") 400), w))
  /\ (Register.missing companyName req = false ->
      Regex.test Regex.emailRegex (JS.toString (Register.email req)) = true ->
      Regex.test Regex.phoneRegex (JS.toString (Register.whatsappNumber req)) = false ->
      out = (Value (json (BError "Invalid WhatsApp number format") 400), w)).
Proof.
  intros out Hd. subst out.
  unfold Register.POST, tryCatch, bind. rewrite Hd. unfold ofOption, ret.
  split_and!.
  - by intros ->.
  - by intros -> ->.
  - by intros -> -> ->.
Qed.

(** X2. The duplicate check of [part_001] reads the second and third cell of a
    stored row, while the rows it stores keep the email in the fourth: a
    request that passes the other checks is stored whenever no stored row
    has its number in the second cell or its email in the third, whatever
    the fourth cells hold. *)
Theorem part001_duplicate_check_reads_third_cell
    (req : Part001.Request) (w : World) (companyName : string)
    (tableData : list row) :
  let eventName := JS.toString (Part001.eventName req) in
  let date := toISOString (clock w (ticks w)) in
  let out := Part001.POST decodeURIComponent toISOString Number req w in
  Part001.valid decodeURIComponent Number req = Some companyName ->
  Part001.companyEnabled w companyName = true ->
  Part001.eventOpen w companyName eventName = Some tableData ->
  (forall stored, stored ∈ drop 1 tableData ->
     JS.index stored 1 <> Part001.whatsapp req
     /\ JS.index stored 2 <> Part001.email req) ->
  JS.index (Part001.stamped req date) 3 = Part001.email req
  /\ out.1 = Value (json (BRegistration (Part001.name req) (Part001.email req) date) 200)
  /\ table out.2 companyName eventName
     = Some (tableData ++ [Part001.stamped req date])%list.
Proof.
  intros eventName date out Hv Hc Ho Hrows.
  assert (Part001.existingRegistration (drop 1 tableData) req = None) as Hnew.
  { unfold Part001.existingRegistration.
    induction (drop 1 tableData) as [|stored rest IH]; [done|]. cbn.
    destruct (Hrows stored) as [H1 H2]; [by left|].
    unfold JS.eq3 at 1 2.
    rewrite (bool_decide_eq_false_2 _ H1), (bool_decide_eq_false_2 _ H2). cbn.
    apply IH. intros s Hs. apply Hrows. by right. }
  destruct (Part001_POST_checked _ toISOString _ _ _ _ _ Hv Hc Ho)
    as (sh & w0 & Hsh & _ & _ & _ & Hrun).
  rewrite Hnew in Hrun. subst out. rewrite Hrun.
  split_and!; [done | done | apply table_stored_eq].
Qed.

End Validation.

Lemma registration_validation_witness :
  Register.POST Demo.decode Demo.iso
    {| Register.rawCompanyName := Some "Acme"; Register.eventName := Some "Launch";
       Register.name := Some "Mona Adel"; Register.whatsappNumber := Some "12345";
       Register.nationalId := Some "29901011234567";
       Register.email := Some "mona@example.org";
       Register.education := Some "student";
       Register.universityCollege := Some "Cairo University";
       Register.age := Some "21"; Register.gender := Some "female" |}
    (Demo.fresh Demo.eventHeader)
  = (Value (json (BError "Invalid WhatsApp number format") 400),
     Demo.fresh Demo.eventHeader).
Proof.
  apply (registration_validation Demo.decode Demo.iso _ (Demo.fresh Demo.eventHeader)
           "Acme"); reflexivity || (vm_compute; reflexivity).
Defined.

Lemma part001_duplicate_check_reads_third_cell_witness :
  table (Part001.POST Demo.decode Demo.iso Demo.number (Demo.mona1 "201009999999")
           (Part001.POST Demo.decode Demo.iso Demo.number (Demo.mona1 "201001234567")
              (Demo.fresh Demo.eventHeader)).2).2 "Acme" "Launch"
  = Some [Demo.eventHeader;
          Part001.stamped (Demo.mona1 "201001234567") "2025-11-02T00:00:00.000Z";
          Part001.stamped (Demo.mona1 "201009999999") "2025-11-02T00:00:00.001Z"].
Proof.
  destruct (part001_duplicate_check_reads_third_cell Demo.decode Demo.iso Demo.number
              (Demo.mona1 "201009999999")
              (Part001.POST Demo.decode Demo.iso Demo.number (Demo.mona1 "201001234567")
                 (Demo.fresh Demo.eventHeader)).2
              "Acme"
              [Demo.eventHeader;
               Part001.stamped (Demo.mona1 "201001234567") "2025-11-02T00:00:00.000Z"])
    as (_ & _ & H).
  - vm_compute; reflexivity.
  - vm_compute; reflexivity.
  - vm_compute; reflexivity.
  - intros stored Hin. cbn in Hin. apply list_elem_of_singleton in Hin as ->.
    split; discriminate.
  - exact H.
Defined.

(** X3. Restoring a company ([PUT] with the id and [deleted: false], as the
    dashboard sends it) writes ["false"] into the deleted cell and calls no
    rename: the sheet that the soft delete moved to [{name}-deleted] stays
    there. *)
Theorem restore_leaves_sheet_renamed
    (req : Companies.Json) (w : World) (csh : Sheet) (i : nat) (r : row) :
  let out := Companies.PUT req w in
  notAdmin (session w) = false ->
  JS.truthy (Companies.id req) = true ->
  Companies.name req = None ->
  Companies.username req = None ->
  Companies.image req = None ->
  Companies.deleted req = Some false ->
  sheets w !! "companies" = Some csh ->
  JS.findIndex (fun row => JS.eq3 (JS.index row 0) (Companies.id req))
    (drop 1 (rows csh)) = Some i ->
  drop 1 (rows csh) !! i = Some r ->
  exists updated,
    calls out.2
    = (calls w ++ [CGetSheetData "companies";
                   CUpdateRow "companies" (i + 1) updated])%list
    /\ JS.index updated 6 = Some "false"
    /\ (forall s, s <> "companies" -> sheets out.2 !! s = sheets w !! s).
Proof.
  intros out Ha Hid Hn Hu Him Hd Hc Hi Hr.
  destruct (PUT_found req w csh i Ha Hid Hc Hi) as
    (hp & img & w1 & _ & _ & Hs1 & Hc1 & Hrun).
  - unfold Companies.usernameTaken. by rewrite Hu.
  - rewrite Him. intros H. discriminate H.
  - rewrite Hr in Hrun. cbn [default from_option Datatypes.id] in Hrun.
    cbn zeta in Hrun.
    assert (Companies.renamed req r = false) as Hsame
      by (unfold Companies.renamed; by rewrite Hn).
    rewrite Hsame in Hrun. subst out. rewrite Hrun.
    eexists. cbn [snd calls sheets setSheets logCall]. split_and!.
    + by rewrite Hc1, <- !app_assoc.
    + unfold Companies.updatedCompany. by rewrite Hd.
    + intros s Hs. by rewrite lookup_insert_ne.
Qed.

Lemma restore_leaves_sheet_renamed_witness :
  sheets (Companies.PUT Demo.restore Demo.softDeleted).2 !! "Acme" = None
  /\ sheetRows (Companies.PUT Demo.restore Demo.softDeleted).2 "Acme-deleted"
     = Some [[Some "Launch"]].
Proof.
  destruct (restore_leaves_sheet_renamed Demo.restore Demo.softDeleted
              {| rows := [Demo.companiesHeader; Demo.acme "enabled" "true"];
                 tables := ∅ |}
              0 (Demo.acme "enabled" "true"))
    as (updated & _ & _ & Hsheets).
  - reflexivity.
  - reflexivity.
  - reflexivity.
  - reflexivity.
  - reflexivity.
  - reflexivity.
  - vm_compute; reflexivity.
  - vm_compute; reflexivity.
  - reflexivity.
  - unfold sheetRows. rewrite !Hsheets by discriminate.
    split; vm_compute; reflexivity.
Defined.

(** * Further properties *)

(** ** What the expressions of [Regex] match *)


Import Matching.

Section MatchingFacts.

Local Hint Constructors Match : core.

Lemma Match_Cat_inv a b l :
  Match (Regex.Cat a b) l -> exists l1 l2, l = (l1 ++ l2)%list /\ Match a l1 /\ Match b l2.
Proof. inversion 1; subst; eauto. Qed.

Lemma Match_Alt_inv a b l :
  Match (Regex.Alt a b) l -> Match a l \/ Match b l.
Proof. inversion 1; subst; eauto. Qed.

Lemma Match_Never_inv l : ~ Match Regex.Never l.
Proof. inversion 1. Qed.

Lemma Match_Empty_inv l : Match Regex.Empty l -> l = [].
Proof. by inversion 1. Qed.

Lemma Match_Class_inv p l :
  Match (Regex.Class p) l -> exists c, l = [c] /\ p c = true.
Proof. inversion 1; subst; eauto. Qed.

(** A non-empty word of [a*] starts with a non-empty word of [a]. *)
Lemma Match_Star_cons a c l :
  Match (Regex.Star a) (c :: l) ->
  exists l1 l2, l = (l1 ++ l2)%list /\ Match a (c :: l1) /\ Match (Regex.Star a) l2.
Proof.
  intros H. remember (Regex.Star a) as r eqn:Hr. remember (c :: l) as w eqn:Hw.
  revert c l Hw Hr. induction H as [| | | | | |b l1 l2 H1 _ H2 IH2];
    intros c0 l0 Hw Hr; simplify_eq.
  destruct l1 as [|c' l1]; cbn in Hw.
  - by apply IH2.
  - simplify_eq. eauto.
Qed.

Lemma nullable_Match r : Regex.nullable r = true <-> Match r [].
Proof.
  induction r as [| |p|a IHa b IHb|a IHa b IHb|a IHa]; cbn.
  - split; [done | by intros ?%Match_Never_inv].
  - split; eauto.
  - split; [done|]. intros (c & ? & _)%Match_Class_inv. done.
  - rewrite andb_true_iff, IHa, IHb. split.
    + intros [Ha Hb]. by apply (MCat a b [] []).
    + intros (l1 & l2 & Hl & Ha & Hb)%Match_Cat_inv.
      symmetry in Hl. apply app_eq_nil in Hl as [-> ->]. done.
  - rewrite orb_true_iff, IHa, IHb. split.
    + intros [?|?]; eauto.
    + apply Match_Alt_inv.
  - split; eauto.
Qed.

Lemma deriv_Match c r l : Match (Regex.deriv c r) l <-> Match r (c :: l).
Proof.
  revert l. induction r as [| |p|a IHa b IHb|a IHa b IHb|a IHa]; intros l; cbn.
  - split; intros ?%Match_Never_inv; done.
  - split; [by intros ?%Match_Never_inv | by intros ?%Match_Empty_inv].
  - destruct (p c) eqn:Hp; split.
    + intros ->%Match_Empty_inv. eauto.
    + intros (c' & ? & _)%Match_Class_inv. simplify_eq. eauto.
    + by intros ?%Match_Never_inv.
    + intros (c' & ? & ?)%Match_Class_inv. simplify_eq. congruence.
  - assert (Match (Regex.Cat (Regex.deriv c a) b) l
            <-> exists l1 l2, l = (l1 ++ l2)%list /\ Match a (c :: l1) /\ Match b l2)
      as Hcat.
    { split.
      - intros (l1 & l2 & -> & Ha & Hb)%Match_Cat_inv. apply IHa in Ha. eauto.
      - intros (l1 & l2 & -> & Ha & Hb). apply IHa in Ha. eauto. }
    assert (Match (Regex.Cat a b) (c :: l)
            <-> (exists l1 l2, l = (l1 ++ l2)%list /\ Match a (c :: l1) /\ Match b l2)
                \/ (Match a [] /\ Match b (c :: l))) as Hsplit.
    { split.
      - intros (l1 & l2 & Hl & Ha & Hb)%Match_Cat_inv.
        destruct l1 as [|c' l1]; cbn in Hl; simplify_eq; eauto 8.
      - intros [(l1 & l2 & -> & Ha & Hb)|[Ha Hb]].
        + by apply (MCat a b (c :: l1) l2).
        + by apply (MCat a b [] (c :: l)). }
    rewrite Hsplit. destruct (Regex.nullable a) eqn:Hn.
    + apply nullable_Match in Hn. split.
      * intros [H|H]%Match_Alt_inv; [left; by apply Hcat | right; by rewrite <- IHb].
      * intros [H|[_ H]]; [apply MAltL; by apply Hcat | apply MAltR; by apply IHb].
    + rewrite Hcat. split; [by left|]. intros [H|[Ha _]]; [done|].
      apply nullable_Match in Ha. congruence.
  - split.
    + intros [H|H]%Match_Alt_inv; [apply MAltL; by apply IHa | apply MAltR; by apply IHb].
    + intros [H|H]%Match_Alt_inv; [apply MAltL; by apply IHa | apply MAltR; by apply IHb].
  - split.
    + intros (l1 & l2 & -> & Ha & Hs)%Match_Cat_inv. apply IHa in Ha.
      by apply (MStarApp a (c :: l1) l2).
    + intros (l1 & l2 & -> & Ha & Hs)%Match_Star_cons. apply IHa in Ha. eauto.
Qed.

(** [Regex.test] decides membership. *)
Lemma test_Match r s :
  Regex.test r s = true <-> Match r (Regex.codePoints (list_ascii_of_string s)).
Proof.
  unfold Regex.test. generalize (Regex.codePoints (list_ascii_of_string s)) as l.
  intros l. revert r. induction l as [|c l IH]; intros r; cbn.
  - apply nullable_Match.
  - rewrite IH. apply deriv_Match.
Qed.

Lemma Match_times p n l :
  Match (Regex.times n (Regex.Class p)) l
  <-> length l = n /\ Forall (fun c => p c = true) l.
Proof.
  revert l. induction n as [|n IH]; intros l; cbn.
  - split.
    + by intros ->%Match_Empty_inv.
    + intros [Hl _]. apply nil_length_inv in Hl as ->. eauto.
  - split.
    + intros (l1 & l2 & -> & (c & -> & Hc)%Match_Class_inv & [Hl Hf]%IH)%Match_Cat_inv.
      cbn. split; [by rewrite Hl | by constructor].
    + intros [Hl Hf]. destruct l as [|c l]; [done|].
      apply Forall_cons in Hf as [Hc Hf].
      apply (MCat _ _ [c] l); [eauto|]. apply IH. cbn in Hl. split; [lia | done].
Qed.

Lemma Match_upto p m l :
  Match (Regex.upto m (Regex.Class p)) l
  <-> length l <= m /\ Forall (fun c => p c = true) l.
Proof.
  revert l. induction m as [|m IH]; intros l; cbn.
  - split.
    + by intros ->%Match_Empty_inv.
    + intros [Hl _]. destruct l; [eauto | cbn in Hl; lia].
  - split.
    + intros [->%Match_Empty_inv|H]%Match_Alt_inv; [split; [cbn; lia | done]|].
      apply Match_Cat_inv in H
        as (l1 & l2 & -> & (c & -> & Hc)%Match_Class_inv & [Hl Hf]%IH).
      cbn. split; [lia | by constructor].
    + intros [Hl Hf]. destruct l as [|c l]; [eauto|].
      apply Forall_cons in Hf as [Hc Hf]. apply MAltR.
      apply (MCat _ _ [c] l); [eauto|]. apply IH. cbn in Hl. split; [lia | done].
Qed.

Lemma Match_star_class p l :
  Match (Regex.Star (Regex.Class p)) l <-> Forall (fun c => p c = true) l.
Proof.
  split.
  - induction l as [|c l IH]; [done|].
    intros (l1 & l2 & -> & (c' & Hc & Hp)%Match_Class_inv & Hs)%Match_Star_cons.
    simplify_eq. constructor; [done | by apply IH].
  - induction 1 as [|c l Hc _ IH]; [eauto|].
    by apply (MStarApp _ [c] l); eauto.
Qed.

Lemma Match_plus_class p l :
  Match (Regex.plus (Regex.Class p)) l
  <-> l <> [] /\ Forall (fun c => p c = true) l.
Proof.
  unfold Regex.plus. split.
  - intros (l1 & l2 & -> & (c & -> & Hc)%Match_Class_inv & Hs%Match_star_class)%Match_Cat_inv.
    split; [done | by constructor].
  - intros [Hne Hf]. destruct l as [|c l]; [done|].
    apply Forall_cons in Hf as [Hc Hf].
    apply (MCat _ _ [c] l); [eauto | by apply Match_star_class].
Qed.

End MatchingFacts.

(** X4. [/^\d{10,15}$/] accepts exactly the strings of ten to fifteen code
    points that are all ASCII digits. *)
Theorem phoneRegex_digits (s : string) :
  let word := Regex.codePoints (list_ascii_of_string s) in
  Regex.test Regex.phoneRegex s = true
  <-> 10 <= length word <= 15 /\ Forall (fun c => (48 <= c <= 57)%N) word.
Proof.
  intros word. rewrite test_Match. fold word. unfold Regex.phoneRegex.
  assert (forall l, Forall (fun c => Regex.digit c = true) l
                    <-> Forall (fun c => (48 <= c <= 57)%N) l) as Hd.
  { intros l. apply Forall_proper; [|done]. intros c. unfold Regex.digit.
    rewrite andb_true_iff, !N.leb_le. done. }
  split.
  - intros (l1 & l2 & -> & [Hl1 Hf1]%Match_times & [Hl2 Hf2]%Match_upto)%Match_Cat_inv.
    rewrite length_app. split; [lia|]. apply Hd, Forall_app. done.
  - intros [Hl Hf]. apply Hd in Hf.
    rewrite <- (take_drop 10 word) in Hf |- *.
    apply Forall_app in Hf as [Hf1 Hf2].
    apply MCat.
    + apply Match_times. split; [|done]. rewrite length_take. lia.
    + apply Match_upto. split; [|done]. rewrite length_drop. lia.
Qed.

(** X5. [/^[^\s@]+@[^\s@]+\.[^\s@]+$/] accepts exactly the strings that split
    into three non-empty parts, joined by [@] and by a dot, none of which
    holds white space or [@]. *)
Theorem emailRegex_parts (s : string) :
  Regex.test Regex.emailRegex s = true
  <-> exists user host tld,
        Regex.codePoints (list_ascii_of_string s)
        = (user ++ [64%N] ++ host ++ [46%N] ++ tld)%list
        /\ user <> [] /\ host <> [] /\ tld <> []
        /\ Forall (fun c => Regex.space c = false /\ c <> 64%N) (user ++ host ++ tld).
Proof.
  rewrite test_Match. unfold Regex.emailRegex.
  assert (forall l, Forall (fun c => Regex.notSpaceAt c = true) l
                    <-> Forall (fun c => Regex.space c = false /\ c <> 64%N) l) as Hc.
  { intros l. apply Forall_proper; [|done]. intros c. unfold Regex.notSpaceAt, Regex.chr.
    rewrite negb_true_iff, orb_false_iff, N.eqb_neq. done. }
  assert (forall n l, Match (Regex.Class (Regex.chr n)) l <-> l = [N.of_nat n]) as Hchr.
  { intros n l. split.
    - intros (c & -> & Hc')%Match_Class_inv. unfold Regex.chr in Hc'.
      by apply N.eqb_eq in Hc' as ->.
    - intros ->. constructor. unfold Regex.chr. by apply N.eqb_eq. }
  split.
  - intros (user & r1 & -> & [Hu Hfu]%Match_plus_class & H)%Match_Cat_inv.
    apply Match_Cat_inv in H as (at' & r2 & -> & ->%Hchr & H).
    apply Match_Cat_inv in H as (host & r3 & -> & [Hh Hfh]%Match_plus_class & H).
    apply Match_Cat_inv in H as (dot & tld & -> & ->%Hchr & [Ht Hft]%Match_plus_class).
    exists user, host, tld. split_and!; try done.
    apply Hc. rewrite !Forall_app. done.
  - intros (user & host & tld & -> & Hu & Hh & Ht & Hf).
    apply Hc in Hf. rewrite !Forall_app in Hf. destruct Hf as (Hfu & Hfh & Hft).
    apply MCat; [by apply Match_plus_class|].
    apply MCat; [by apply Hchr|].
    apply MCat; [by apply Match_plus_class|].
    apply MCat; [by apply Hchr | by apply Match_plus_class].
Qed.

(** ** The answers of the registration handlers *)

Section RegisterOutcomes.
Variable decodeURIComponent : string -> option string.
Variable toISOString : Z -> string.

#[local] Abbreviation POST := (Register.POST decodeURIComponent toISOString).
#[local] Abbreviation valid := (Register.valid decodeURIComponent).

(** A request that fails the validation is answered 400, or 500 when the
    company name does not decode, and no collaborator is called. *)
Lemma Register_invalid req w :
  valid req = None ->
  exists response,
    POST req w = (Value response, w)
    /\ (code response = 400 \/ code response = 500).
Proof.
  unfold Register.valid, Register.POST, tryCatch, bind, ofOption, ret, throw.
  destruct (decodeURIComponent _) as [companyName|]; [|eauto].
  destruct (Register.missing companyName req); [eauto|].
  destruct (Regex.test Regex.emailRegex _); [|eauto].
  destruct (Regex.test Regex.phoneRegex _); [|eauto].
  done.
Qed.

(** A company that fails its check is answered 403, 404 or 500. *)
Lemma Register_company_refused companyName req w :
  Register.companyEnabled w companyName = false ->
  exists response w',
    Register.registerInCompany toISOString companyName req w = (Value response, w')
    /\ sheets w' = sheets w
    /\ (code response = 403 \/ code response = 404 \/ code response = 500).
Proof.
  unfold Register.companyEnabled, sheetRows. intros H.
  unfold Register.registerInCompany, tryCatch, bind, attempt, getSheetData, ret.
  cbn [sheets logCall].
  destruct (sheets w !! companyName) as [sh|];
    cbn [fmap option_fmap option_map] in H; [|eauto 10].
  case_bool_decide; [eauto 10|]. cbn [sheets logCall].
  destruct (sheets w !! "companies") as [csh|];
    cbn [fmap option_fmap option_map negb andb] in H; [|eauto 10].
  destruct (find _ _) as [company|]; [|eauto 10].
  apply negb_false_iff in H. cbn zeta. rewrite H. eauto 10.
Qed.

(** An event that fails its check is answered 403 or 404. *)
Lemma Register_event_refused companyName req w :
  Register.eventOpen w companyName (JS.toString (Register.eventName req)) = None ->
  exists response w',
    Register.registerInEvent toISOString companyName req w = (Value response, w')
    /\ sheets w' = sheets w
    /\ (code response = 403 \/ code response = 404).
Proof.
  unfold Register.eventOpen, table. intros H.
  unfold Register.registerInEvent, tryCatch, bind, attempt, getTableData, ret.
  cbn [sheets logCall].
  destruct (sheets w !! companyName ≫= _) as [tableData|]; [|eauto 10].
  case_bool_decide; [eauto 10|]. cbn [orb] in H.
  destruct (Register.eventDisabled tableData); [eauto 10 | done].
Qed.

(** The answer is 200 exactly when every check passes: the validation, the
    company check, the event check and the duplicate check. *)
Lemma Register_200_checked req w response w' :
  POST req w = (Value response, w') ->
  code response = 200 ->
  exists companyName tableData,
    valid req = Some companyName
    /\ Register.companyEnabled w companyName = true
    /\ Register.eventOpen w companyName (JS.toString (Register.eventName req))
       = Some tableData
    /\ Register.existingRegistration (default [] (tableData !! 0))
         (drop 1 tableData) req = None.
Proof.
  intros Hrun Hcode.
  destruct (valid req) as [companyName|] eqn:Hv; cycle 1.
  { destruct (Register_invalid req w Hv) as (r & Hr & Hc).
    rewrite Hr in Hrun. simplify_eq. lia. }
  rewrite (Register_POST_valid _ _ _ _ _ Hv) in Hrun.
  destruct (Register.companyEnabled w companyName) eqn:He; cycle 1.
  { destruct (Register_company_refused companyName req w He) as (r & w1 & Hr & _ & Hc).
    rewrite Hr in Hrun. simplify_eq. lia. }
  rewrite (Register_registerInCompany_enabled _ _ _ _ He) in Hrun.
  destruct (Register.eventOpen w companyName (JS.toString (Register.eventName req)))
    as [tableData|] eqn:Ho; cycle 1.
  { destruct (Register_event_refused companyName req
                (logCall (CGetSheetData "companies")
                   (logCall (CGetSheetData companyName) w)) Ho)
      as (r & w1 & Hr & _ & Hc).
    rewrite Hr in Hrun. simplify_eq. lia. }
  exists companyName, tableData. split_and!; try done.
  destruct (Register_eventOpen_inv _ _ _ _ Ho) as (Ht & Hlen & Hopen).
  destruct (table_inv _ _ _ _ Ht) as (sh & Hsh & Htd).
  rewrite (Register_registerInEvent_open toISOString companyName req _ sh tableData)
    in Hrun; try done.
  destruct (Register.existingRegistration _ _ _); [|done].
  simplify_eq.
Qed.



End RegisterOutcomes.

Section Part001Outcomes.
Variable decodeURIComponent : string -> option string.
Variable toISOString : Z -> string.
Variable Number : string -> float.

#[local] Abbreviation POST1 := (Part001.POST decodeURIComponent toISOString Number).
#[local] Abbreviation valid1 := (Part001.valid decodeURIComponent Number).

Lemma Part001_invalid req w :
  valid1 req = None ->
  exists response,
    POST1 req w = (Value response, w)
    /\ (code response = 400 \/ code response = 500).
Proof.
  unfold Part001.valid, Part001.POST, tryCatch, bind, ofOption, ret, throw.
  destruct (decodeURIComponent _) as [companyName|]; [|eauto].
  destruct (Part001.missing companyName req); [eauto|].
  destruct (Regex.test Regex.emailRegex _); [|eauto].
  destruct (Regex.test Regex.phoneRegex _); [|eauto].
  destruct (Part001.badAge Number _); [eauto|].
  done.
Qed.

Lemma Part001_company_refused companyName req w :
  Part001.companyEnabled w companyName = false ->
  exists response w',
    Part001.registerInCompany toISOString companyName req w = (Value response, w')
    /\ sheets w' = sheets w
    /\ (code response = 403 \/ code response = 404).
Proof.
  unfold Part001.companyEnabled, sheetRows. intros H.
  unfold Part001.registerInCompany, tryCatch, bind, getSheetData, ret.
  cbn [sheets logCall].
  destruct (sheets w !! companyName) as [sh|];
    cbn [fmap option_fmap option_map] in H; [|eauto 10].
  case_bool_decide; [eauto 10|]. cbn [sheets logCall].
  destruct (sheets w !! "companies") as [csh|];
    cbn [fmap option_fmap option_map negb andb] in H; [|eauto 10].
  destruct (find _ _) as [company|]; [|done].
  apply negb_false_iff in H. cbn zeta. rewrite H. eauto 10.
Qed.

Lemma Part001_event_refused companyName req w :
  Part001.eventOpen w companyName (JS.toString (Part001.eventName req)) = None ->
  exists response w',
    Part001.registerInEvent toISOString companyName req w = (Value response, w')
    /\ sheets w' = sheets w
    /\ (code response = 403 \/ code response = 404).
Proof.
  unfold Part001.eventOpen, table. intros H.
  unfold Part001.registerInEvent, tryCatch, bind, getTableData, ret.
  cbn [sheets logCall].
  destruct (sheets w !! companyName ≫= _) as [tableData|]; [|eauto 10].
  case_bool_decide; [eauto 10|]. cbn [orb] in H.
  destruct (Part001.eventDisabled tableData); [eauto 10 | done].
Qed.

Lemma Part001_200_checked req w response w' :
  POST1 req w = (Value response, w') ->
  code response = 200 ->
  exists companyName tableData,
    valid1 req = Some companyName
    /\ Part001.companyEnabled w companyName = true
    /\ Part001.eventOpen w companyName (JS.toString (Part001.eventName req))
       = Some tableData
    /\ Part001.existingRegistration (drop 1 tableData) req = None.
Proof.
  intros Hrun Hcode.
  destruct (valid1 req) as [companyName|] eqn:Hv; cycle 1.
  { destruct (Part001_invalid req w Hv) as (r & Hr & Hc).
    rewrite Hr in Hrun. simplify_eq. lia. }
  rewrite (Part001_POST_valid _ _ _ _ _ _ Hv) in Hrun.
  destruct (Part001.companyEnabled w companyName) eqn:He; cycle 1.
  { destruct (Part001_company_refused companyName req w He) as (r & w1 & Hr & _ & Hc).
    rewrite Hr in Hrun. simplify_eq. lia. }
  rewrite (Part001_registerInCompany_enabled _ _ _ _ He) in Hrun.
  destruct (Part001.eventOpen w companyName (JS.toString (Part001.eventName req)))
    as [tableData|] eqn:Ho; cycle 1.
  { destruct (Part001_event_refused companyName req
                (logCall (CGetSheetData "companies")
                   (logCall (CGetSheetData companyName) w)) Ho)
      as (r & w1 & Hr & _ & Hc).
    rewrite Hr in Hrun. simplify_eq. lia. }
  exists companyName, tableData. split_and!; try done.
  destruct (Part001_eventOpen_inv _ _ _ _ Ho) as (Ht & Hlen & Hopen).
  destruct (table_inv _ _ _ _ Ht) as (sh & Hsh & Htd).
  rewrite (Part001_registerInEvent_open toISOString companyName req _ sh tableData)
    in Hrun; try done.
  destruct (Part001.existingRegistration _ _); [|done].
  simplify_eq.
Qed.

End Part001Outcomes.

Section TestRouteOutcomes.
Variable decodeURIComponent : string -> option string.
Variable toISOString : Z -> string.

#[local] Abbreviation POSTt := (TestRoute.POST decodeURIComponent toISOString).
#[local] Abbreviation validt := (Register.valid decodeURIComponent).

Lemma TestRoute_registerInEvent_answers companyName req w :
  exists r w', TestRoute.registerInEvent toISOString companyName req w = (Value r, w').
Proof. apply tryCatch_answers. Qed.

Lemma TestRoute_registerInCompany_answers companyName req w :
  exists r w', TestRoute.registerInCompany toISOString companyName req w = (Value r, w').
Proof. apply tryCatch_answers. Qed.

Lemma TestRoute_invalid req w :
  validt req = None ->
  TestRoute.POST decodeURIComponent toISOString req w
  = Register.POST decodeURIComponent toISOString req w.
Proof.
  unfold Register.valid, TestRoute.POST, Register.POST, tryCatch, bind, ofOption,
    ret, throw.
  destruct (decodeURIComponent _) as [companyName|]; [|done].
  destruct (Register.missing companyName req); [done|].
  destruct (Regex.test Regex.emailRegex _); [|done].
  destruct (Regex.test Regex.phoneRegex _); [|done].
  done.
Qed.

Lemma TestRoute_POST_valid req companyName w :
  validt req = Some companyName ->
  POSTt req w = TestRoute.registerInCompany toISOString companyName req w.
Proof.
  intros (Hd & Hm & He & Hp)%Register_valid_inv.
  destruct (TestRoute_registerInCompany_answers companyName req w) as (r & w' & Hr).
  unfold TestRoute.POST, tryCatch at 1. unfold bind. rewrite Hd.
  unfold ofOption, ret. rewrite Hm, He, Hp. cbn [negb]. by rewrite Hr.
Qed.

Lemma TestRoute_registerInCompany_enabled companyName req w :
  Part001.companyEnabled w companyName = true ->
  TestRoute.registerInCompany toISOString companyName req w
  = TestRoute.registerInEvent toISOString companyName req
      (logCall (CGetSheetData "companies") (logCall (CGetSheetData companyName) w)).
Proof.
  intros (sh & csh & Hsh & Hlen & Hcsh & Hst)%Part001_companyEnabled_inv.
  destruct (TestRoute_registerInEvent_answers companyName req
              (logCall (CGetSheetData "companies") (logCall (CGetSheetData companyName) w)))
    as (r & w' & Hr).
  unfold TestRoute.registerInCompany, tryCatch at 1. unfold bind.
  rewrite (getSheetData_some _ _ _ Hsh).
  rewrite bool_decide_eq_false_2 by done.
  rewrite (getSheetData_some (logCall (CGetSheetData companyName) w) "companies" csh Hcsh).
  cbn zeta. destruct (find _ _) as [company|].
  - by rewrite Hst, Hr.
  - by rewrite Hr.
Qed.

Lemma TestRoute_company_refused companyName req w :
  Part001.companyEnabled w companyName = false ->
  exists response w',
    TestRoute.registerInCompany toISOString companyName req w = (Value response, w')
    /\ sheets w' = sheets w
    /\ (code response = 403 \/ code response = 404).
Proof.
  unfold Part001.companyEnabled, sheetRows. intros H.
  unfold TestRoute.registerInCompany, tryCatch, bind, getSheetData, ret.
  cbn [sheets logCall].
  destruct (sheets w !! companyName) as [sh|];
    cbn [fmap option_fmap option_map] in H; [|eauto 10].
  case_bool_decide; [eauto 10|]. cbn [sheets logCall].
  destruct (sheets w !! "companies") as [csh|];
    cbn [fmap option_fmap option_map negb andb] in H; [|eauto 10].
  destruct (find _ _) as [company|]; [|done].
  apply negb_false_iff in H. cbn zeta. rewrite H. eauto 10.
Qed.

Lemma TestRoute_event_refused companyName req w :
  Register.eventOpen w companyName (JS.toString (Register.eventName req)) = None ->
  exists response w',
    TestRoute.registerInEvent toISOString companyName req w = (Value response, w')
    /\ sheets w' = sheets w
    /\ (code response = 403 \/ code response = 404).
Proof.
  unfold Register.eventOpen, table. intros H.
  unfold TestRoute.registerInEvent, tryCatch, bind, getTableData, ret.
  cbn [sheets logCall].
  destruct (sheets w !! companyName ≫= _) as [tableData|]; [|eauto 10].
  case_bool_decide; [eauto 10|]. cbn [orb] in H.
  destruct (Register.eventDisabled tableData); [eauto 10 | done].
Qed.

Lemma TestRoute_registerInEvent_open companyName req w sh tableData :
  let eventName := JS.toString (Register.eventName req) in
  sheets w !! companyName = Some sh ->
  tables sh !! eventName = Some tableData ->
  length tableData <> 0 ->
  Register.eventDisabled tableData = false ->
  TestRoute.registerInEvent toISOString companyName req w
  = Register.registerInEvent toISOString companyName req w.
Proof.
  intros eventName Hsh Ht Hlen Hopen.
  rewrite (Register_registerInEvent_open toISOString companyName req w sh tableData)
    by done.
  unfold TestRoute.registerInEvent, tryCatch. unfold bind at 1.
  fold eventName.
  rewrite (getTableData_some w companyName eventName tableData)
    by (unfold table; by rewrite Hsh).
  rewrite bool_decide_eq_false_2 by done. rewrite Hopen.
  destruct (Register.existingRegistration _ _ _); [done|].
  unfold bind, Date_now.
  erewrite addToTable_some; [done | apply Hsh | done].
Qed.

End TestRouteOutcomes.

Section StoredIff.
Variable decodeURIComponent : string -> option string.
Variable toISOString : Z -> string.
Variable Number : string -> float.

(** X6. A registration is answered 200 only when every check passes: for the
    handler of [route.ts] and for the one of [part_001], the answer is 200
    exactly when the request passes the validation, the company check, the
    event check and the duplicate check. *)
Theorem registration_stored_iff_checked :
  (forall req w,
     let out := Register.POST decodeURIComponent toISOString req w in
     (exists response, out.1 = Value response /\ code response = 200)
     <-> exists companyName tableData,
           Register.valid decodeURIComponent req = Some companyName
           /\ Register.companyEnabled w companyName = true
           /\ Register.eventOpen w companyName (JS.toString (Register.eventName req))
              = Some tableData
           /\ Register.existingRegistration (default [] (tableData !! 0))
                (drop 1 tableData) req = None)
  /\ (forall req w,
        let out := Part001.POST decodeURIComponent toISOString Number req w in
        (exists response, out.1 = Value response /\ code response = 200)
        <-> exists companyName tableData,
              Part001.valid decodeURIComponent Number req = Some companyName
              /\ Part001.companyEnabled w companyName = true
              /\ Part001.eventOpen w companyName (JS.toString (Part001.eventName req))
                 = Some tableData
              /\ Part001.existingRegistration (drop 1 tableData) req = None).
Proof.
  split; intros req w out; subst out; split.
  - intros (response & Hrun & Hcode).
    destruct (Register.POST decodeURIComponent toISOString req w) as [o w'] eqn:Hrun'.
    cbn in Hrun. subst o. by eapply Register_200_checked.
  - intros (companyName & tableData & Hv & Hc & Ho & Hnew).
    destruct (Register_POST_checked _ toISOString _ _ _ _ Hv Hc Ho)
      as (sh & w0 & _ & _ & _ & _ & Hrun).
    rewrite Hnew in Hrun. rewrite Hrun. eauto.
  - intros (response & Hrun & Hcode).
    destruct (Part001.POST decodeURIComponent toISOString Number req w)
      as [o w'] eqn:Hrun'.
    cbn in Hrun. subst o. by eapply Part001_200_checked.
  - intros (companyName & tableData & Hv & Hc & Ho & Hnew).
    destruct (Part001_POST_checked _ toISOString _ _ _ _ _ Hv Hc Ho)
      as (sh & w0 & _ & _ & _ & _ & Hrun).
    rewrite Hnew in Hrun. rewrite Hrun. eauto.
Qed.

End StoredIff.

(** ** Registering twice *)

Section Twice.
Variable decodeURIComponent : string -> option string.
Variable toISOString : Z -> string.
Variable Number : string -> float.

(** The status row of a table with more than its header row is not the row
    a registration appends. *)
Lemma Register_eventDisabled_app tableData r :
  1 < length tableData ->
  Register.eventDisabled (tableData ++ [r]) = Register.eventDisabled tableData.
Proof.
  intros Hlen. unfold Register.eventDisabled.
  rewrite !(lookup_app_l tableData) by lia.
  destruct (JS.findIndex _ _); [|done].
  rewrite length_app. cbn [length].
  rewrite !bool_decide_eq_true_2 by lia. done.
Qed.

Lemma Part001_eventDisabled_app tableData r :
  1 < length tableData ->
  Part001.eventDisabled (tableData ++ [r]) = Part001.eventDisabled tableData.
Proof.
  intros Hlen. unfold Part001.eventDisabled.
  rewrite !(lookup_app_l tableData) by lia.
  destruct (JS.findIndex _ _); [|done].
  rewrite length_app. cbn [length].
  rewrite !bool_decide_eq_true_2 by lia. done.
Qed.

Lemma Register_registerInEvent_disabled companyName req w tableData :
  table w companyName (JS.toString (Register.eventName req)) = Some tableData ->
  length tableData <> 0 ->
  Register.eventDisabled tableData = true ->
  Register.registerInEvent toISOString companyName req w
  = (Value (json (BError "Event registration is currently disabled") 403),
     logCall (CGetTableData companyName (JS.toString (Register.eventName req))) w).
Proof.
  intros Ht Hlen Hd.
  unfold Register.registerInEvent, tryCatch. unfold bind at 1. unfold attempt at 1.
  rewrite (getTableData_some w companyName _ tableData) by done.
  rewrite bool_decide_eq_false_2 by done. by rewrite Hd.
Qed.

Lemma Part001_registerInEvent_disabled companyName req w tableData :
  table w companyName (JS.toString (Part001.eventName req)) = Some tableData ->
  length tableData <> 0 ->
  Part001.eventDisabled tableData = true ->
  Part001.registerInEvent toISOString companyName req w
  = (Value (json (BError "Event registration is currently disabled") 403),
     logCall (CGetTableData companyName (JS.toString (Part001.eventName req))) w).
Proof.
  intros Ht Hlen Hd.
  unfold Part001.registerInEvent, tryCatch. unfold bind at 1.
  rewrite (getTableData_some w companyName _ tableData) by done.
  rewrite bool_decide_eq_false_2 by done. by rewrite Hd.
Qed.

(** X7. A stored registration is not stored twice. When a request was
    answered 200, the same request sent again is answered 400 "You are
    already registered for this event" and stores nothing: in [route.ts]
    provided the header row of the event's table has [Email] as its fourth
    column or [WhatsApp Number] as its second, in [part_001] always. The one
    other answer is 403: in a table that held only its header row, the row
    just stored is read as the status row, and the event counts as disabled
    if the cell of that row under [EventStatus] is [disabled]. *)
Theorem second_registration_refused :
  (forall req w companyName tableData,
     let eventName := JS.toString (Register.eventName req) in
     let headers := default [] (tableData !! 0) in
     let first := Register.POST decodeURIComponent toISOString req w in
     let second := Register.POST decodeURIComponent toISOString req first.2 in
     Register.valid decodeURIComponent req = Some companyName ->
     table w companyName eventName = Some tableData ->
     (exists response, first.1 = Value response /\ code response = 200) ->
     JS.findIndex (fun h => JS.eq3 h (Some "Email")) headers = Some 3
     \/ JS.findIndex (fun h => JS.eq3 h (Some "WhatsApp Number")) headers = Some 1 ->
     (second.1 = Value (json (BError "You are already registered for this event") 400)
      \/ length tableData = 1
         /\ second.1
            = Value (json (BError "Event registration is currently disabled") 403))
     /\ sheets second.2 = sheets first.2)
  /\ (forall req w companyName tableData,
        let eventName := JS.toString (Part001.eventName req) in
        let first := Part001.POST decodeURIComponent toISOString Number req w in
        let second := Part001.POST decodeURIComponent toISOString Number req first.2 in
        Part001.valid decodeURIComponent Number req = Some companyName ->
        table w companyName eventName = Some tableData ->
        (exists response, first.1 = Value response /\ code response = 200) ->
        (second.1 = Value (json (BError "You are already registered for this event") 400)
         \/ length tableData = 1
            /\ second.1
               = Value (json (BError "Event registration is currently disabled") 403))
        /\ sheets second.2 = sheets first.2).
Proof.
  split.
  - intros req w companyName tableData eventName headers first second Hv Ht
      (response & Hfirst & Hcode) Hcol.
    destruct (Register.POST decodeURIComponent toISOString req w) as [o w1] eqn:Hrun.
    subst first. cbn [fst snd] in *. subst o.
    destruct (Register_200_checked _ _ _ _ _ _ Hrun Hcode)
      as (c & td & Hv' & Hc & Ho & Hnew).
    rewrite Hv in Hv'. simplify_eq.
    destruct (Register_eventOpen_inv _ _ _ _ Ho) as (Ht' & Hlen & Hopen).
    fold eventName in Ht'. rewrite Ht in Ht'. simplify_eq.
    destruct (Register_POST_checked _ toISOString _ _ _ _ Hv Hc Ho)
      as (sh & w0 & Hsh & Hs0 & _ & _ & Hrun').
    rewrite Hnew, Hrun in Hrun'. fold eventName in Hrun'.
    set (stored := Register.stamped req (toISOString (clock w (ticks w)))) in *.
    injection Hrun' as _ Hw1.
    assert (Register.companyEnabled w1 c = true) as Hc1.
    { unfold Register.companyEnabled in *. rewrite Hw1.
      by rewrite !(sheetRows_stored w _ c sh). }
    assert (table w1 c eventName = Some (td ++ [stored])%list) as Ht1.
    { rewrite Hw1. apply table_stored_eq. }
    assert (length (td ++ [stored])%list <> 0) as Hlen1 by (rewrite length_app; cbn; lia).
    subst second.
    rewrite (Register_POST_valid _ toISOString _ _ _ Hv).
    rewrite (Register_registerInCompany_enabled toISOString _ _ _ Hc1).
    destruct (Register.eventDisabled (td ++ [stored])%list) eqn:Hd1.
    + rewrite (Register_registerInEvent_disabled c req _ (td ++ [stored])%list); try done.
      split; [|done]. right. split; [|done].
      destruct (decide (1 < length td)) as [Hgt|Hle]; [|lia].
      rewrite Register_eventDisabled_app in Hd1 by done. congruence.
    + destruct (table_inv _ _ _ _ Ht1) as (sh1 & Hsh1 & Htd1).
      rewrite (Register_registerInEvent_open toISOString c req _ sh1 (td ++ [stored])%list);
        try done.
      assert (default [] ((td ++ [stored])%list !! 0) = headers) as ->.
      { subst headers. destruct td; [done|]. done. }
      destruct (Register_existing_found headers (drop 1 (td ++ [stored])%list) req stored)
        as [found ->].
      * destruct td as [|h td]; [done|]. cbn. apply elem_of_app. right.
        apply list_elem_of_here.
      * destruct Hcol as [He|Hn]; [left; exists 3|right; exists 1]; done.
      * split; [by left | done].
  - intros req w companyName tableData eventName first second Hv Ht
      (response & Hfirst & Hcode).
    destruct (Part001.POST decodeURIComponent toISOString Number req w) as [o w1] eqn:Hrun.
    subst first. cbn [fst snd] in *. subst o.
    destruct (Part001_200_checked _ _ _ _ _ _ _ Hrun Hcode)
      as (c & td & Hv' & Hc & Ho & Hnew).
    rewrite Hv in Hv'. simplify_eq.
    destruct (Part001_eventOpen_inv _ _ _ _ Ho) as (Ht' & Hlen & Hopen).
    fold eventName in Ht'. rewrite Ht in Ht'. simplify_eq.
    destruct (Part001_POST_checked _ toISOString _ _ _ _ _ Hv Hc Ho)
      as (sh & w0 & Hsh & Hs0 & _ & _ & Hrun').
    rewrite Hnew, Hrun in Hrun'. fold eventName in Hrun'.
    set (stored := Part001.stamped req (toISOString (clock w (ticks w)))) in *.
    injection Hrun' as _ Hw1.
    assert (Part001.companyEnabled w1 c = true) as Hc1.
    { unfold Part001.companyEnabled in *. rewrite Hw1.
      by rewrite !(sheetRows_stored w _ c sh). }
    assert (table w1 c eventName = Some (td ++ [stored])%list) as Ht1.
    { rewrite Hw1. apply table_stored_eq. }
    assert (length (td ++ [stored])%list <> 0) as Hlen1 by (rewrite length_app; cbn; lia).
    subst second.
    rewrite (Part001_POST_valid _ toISOString _ _ _ _ Hv).
    rewrite (Part001_registerInCompany_enabled toISOString _ _ _ Hc1).
    destruct (Part001.eventDisabled (td ++ [stored])%list) eqn:Hd1.
    + rewrite (Part001_registerInEvent_disabled c req _ (td ++ [stored])%list); try done.
      split; [|done]. right. split; [|done].
      destruct (decide (1 < length td)) as [Hgt|Hle]; [|lia].
      rewrite Part001_eventDisabled_app in Hd1 by done. congruence.
    + destruct (table_inv _ _ _ _ Ht1) as (sh1 & Hsh1 & Htd1).
      rewrite (Part001_registerInEvent_open toISOString c req _ sh1 (td ++ [stored])%list);
        try done.
      destruct (Part001_existing_found (drop 1 (td ++ [stored])%list) req stored)
        as [found ->].
      * destruct td as [|h td]; [done|]. cbn. apply elem_of_app. right.
        apply list_elem_of_here.
      * done.
      * split; [by left | done].
Qed.

End Twice.

(** ** The handler kept in [test/route.ts] *)

Section TestRouteTheorems.
Variable decodeURIComponent : string -> option string.
Variable toISOString : Z -> string.

(** X8. The registration handler kept in [test/route.ts] stores a
    registration exactly when the request passes the validation and the
    event and duplicate checks of [route.ts] and the company check of
    [part_001], which lets a company pass that is not in the companies
    table; it then appends the same row as [route.ts]. *)
Theorem test_route_stored_iff_checked (req : Register.Request) (w : World) :
  let eventName := JS.toString (Register.eventName req) in
  let out := TestRoute.POST decodeURIComponent toISOString req w in
  (exists response, out.1 = Value response /\ code response = 200)
  <-> exists companyName tableData,
        Register.valid decodeURIComponent req = Some companyName
        /\ Part001.companyEnabled w companyName = true
        /\ Register.eventOpen w companyName eventName = Some tableData
        /\ Register.existingRegistration (default [] (tableData !! 0))
             (drop 1 tableData) req = None
        /\ table out.2 companyName eventName
           = Some (tableData
                   ++ [Register.stamped req (toISOString (clock w (ticks w)))])%list.
Proof.
  intros eventName out. subst out.
  assert (forall companyName tableData,
            Register.valid decodeURIComponent req = Some companyName ->
            Part001.companyEnabled w companyName = true ->
            Register.eventOpen w companyName eventName = Some tableData ->
            exists sh w0,
              sheets w !! companyName = Some sh
              /\ TestRoute.POST decodeURIComponent toISOString req w
                 = Register.registerInEvent toISOString companyName req w0
              /\ Register.registerInEvent toISOString companyName req w0
                 = match Register.existingRegistration (default [] (tableData !! 0))
                           (drop 1 tableData) req with
                   | Some _ =>
                     (Value (json (BError "You are already registered for this event")
                               400),
                      logCall (CGetTableData companyName eventName) w0)
                   | None =>
                     (Value (json (BRegistration (Register.name req)
                                     (Register.email req)
                                     (toISOString (clock w (ticks w)))) 200),
                      setSheets
                        (<[companyName :=
                             {| rows := rows sh;
                                tables :=
                                  <[eventName :=
                                      (tableData
                                       ++ [Register.stamped req
                                             (toISOString (clock w (ticks w)))])%list]>
                                    (tables sh) |}]> (sheets w))
                        (logCall
                           (CAddToTable companyName eventName
                              (Register.stamped req (toISOString (clock w (ticks w)))))
                           (tick (logCall (CGetTableData companyName eventName) w0))))
                   end) as Hchecked.
  { intros companyName tableData Hv Hc Ho.
    destruct (Register_eventOpen_inv _ _ _ _ Ho) as (Ht & Hlen & Hopen).
    destruct (table_inv _ _ _ _ Ht) as (sh & Hsh & Htd).
    exists sh, (logCall (CGetSheetData "companies")
                  (logCall (CGetSheetData companyName) w)).
    split_and!; [done | |].
    - rewrite (TestRoute_POST_valid _ toISOString _ _ _ Hv).
      rewrite (TestRoute_registerInCompany_enabled toISOString _ _ _ Hc).
      by apply (TestRoute_registerInEvent_open toISOString companyName req _ sh tableData).
    - by rewrite (Register_registerInEvent_open toISOString companyName req _ sh
                    tableData). }
  split.
  - intros (response & Hrun & Hcode).
    destruct (Register.valid decodeURIComponent req) as [companyName|] eqn:Hv; cycle 1.
    { rewrite (TestRoute_invalid _ toISOString _ _ Hv) in Hrun.
      destruct (Register_invalid _ toISOString req w Hv) as (r & Hr & Hc).
      rewrite Hr in Hrun. cbn in Hrun. simplify_eq. lia. }
    destruct (Part001.companyEnabled w companyName) eqn:He; cycle 1.
    { rewrite (TestRoute_POST_valid _ toISOString _ _ _ Hv) in Hrun.
      destruct (TestRoute_company_refused toISOString companyName req w He)
        as (r & w1 & Hr & _ & Hc).
      rewrite Hr in Hrun. cbn in Hrun. simplify_eq. lia. }
    destruct (Register.eventOpen w companyName eventName) as [tableData|] eqn:Ho; cycle 1.
    { rewrite (TestRoute_POST_valid _ toISOString _ _ _ Hv) in Hrun.
      rewrite (TestRoute_registerInCompany_enabled toISOString _ _ _ He) in Hrun.
      destruct (TestRoute_event_refused toISOString companyName req
                  (logCall (CGetSheetData "companies")
                     (logCall (CGetSheetData companyName) w)) Ho)
        as (r & w1 & Hr & _ & Hc).
      rewrite Hr in Hrun. cbn in Hrun. simplify_eq. lia. }
    destruct (Hchecked companyName tableData eq_refl He Ho)
      as (sh & w0 & Hsh & Hrun1 & Hrun2).
    exists companyName, tableData. rewrite Hrun1, Hrun2 in Hrun |- *.
    destruct (Register.existingRegistration _ _ _).
    + cbn in Hrun. simplify_eq.
    + split_and!; try done. apply table_stored_eq.
  - intros (companyName & tableData & Hv & Hc & Ho & Hnew & _).
    destruct (Hchecked companyName tableData Hv Hc Ho) as (sh & w0 & Hsh & Hrun1 & Hrun2).
    rewrite Hrun1, Hrun2, Hnew. eauto.
Qed.


End TestRouteTheorems.

(** ** The companies endpoint: refusals and creation *)

(** X10. Without an admin session the four handlers of the companies endpoint
    answer 401 and call no collaborator: the world is left as it was. *)
Theorem companies_require_admin (w : World) :
  notAdmin (session w) = true ->
  Companies.GET w = (Value (json (BError "Unauthorized") 401), w)
  /\ (forall req, Companies.POST req w = (Value (json (BError "Unauthorized") 401), w))
  /\ (forall req, Companies.PUT req w = (Value (json (BError "Unauthorized") 401), w))
  /\ (forall id, Companies.DELETE id w = (Value (json (BError "Unauthorized") 401), w)).
Proof.
  intros Ha.
  unfold Companies.GET, Companies.POST, Companies.PUT, Companies.DELETE, tryCatch, bind,
    getServerSession.
  rewrite Ha. by split_and!.
Qed.

(** X11. An admin's PUT or DELETE whose id no row of the companies table
    bears is answered 404 after the one read of the table; one without an id
    is answered 400 before any read. *)
Theorem unknown_company_not_found (w : World) :
  notAdmin (session w) = false ->
  (forall req,
     JS.truthy (Companies.id req) = false ->
     Companies.PUT req w = (Value (json (BError "Company ID is required") 400), w))
  /\ (forall id,
        JS.truthy id = false ->
        Companies.DELETE id w = (Value (json (BError "Company ID is required") 400), w))
  /\ (forall req csh,
        JS.truthy (Companies.id req) = true ->
        sheets w !! "companies" = Some csh ->
        (forall r, r ∈ drop 1 (rows csh) -> JS.index r 0 <> Companies.id req) ->
        Companies.PUT req w
        = (Value (json (BError "Company not found") 404),
           logCall (CGetSheetData "companies") w))
  /\ (forall id csh,
        JS.truthy id = true ->
        sheets w !! "companies" = Some csh ->
        (forall r, r ∈ drop 1 (rows csh) -> JS.index r 0 <> id) ->
        Companies.DELETE id w
        = (Value (json (BError "Company not found") 404),
           logCall (CGetSheetData "companies") w)).
Proof.
  intros Ha.
  assert (forall (id : JS.value) (l : list row),
            (forall r, r ∈ l -> JS.index r 0 <> id) ->
            JS.findIndex (fun row => JS.eq3 (JS.index row 0) id) l = None) as Hnone.
  { intros id l. induction l as [|r l IH]; intros Hl; [done|]. cbn.
    unfold JS.eq3 at 1. rewrite bool_decide_eq_false_2 by (apply Hl; left).
    rewrite IH; [done|]. intros r' Hr'. apply Hl. by right. }
  unfold Companies.PUT, Companies.DELETE, tryCatch, bind, getServerSession.
  rewrite Ha. split_and!.
  - by intros req ->.
  - by intros id ->.
  - intros req csh -> Hc Hl. cbn [negb].
    rewrite (getSheetData_some _ _ _ Hc). cbn zeta. by rewrite Hnone.
  - intros id csh -> Hc Hl. cbn [negb].
    rewrite (getSheetData_some _ _ _ Hc). cbn zeta. by rewrite Hnone.
Qed.

Lemma somei_lookup {A} (f : nat -> A -> bool) (l : list A) k j x :
  l !! j = Some x -> f (k + j) x = true -> JS.somei f k l = true.
Proof.
  revert k j. induction l as [|y l IH]; intros k j Hj Hf; [done|].
  destruct j as [|j]; cbn in *.
  - simplify_eq. rewrite Nat.add_0_r in Hf. by rewrite Hf.
  - rewrite (IH (S k) j Hj); [apply orb_true_r|].
    by replace (S k + j) with (k + S j) by lia.
Qed.

(** X12. An admin's PUT that changes the username to one another row of the
    companies table holds is answered 400 and writes nothing. *)
Theorem put_taken_username_rejected
    (req : Companies.Json) (w : World) (csh : Sheet) (i j : nat) (current other : row) :
  let out := Companies.PUT req w in
  notAdmin (session w) = false ->
  JS.truthy (Companies.id req) = true ->
  sheets w !! "companies" = Some csh ->
  JS.findIndex (fun row => JS.eq3 (JS.index row 0) (Companies.id req))
    (drop 1 (rows csh)) = Some i ->
  drop 1 (rows csh) !! i = Some current ->
  drop 1 (rows csh) !! j = Some other ->
  j <> i ->
  JS.truthy (Companies.username req) = true ->
  Companies.username req <> JS.index current 2 ->
  JS.index other 2 = Companies.username req ->
  out.1 = Value (json (BError "Username already exists") 400)
  /\ sheets out.2 = sheets w
  /\ calls out.2 = (calls w ++ [CGetSheetData "companies"])%list.
Proof.
  intros out Ha Hid Hc Hi Hcur Hother Hji Hu Hne Htaken. subst out.
  assert (Companies.usernameTaken req i (drop 1 (rows csh)) = true) as Ht.
  { unfold Companies.usernameTaken. rewrite Hcur, Hu.
    cbn [default from_option Datatypes.id andb].
    unfold JS.eq3 at 1. rewrite bool_decide_eq_false_2 by done. cbn [negb andb].
    apply (somei_lookup _ _ 0 j other Hother). cbn.
    rewrite bool_decide_eq_false_2 by done.
    unfold JS.eq3. by rewrite bool_decide_eq_true_2. }
  unfold Companies.PUT, tryCatch, bind, getServerSession.
  rewrite Ha, Hid. cbn [negb].
  rewrite (getSheetData_some _ _ _ Hc). cbn zeta. rewrite Hi, Ht. done.
Qed.

(** What the upload of an image leaves of the world. *)
Lemma uploaded_value id image imageUrl w :
  (JS.truthy image = true ->
   forall fileName, is_Some (upload w fileName (JS.toString image) "companies")) ->
  exists url w1,
    Companies.uploaded id image imageUrl w = (Value url, w1)
    /\ sheets w1 = sheets w /\ calls w1 = calls w /\ session w1 = session w
    /\ (JS.truthy image = false -> url = imageUrl).
Proof.
  intros Hup. unfold Companies.uploaded.
  destruct (JS.truthy image) eqn:Him.
  - unfold bind at 1, Date_now. unfold bind at 1, uploadImage.
    cbn [upload tick].
    destruct (Hup eq_refl ("company_" +:+ id +:+ "_"
                           +:+ pretty (clock w (ticks w)) +:+ ".jpg"))
      as [result Hres].
    rewrite Hres. cbn [ofOption ret]. unfold ret.
    exists (if success result then url result else imageUrl), (tick w).
    split_and!; try done. by destruct (success result).
  - exists imageUrl, w. by split_and!.
Qed.

(** What [POST] does once the request is complete and the username free:
    the row is appended, then the sheet of the company is created. *)
Lemma POST_appended (req : Companies.Json) (w : World) :
  let existing :=
    match sheetRows w "companies" with
    | Some existingData => existingData
    | None => [[Some "ID"; Some "Name"; Some "Username"; Some "Password";
                Some "Image"; Some "Status"; Some "Deleted"]]
    end in
  notAdmin (session w) = false ->
  JS.truthy (Companies.name req) = true ->
  JS.truthy (Companies.username req) = true ->
  JS.truthy (Companies.password req) = true ->
  (JS.truthy (Companies.image req) = true ->
   forall fileName,
     is_Some (upload w fileName (JS.toString (Companies.image req)) "companies")) ->
  (forall row, row ∈ drop 1 existing -> JS.index row 2 <> Companies.username req) ->
  exists id hashedPassword imageUrl tbls w3 s1,
    let newRow := [Some id; Companies.name req; Companies.username req;
                   Some hashedPassword; imageUrl; Some "enabled"; Some "false"] in
    let w4 :=
      setSheets
        (<["companies" := {| rows := (existing ++ [newRow])%list; tables := tbls |}]> s1)
        (logCall (CAppendToSheet "companies" [newRow]) w3) in
    session w3 = session w
    /\ (forall s, s <> "companies" -> s1 !! s = sheets w !! s)
    /\ (JS.truthy (Companies.image req) = false -> imageUrl = None)
    /\ Companies.POST req w
       = match createSheet (JS.toString (Companies.name req)) w4 with
         | (Value _, w5) =>
           (Value (json (BCompany
                           {| Company.id := Some id;
                              Company.name := Companies.name req;
                              Company.username := Companies.username req;
                              Company.image := imageUrl;
                              Company.status := Some "enabled";
                              Company.deleted := false |}) 200), w5)
         | (Thrown, w5) => (Value (json (BError "Failed to create company") 500), w5)
         end.
Proof.
  intros existing Ha Hn Hu Hp Hup Hfree.
  destruct (POST_existing w Ha) as (w1 & Hs1 & Ht1 & Hc1 & Hb1 & Hu1 & Hrun1).
  assert (session w1 = session w) as Hse1.
  { revert Hrun1. unfold tryCatch, bind, getSheetData, createSheet, appendToSheet, ret.
    cbn [sheets logCall]. destruct (sheets w !! "companies") eqn:Hc.
    - by intros [= <-].
    - cbn [sheets logCall setSheets]. rewrite Hc. cbn [sheets logCall setSheets].
      rewrite lookup_insert_eq. by intros [= <-]. }
  assert (exists csh, sheets w1 !! "companies" = Some csh /\ rows csh = existing
                      /\ forall s, s <> "companies" -> sheets w1 !! s = sheets w !! s)
    as (csh & Hcsh & Hrows & Hother).
  { rewrite Hs1. subst existing. unfold sheetRows.
    destruct (sheets w !! "companies") as [csh|] eqn:Hc; cbn.
    - by exists csh.
    - eexists. rewrite lookup_insert_eq. split_and!; [done | done |].
      intros s Hs. by rewrite lookup_insert_ne. }
  assert (existsb (fun row => JS.eq3 (JS.index row 2) (Companies.username req))
            (drop 1 existing) = false) as Hex.
  { induction (drop 1 existing) as [|r l IH]; [done|]. cbn.
    unfold JS.eq3 at 1. rewrite bool_decide_eq_false_2 by (apply Hfree; left).
    apply IH. intros r' Hr'. apply Hfree. by right. }
  set (w2 := logCall (CGetSheetData "companies") w1).
  set (id := "company_" +:+ pretty (clock w2 (ticks w2))).
  destruct (uploaded_value id (Companies.image req) None (tick w2))
    as (imageUrl & w3 & Hrun3 & Hs3 & _ & Hse3 & Himg).
  { intros Him fileName. cbn [upload tick logCall w2]. rewrite Hu1. by apply Hup. }
  set (hashedPassword := bcryptHash w2 (JS.toString (Companies.password req)) 10).
  exists id, hashedPassword, imageUrl, (tables csh), w3, (sheets w1).
  cbn zeta. split_and!.
  - rewrite Hse3. subst w2. cbn [session tick logCall]. done.
  - done.
  - done.
  - unfold Companies.POST, tryCatch at 1. unfold bind at 1, getServerSession.
    rewrite Ha, Hn, Hu, Hp. cbn [negb orb].
    unfold bind at 1. rewrite Hrun1.
    unfold bind at 1. rewrite (getSheetData_some _ _ _ Hcsh).
    rewrite Hrows, Hex. fold w2.
    unfold bind at 1, Date_now. fold id.
    unfold bind at 1, bcrypt_hash. cbn [bcryptHash tick]. fold hashedPassword.
    unfold bind at 1. rewrite Hrun3.
    unfold bind at 1.
    rewrite (appendToSheet_some _ _ csh) by (by rewrite Hs3).
    rewrite Hrows, Hs3. cbn [sheets tick]. subst w2. cbn [sheets logCall].
    unfold bind at 1.
    by destruct (createSheet _ _) as [[[]|] w5].
Qed.

(** X13. A company an admin creates is listed: when the username is free, no
    sheet bears the name and the upload, if any, does not throw, POST is
    answered 200, and a GET that follows lists the companies as before
    followed by the one in the answer (its image read back with [|| null]). *)
Theorem created_company_is_listed (req : Companies.Json) (w : World) :
  let out := Companies.POST req w in
  let existing :=
    match sheetRows w "companies" with
    | Some existingData => existingData
    | None => [[Some "ID"; Some "Name"; Some "Username"; Some "Password";
                Some "Image"; Some "Status"; Some "Deleted"]]
    end in
  notAdmin (session w) = false ->
  JS.truthy (Companies.name req) = true ->
  JS.truthy (Companies.username req) = true ->
  JS.truthy (Companies.password req) = true ->
  (JS.truthy (Companies.image req) = true ->
   forall fileName,
     is_Some (upload w fileName (JS.toString (Companies.image req)) "companies")) ->
  existing <> [] ->
  (forall row, row ∈ drop 1 existing -> JS.index row 2 <> Companies.username req) ->
  sheets w !! JS.toString (Companies.name req) = None ->
  JS.toString (Companies.name req) <> "companies" ->
  exists company,
    out.1 = Value (json (BCompany company) 200)
    /\ Company.name company = Companies.name req
    /\ Company.username company = Companies.username req
    /\ Company.status company = Some "enabled"
    /\ Company.deleted company = false
    /\ (JS.truthy (Companies.image req) = false -> Company.image company = None)
    /\ (Companies.GET out.2).1
       = Value (json (BCompanies
                        (map Companies.ofRow (drop 1 existing)
                         ++ [{| Company.id := Company.id company;
                                Company.name := Company.name company;
                                Company.username := Company.username company;
                                Company.image := JS.or (Company.image company) None;
                                Company.status := Company.status company;
                                Company.deleted := Company.deleted company |}])%list)
                  200).
Proof.
  intros out existing Ha Hn Hu Hp Hup Hhead Hfree Hsheet Hname.
  destruct (POST_appended req w Ha Hn Hu Hp Hup Hfree)
    as (id & hp & imageUrl & tbls & w3 & s1 & Hse3 & Hother & Himg & Hrun).
  cbn zeta in Hrun. fold existing in Hrun.
  rewrite createSheet_free in Hrun
    by (cbn [sheets setSheets logCall]; rewrite lookup_insert_ne by done;
        by rewrite Hother).
  subst out. rewrite Hrun. eexists. cbn [fst snd]. split_and!; try done.
  erewrite GET_listing; cycle 1.
  - cbn [session setSheets logCall]. by rewrite Hse3.
  - cbn [sheets setSheets logCall]. rewrite lookup_insert_ne by done.
    apply lookup_insert_eq.
  - cbn [fst rows]. do 3 f_equal.
    destruct existing as [|h rest]; [done|]. cbn [drop app].
    rewrite drop_0. rewrite map_app. done.
Qed.

(** X14. POST stores the row of the new company before it creates the
    company's sheet: when a sheet already bears the name (that of another
    company, or [companies] itself), the answer is 500 and the row stays in
    the companies table. *)
Theorem taken_sheet_name_leaves_row (req : Companies.Json) (w : World) (csh : Sheet) :
  let out := Companies.POST req w in
  notAdmin (session w) = false ->
  JS.truthy (Companies.name req) = true ->
  JS.truthy (Companies.username req) = true ->
  JS.truthy (Companies.password req) = true ->
  (JS.truthy (Companies.image req) = true ->
   forall fileName,
     is_Some (upload w fileName (JS.toString (Companies.image req)) "companies")) ->
  sheets w !! "companies" = Some csh ->
  (forall row, row ∈ drop 1 (rows csh) -> JS.index row 2 <> Companies.username req) ->
  is_Some (sheets w !! JS.toString (Companies.name req)) ->
  out.1 = Value (json (BError "Failed to create company") 500)
  /\ exists newRow,
       sheetRows out.2 "companies" = Some (rows csh ++ [newRow])%list
       /\ JS.index newRow 1 = Companies.name req
       /\ JS.index newRow 2 = Companies.username req.
Proof.
  intros out Ha Hn Hu Hp Hup Hc Hfree [sh Hsh].
  destruct (POST_appended req w Ha Hn Hu Hp Hup)
    as (id & hp & imageUrl & tbls & w3 & s1 & Hse3 & Hother & Himg & Hrun).
  { unfold sheetRows. rewrite Hc. exact Hfree. }
  cbn zeta in Hrun. unfold sheetRows in Hrun. rewrite Hc in Hrun.
  cbn [fmap option_fmap option_map] in Hrun.
  unfold createSheet in Hrun. cbn [sheets setSheets logCall] in Hrun.
  assert (is_Some
            (<["companies" :=
                 {| rows := (rows csh
                             ++ [[Some id; Companies.name req; Companies.username req;
                                  Some hp; imageUrl; Some "enabled"; Some "false"]])%list;
                    tables := tbls |}]> s1 !! JS.toString (Companies.name req)))
    as [taken Htaken].
  { destruct (decide (JS.toString (Companies.name req) = "companies")) as [->|Hne].
    - rewrite lookup_insert_eq. eauto.
    - rewrite lookup_insert_ne by done. rewrite Hother by done. eauto. }
  rewrite Htaken in Hrun. subst out. rewrite Hrun. cbn [fst snd].
  split; [done|]. eexists. unfold sheetRows. cbn [sheets setSheets logCall].
  rewrite lookup_insert_eq. cbn. by split_and!.
Qed.

(** ** What the companies endpoint does to the companies table *)

Lemma drop1_insert (rs : list row) i r :
  drop 1 (<[i + 1 := r]> rs) = <[i := r]> (drop 1 rs).
Proof. destruct rs as [|h rs]; [done|]. by replace (i + 1) with (S i) by lia. Qed.





Ltac run' :=
  repeat (first [ progress cbn [fst snd sheets setSheets logCall tick ofOption] in *
                | rewrite lookup_insert_eq
                | match goal with
                  | H : context [<[?k := _]> _ !! ?k] |- _ =>
                    rewrite lookup_insert_eq in H
                  end
                | case_match; simplify_eq/= ]).










(** ** The dashboard and registration *)

Lemma findIndex_insert_first {A} (f : A -> bool) (l : list A) i x :
  JS.findIndex f l = Some i -> f x = true -> JS.findIndex f (<[i := x]> l) = Some i.
Proof.
  revert i. induction l as [|y l IH]; intros i; cbn; [done|].
  destruct (f y) eqn:Hy.
  - intros [= <-] Hx. cbn. by rewrite Hx.
  - destruct (JS.findIndex f l) as [j|] eqn:Hj; cbn; [|done].
    intros [= <-] Hx. change (<[S j := x]> (y :: l)) with (y :: <[j := x]> l).
    cbn [JS.findIndex]. rewrite Hy. by rewrite (IH j eq_refl Hx).
Qed.

Lemma find_insert_first {A} (f : A -> bool) (l : list A) i x :
  JS.findIndex f l = Some i -> f x = true -> find f (<[i := x]> l) = Some x.
Proof.
  revert i. induction l as [|y l IH]; intros i; cbn; [done|].
  destruct (f y) eqn:Hy.
  - intros [= <-] Hx. cbn. by rewrite Hx.
  - destruct (JS.findIndex f l) as [j|] eqn:Hj; cbn; [|done].
    intros [= <-] Hx. change (<[S j := x]> (y :: l)) with (y :: <[j := x]> l).
    cbn [find]. rewrite Hy. by apply IH.
Qed.

Section Closed.
Variable decodeURIComponent : string -> option string.
Variable toISOString : Z -> string.
Variable Number : string -> float.

(** A valid request for a company whose sheet cannot be read. *)
Lemma Register_POST_no_sheet req w companyName :
  Register.valid decodeURIComponent req = Some companyName ->
  sheets w !! companyName = None ->
  Register.POST decodeURIComponent toISOString req w
  = (Value (json (BError ("Company " +:+ JS.dq +:+ companyName +:+ JS.dq
                          +:+ " not found or inaccessible")) 404),
     logCall (CGetSheetData companyName) w).
Proof.
  intros Hv Hs. rewrite (Register_POST_valid _ _ _ _ _ Hv).
  unfold Register.registerInCompany, tryCatch, bind, attempt.
  by rewrite (getSheetData_none _ _ Hs).
Qed.

Lemma Part001_POST_no_sheet req w companyName :
  Part001.valid decodeURIComponent Number req = Some companyName ->
  sheets w !! companyName = None ->
  Part001.POST decodeURIComponent toISOString Number req w
  = (Value (json (BError "Company not found") 404),
     logCall (CGetSheetData companyName) w).
Proof.
  intros Hv Hs. rewrite (Part001_POST_valid _ _ _ _ _ _ Hv).
  unfold Part001.registerInCompany, tryCatch, bind.
  by rewrite (getSheetData_none _ _ Hs).
Qed.

(** A valid request for a company whose first row of that name in the
    companies table says [disabled]. *)
Lemma Register_POST_disabled req w companyName sh csh company :
  Register.valid decodeURIComponent req = Some companyName ->
  sheets w !! companyName = Some sh ->
  rows sh <> [] ->
  sheets w !! "companies" = Some csh ->
  find (fun row => JS.eq3 (JS.index row 1) (Some companyName)) (drop 1 (rows csh))
  = Some company ->
  JS.index company 5 = Some "disabled" ->
  Register.POST decodeURIComponent toISOString req w
  = (Value (json (BError "Company is disabled, registration is not available") 403),
     logCall (CGetSheetData "companies") (logCall (CGetSheetData companyName) w)).
Proof.
  intros Hv Hsh Hne Hcsh Hf Hd. rewrite (Register_POST_valid _ _ _ _ _ Hv).
  unfold Register.registerInCompany, tryCatch. unfold bind, attempt.
  rewrite (getSheetData_some _ _ _ Hsh).
  rewrite bool_decide_eq_false_2 by (by destruct (rows sh)).
  rewrite (getSheetData_some (logCall (CGetSheetData companyName) w) "companies" csh Hcsh).
  cbn zeta. rewrite Hf, Hd. done.
Qed.

Lemma Part001_POST_disabled req w companyName sh csh company :
  Part001.valid decodeURIComponent Number req = Some companyName ->
  sheets w !! companyName = Some sh ->
  rows sh <> [] ->
  sheets w !! "companies" = Some csh ->
  find (fun row => JS.eq3 (JS.index row 1) (Some companyName)) (drop 1 (rows csh))
  = Some company ->
  JS.index company 5 = Some "disabled" ->
  Part001.POST decodeURIComponent toISOString Number req w
  = (Value (json (BError "Company is disabled, registration is not available") 403),
     logCall (CGetSheetData "companies") (logCall (CGetSheetData companyName) w)).
Proof.
  intros Hv Hsh Hne Hcsh Hf Hd. rewrite (Part001_POST_valid _ _ _ _ _ _ Hv).
  unfold Part001.registerInCompany, tryCatch. unfold bind.
  rewrite (getSheetData_some _ _ _ Hsh).
  rewrite bool_decide_eq_false_2 by (by destruct (rows sh)).
  rewrite (getSheetData_some (logCall (CGetSheetData companyName) w) "companies" csh Hcsh).
  cbn zeta. rewrite Hf, Hd. done.
Qed.

End Closed.

Lemma Fetch_ok_200 b : Fetch.ok (json b 200) = true.
Proof. vm_compute. reflexivity. Qed.

(** What [PUT] does for a body without an image once the company is found
    and the username is free. *)
Lemma PUT_plain (req : Companies.Json) (w : World) (csh : Sheet) (i : nat) (r : row) :
  let hashedPassword :=
    if JS.truthy (Companies.password req)
    then Some (bcryptHash w (JS.toString (Companies.password req)) 10)
    else JS.index r 3 in
  let updated :=
    Companies.updatedCompany req r hashedPassword (Companies.currentImage r) in
  let w2 :=
    setSheets
      (<["companies" := {| rows := <[i + 1 := updated]> (rows csh);
                           tables := tables csh |}]> (sheets w))
      (logCall (CUpdateRow "companies" (i + 1) updated)
         (logCall (CGetSheetData "companies") w)) in
  let ok :=
    json (BCompany
            {| Company.id := Companies.id req;
               Company.name := JS.or (Companies.name req) (JS.index r 1);
               Company.username := JS.or (Companies.username req) (JS.index r 2);
               Company.image := Companies.currentImage r;
               Company.status :=
                 JS.or (Companies.status req) (Companies.currentStatus r);
               Company.deleted :=
                 match Companies.deleted req with
                 | Some d => d
                 | None => Companies.currentDeleted r
                 end |}) 200 in
  notAdmin (session w) = false ->
  JS.truthy (Companies.id req) = true ->
  sheets w !! "companies" = Some csh ->
  JS.findIndex (fun row => JS.eq3 (JS.index row 0) (Companies.id req))
    (drop 1 (rows csh)) = Some i ->
  drop 1 (rows csh) !! i = Some r ->
  Companies.usernameTaken req i (drop 1 (rows csh)) = false ->
  JS.truthy (Companies.image req) = false ->
  Companies.PUT req w
  = if Companies.renamed req r
    then match renameSheet (JS.index r 1) (JS.toString (Companies.name req)) w2 with
         | (Value _, w3) => (Value ok, w3)
         | (Thrown, w3) => (Value (json (BError "Failed to update company") 500), w3)
         end
    else (Value ok, w2).
Proof.
  intros hashedPassword updated w2 ok Ha Hid Hc Hi Hr Hfree Him.
  unfold Companies.PUT, tryCatch at 1. unfold bind at 1, getServerSession.
  rewrite Ha, Hid. cbn [negb].
  unfold bind at 1. rewrite (getSheetData_some _ _ _ Hc).
  cbn zeta. rewrite Hi, Hfree, Hr. cbn [default from_option Datatypes.id].
  unfold bind at 1, Companies.hashed.
  assert ((if JS.truthy (Companies.password req)
           then h <~ bcrypt_hash (JS.toString (Companies.password req)) 10;; ret (Some h)
           else ret (JS.index r 3)) (logCall (CGetSheetData "companies") w)
          = (Value hashedPassword, logCall (CGetSheetData "companies") w)) as ->.
  { subst hashedPassword. by destruct (JS.truthy (Companies.password req)). }
  unfold bind at 1, Companies.uploaded. rewrite Him. unfold ret at 1.
  unfold bind at 1. rewrite (updateRow_some _ _ csh) by done.
  cbn [sheets logCall]. fold updated. fold w2.
  destruct (Companies.renamed req r).
  - unfold bind at 1.
    destruct (renameSheet _ _ _) as [[[]|] w3]; done.
  - done.
Qed.

(** What the dashboard's status switch does to the world: one row is
    written back with the other status, and the list is fetched again. *)
Lemma toggle_runs (id : JS.value) (currentStatus : string) (s : Dashboard.State)
    (w : World) (csh : Sheet) (i : nat) (r : row) :
  let newStatus :=
    if bool_decide (currentStatus = "disabled") then "enabled" else "disabled" in
  let updated :=
    [id; JS.index r 1; JS.index r 2; JS.index r 3; Companies.currentImage r;
     Some newStatus; Some (if Companies.currentDeleted r then "true" else "false")] in
  let data := <[i + 1 := updated]> (rows csh) in
  notAdmin (session w) = false ->
  JS.truthy id = true ->
  sheets w !! "companies" = Some csh ->
  JS.findIndex (fun row => JS.eq3 (JS.index row 0) id) (drop 1 (rows csh)) = Some i ->
  drop 1 (rows csh) !! i = Some r ->
  exists w',
    Dashboard.handleToggleCompanyStatus id currentStatus s w
    = (Value {| Dashboard.companies := map Companies.ofRow (drop 1 data);
                Dashboard.loading := false;
                Dashboard.error := Dashboard.error s;
                Dashboard.showDeleted := Dashboard.showDeleted s |}, w')
    /\ sheets w'
       = <["companies" := {| rows := data; tables := tables csh |}]> (sheets w)
    /\ session w' = session w.
Proof.
  intros newStatus updated data Ha Hid Hc Hi Hr.
  set (req := {| Companies.id := id; Companies.name := None;
                 Companies.username := None; Companies.password := None;
                 Companies.image := None; Companies.status := Some newStatus;
                 Companies.deleted := None |}).
  pose proof (PUT_plain req w csh i r Ha Hid Hc Hi Hr eq_refl eq_refl) as Hrun.
  cbn zeta in Hrun.
  change (Companies.renamed req r) with false in Hrun.
  assert (Companies.updatedCompany req r (JS.index r 3) (Companies.currentImage r)
          = updated) as Hup.
  { unfold Companies.updatedCompany, updated. cbn [Companies.id Companies.name
      Companies.username Companies.status Companies.deleted req].
    unfold JS.or at 1 2 3. cbn [JS.truthy].
    assert (negb (bool_decide (newStatus = "")) = true) as ->; [|done].
    subst newStatus. by destruct (bool_decide (currentStatus = "disabled")). }
  cbn [Companies.password req JS.truthy] in Hrun.
  rewrite Hup in Hrun. fold data in Hrun.
  eexists. unfold Dashboard.handleToggleCompanyStatus. fold newStatus. fold req.
  unfold bind at 1. rewrite Hrun, Fetch_ok_200. cbn [negb].
  unfold Dashboard.fetchCompanies, bind.
  erewrite GET_listing; cycle 1.
  - exact Ha.
  - cbn [sheets setSheets]. apply lookup_insert_eq.
  - rewrite Fetch_ok_200. cbn [negb]. unfold ret. split_and!; reflexivity.
Qed.

Section Switch.
Variable decodeURIComponent : string -> option string.
Variable toISOString : Z -> string.
Variable Number : string -> float.

(** X17. The status switch of the dashboard opens and closes registration.
    For a listed company whose row is the first with its id and the first
    with its name, and whose sheet has rows: after the switch is used on a
    company not shown as disabled, the list shows it as disabled and every
    valid registration for it is answered 403 and stores nothing; after the
    switch is used on a company shown as disabled, the company passes the
    company check of both registration handlers again. *)
Theorem dashboard_switch_flips_registration
    (s : Dashboard.State) (w : World) (csh sh : Sheet) (i : nat) (r : row)
    (companyName : string) :
  let company := Companies.ofRow r in
  let after :=
    Dashboard.handleToggleCompanyStatus (Company.id company)
      (Dashboard.shownStatus company) s w in
  notAdmin (session w) = false ->
  sheets w !! "companies" = Some csh ->
  drop 1 (rows csh) !! i = Some r ->
  JS.truthy (JS.index r 0) = true ->
  JS.findIndex (fun row => JS.eq3 (JS.index row 0) (JS.index r 0)) (drop 1 (rows csh))
  = Some i ->
  JS.findIndex (fun row => JS.eq3 (JS.index row 1) (Some companyName))
    (drop 1 (rows csh)) = Some i ->
  companyName <> "companies" ->
  sheets w !! companyName = Some sh ->
  rows sh <> [] ->
  (Dashboard.shownStatus company <> "disabled" ->
   (exists state shown,
      after.1 = Value state
      /\ Dashboard.companies state !! i = Some shown
      /\ Company.status shown = Some "disabled")
   /\ (forall req,
         Register.valid decodeURIComponent req = Some companyName ->
         let out := Register.POST decodeURIComponent toISOString req after.2 in
         out.1 = Value (json (BError "Company is disabled, registration is not available")
                          403)
         /\ sheets out.2 = sheets after.2)
   /\ (forall req,
         Part001.valid decodeURIComponent Number req = Some companyName ->
         let out := Part001.POST decodeURIComponent toISOString Number req after.2 in
         out.1 = Value (json (BError "Company is disabled, registration is not available")
                          403)
         /\ sheets out.2 = sheets after.2))
  /\ (Dashboard.shownStatus company = "disabled" ->
      Register.companyEnabled after.2 companyName = true
      /\ Part001.companyEnabled after.2 companyName = true).
Proof.
  intros company after Ha Hc Hr Hid Hi Hn Hne Hsh Hrows.
  destruct (toggle_runs (JS.index r 0) (Dashboard.shownStatus company) s w csh i r
              Ha Hid Hc Hi Hr) as (w' & Hrun & Hs' & Hse').
  cbn zeta in Hrun, Hs'.
  change (Company.id company) with (JS.index r 0) in after.
  subst after. rewrite Hrun. cbn [fst snd].
  destruct (findIndex_lookup _ _ _ Hn) as (r' & Hr' & Hname). simplify_eq.
  apply bool_decide_eq_true in Hname.
  set (newStatus := if bool_decide (Dashboard.shownStatus company = "disabled")
                    then "enabled" else "disabled") in *.
  set (updated := [JS.index r 0; JS.index r 1; JS.index r 2; JS.index r 3;
                   Companies.currentImage r; Some newStatus;
                   Some (if Companies.currentDeleted r then "true" else "false")]) in *.
  assert (sheets w' !! companyName = Some sh) as Hsh'
    by (rewrite Hs'; by rewrite lookup_insert_ne).
  assert (sheets w' !! "companies"
          = Some {| rows := <[i + 1 := updated]> (rows csh); tables := tables csh |})
    as Hc' by (rewrite Hs'; apply lookup_insert_eq).
  assert (find (fun row => JS.eq3 (JS.index row 1) (Some companyName))
            (drop 1 (<[i + 1 := updated]> (rows csh))) = Some updated) as Hfind.
  { rewrite drop1_insert. apply find_insert_first; [done|].
    unfold JS.eq3. by apply bool_decide_eq_true_2. }
  split.
  - intros Hshown.
    assert (newStatus = "disabled") as Hnew
      by (subst newStatus; by rewrite bool_decide_eq_false_2).
    split_and!.
    + eexists _, (Companies.ofRow updated). split_and!; [reflexivity | |].
      * cbn [Dashboard.companies]. rewrite drop1_insert.
        rewrite list_lookup_fmap, list_lookup_insert_eq; [done|].
        by eapply lookup_lt_Some.
      * cbn. by rewrite Hnew.
    + intros req Hv.
      rewrite (Register_POST_disabled decodeURIComponent toISOString req w' companyName
                 sh _ updated Hv Hsh' Hrows Hc' Hfind); [done|].
      cbn. by rewrite Hnew.
    + intros req Hv.
      rewrite (Part001_POST_disabled decodeURIComponent toISOString Number req w'
                 companyName sh _ updated Hv Hsh' Hrows Hc' Hfind); [done|].
      cbn. by rewrite Hnew.
  - intros Hshown.
    assert (newStatus = "enabled") as Hnew
      by (subst newStatus; by rewrite bool_decide_eq_true_2).
    unfold Register.companyEnabled, Part001.companyEnabled, sheetRows.
    rewrite Hsh', Hc'. cbn [fmap option_fmap option_map rows]. rewrite Hfind.
    rewrite bool_decide_eq_false_2 by (by destruct (rows sh)).
    change (JS.index updated 5) with (Some newStatus). rewrite Hnew. done.
Qed.

End Switch.

(** What the dashboard's delete button does to the world, for a company
    whose sheet exists under its name while the title [{name}-deleted] is
    free. *)
Lemma delete_runs (idOfQuery : JS.value -> JS.value) (id : JS.value)
    (s : Dashboard.State) (w : World) (csh sh : Sheet) (i : nat) (r : row)
    (companyName : string) :
  let marked := JS.setIndex r 6 (Some "true") in
  let data := <[i + 1 := marked]> (rows csh) in
  idOfQuery id = id ->
  notAdmin (session w) = false ->
  JS.truthy id = true ->
  sheets w !! "companies" = Some csh ->
  JS.findIndex (fun row => JS.eq3 (JS.index row 0) id) (drop 1 (rows csh)) = Some i ->
  drop 1 (rows csh) !! i = Some r ->
  JS.index r 1 = Some companyName ->
  companyName <> "companies" ->
  sheets w !! companyName = Some sh ->
  sheets w !! (companyName +:+ "-deleted") = None ->
  exists w',
    Dashboard.handleDeleteCompany idOfQuery true id s w
    = (Value {| Dashboard.companies := map Companies.ofRow (drop 1 data);
                Dashboard.loading := false;
                Dashboard.error := Dashboard.error s;
                Dashboard.showDeleted := Dashboard.showDeleted s |}, w')
    /\ sheets w'
       = <[companyName +:+ "-deleted" := sh]>
           (delete companyName
              (<["companies" := {| rows := data; tables := tables csh |}]> (sheets w)))
    /\ session w' = session w.
Proof.
  intros marked data Hq Ha Hid Hc Hi Hr Hn Hne Hsh Hfree.
  pose proof (DELETE_found id w csh i r Ha Hid Hc Hi Hr) as Hrun.
  cbn zeta in Hrun. fold marked data in Hrun. rewrite Hn in Hrun.
  cbn [JS.toString default from_option Datatypes.id] in Hrun.
  assert (companyName +:+ "-deleted" <> "companies") as Hne'
    by (intros E; rewrite E in Hfree; congruence).
  rewrite (renameSheet_some _ companyName _ sh) in Hrun
    by (cbn [sheets setSheets logCall]; by rewrite lookup_insert_ne).
  eexists. unfold Dashboard.handleDeleteCompany. cbn [negb].
  unfold bind at 1. rewrite Hq, Hrun, Fetch_ok_200. cbn [negb].
  unfold Dashboard.fetchCompanies, bind.
  erewrite GET_listing; cycle 1.
  - exact Ha.
  - cbn [sheets setSheets logCall]. rewrite lookup_insert_ne by done.
    rewrite lookup_delete_ne by done. apply lookup_insert_eq.
  - rewrite Fetch_ok_200. cbn [negb]. unfold ret. split_and!; reflexivity.
Qed.

(** What the dashboard's restore button does to the world. *)
Lemma restore_runs (id : JS.value) (s : Dashboard.State) (w : World) (csh : Sheet)
    (i : nat) (r : row) :
  let updated :=
    [id; JS.index r 1; JS.index r 2; JS.index r 3; Companies.currentImage r;
     Companies.currentStatus r; Some "false"] in
  let data := <[i + 1 := updated]> (rows csh) in
  notAdmin (session w) = false ->
  JS.truthy id = true ->
  sheets w !! "companies" = Some csh ->
  JS.findIndex (fun row => JS.eq3 (JS.index row 0) id) (drop 1 (rows csh)) = Some i ->
  drop 1 (rows csh) !! i = Some r ->
  is_Some (find (fun c => JS.eq3 (Company.id c) id) (Dashboard.companies s)) ->
  exists w',
    Dashboard.handleRestoreCompany true id s w
    = (Value {| Dashboard.companies := map Companies.ofRow (drop 1 data);
                Dashboard.loading := false;
                Dashboard.error := Dashboard.error s;
                Dashboard.showDeleted := Dashboard.showDeleted s |}, w')
    /\ sheets w'
       = <["companies" := {| rows := data; tables := tables csh |}]> (sheets w)
    /\ session w' = session w.
Proof.
  intros updated data Ha Hid Hc Hi Hr [c Hfound].
  set (req := {| Companies.id := id; Companies.name := None;
                 Companies.username := None; Companies.password := None;
                 Companies.image := None; Companies.status := None;
                 Companies.deleted := Some false |}).
  pose proof (PUT_plain req w csh i r Ha Hid Hc Hi Hr eq_refl eq_refl) as Hrun.
  cbn zeta in Hrun.
  change (Companies.renamed req r) with false in Hrun.
  change (Companies.updatedCompany req r
            (if JS.truthy (Companies.password req)
             then Some (bcryptHash w (JS.toString (Companies.password req)) 10)
             else JS.index r 3) (Companies.currentImage r))
    with updated in Hrun.
  fold data in Hrun.
  eexists. unfold Dashboard.handleRestoreCompany. cbn [negb]. rewrite Hfound.
  fold req. unfold bind at 1. rewrite Hrun, Fetch_ok_200. cbn [negb].
  unfold Dashboard.fetchCompanies, bind.
  erewrite GET_listing; cycle 1.
  - exact Ha.
  - cbn [sheets setSheets]. apply lookup_insert_eq.
  - rewrite Fetch_ok_200. cbn [negb]. unfold ret. split_and!; reflexivity.
Qed.

Section Deleted.
Variable decodeURIComponent : string -> option string.
Variable toISOString : Z -> string.
Variable Number : string -> float.
Variable idOfQuery : JS.value -> JS.value.

(** X18. A company deleted from the dashboard is closed for registration, and
    restoring it does not open it again. For a listed company whose sheet
    exists under its name while the title [{name}-deleted] is free: after
    the delete button, the list shows the company as deleted and every valid
    registration for it is answered 404 and stores nothing; after the
    restore button on the result, the list shows it as not deleted, and the
    answer to a registration is the same 404. *)
Theorem dashboard_delete_closes_registration
    (s : Dashboard.State) (w : World) (csh sh : Sheet) (i : nat) (r : row)
    (companyName : string) :
  let id := JS.index r 0 in
  let deleted := Dashboard.handleDeleteCompany idOfQuery true id s w in
  idOfQuery id = id ->
  notAdmin (session w) = false ->
  JS.truthy id = true ->
  sheets w !! "companies" = Some csh ->
  JS.findIndex (fun row => JS.eq3 (JS.index row 0) id) (drop 1 (rows csh)) = Some i ->
  drop 1 (rows csh) !! i = Some r ->
  JS.index r 1 = Some companyName ->
  companyName <> "companies" ->
  sheets w !! companyName = Some sh ->
  sheets w !! (companyName +:+ "-deleted") = None ->
  exists state shown,
    deleted.1 = Value state
    /\ Dashboard.companies state !! i = Some shown
    /\ Company.deleted shown = true
    /\ let restored := Dashboard.handleRestoreCompany true id state deleted.2 in
       (exists state' shown',
          restored.1 = Value state'
          /\ Dashboard.companies state' !! i = Some shown'
          /\ Company.deleted shown' = false)
       /\ forall w',
            w' = deleted.2 \/ w' = restored.2 ->
            (forall req,
               Register.valid decodeURIComponent req = Some companyName ->
               let out := Register.POST decodeURIComponent toISOString req w' in
               out.1
               = Value (json (BError ("Company " +:+ JS.dq +:+ companyName +:+ JS.dq
                                      +:+ " not found or inaccessible")) 404)
               /\ sheets out.2 = sheets w')
            /\ (forall req,
                  Part001.valid decodeURIComponent Number req = Some companyName ->
                  let out :=
                    Part001.POST decodeURIComponent toISOString Number req w' in
                  out.1 = Value (json (BError "Company not found") 404)
                  /\ sheets out.2 = sheets w').
Proof.
  intros id deleted Hq Ha Hid Hc Hi Hr Hn Hne Hsh Hfree.
  destruct (delete_runs idOfQuery id s w csh sh i r companyName
              Hq Ha Hid Hc Hi Hr Hn Hne Hsh Hfree) as (w1 & Hrun1 & Hs1 & Hse1).
  cbn zeta in Hrun1, Hs1. subst deleted. rewrite Hrun1. cbn [fst snd].
  set (marked := JS.setIndex r 6 (Some "true")) in *.
  set (data := <[i + 1 := marked]> (rows csh)) in *.
  assert (i < length (drop 1 (rows csh))) as Hlt by (by eapply lookup_lt_Some).
  assert (companyName +:+ "-deleted" <> "companies") as Hne'
    by (intros E; rewrite E in Hfree; congruence).
  assert (companyName +:+ "-deleted" <> companyName) as Hne''
    by (intros E; rewrite E in Hfree; congruence).
  assert (sheets w1 !! "companies" = Some {| rows := data; tables := tables csh |})
    as Hc1.
  { rewrite Hs1. rewrite lookup_insert_ne by done.
    rewrite lookup_delete_ne by done. apply lookup_insert_eq. }
  assert (sheets w1 !! companyName = None) as Hgone.
  { rewrite Hs1. rewrite lookup_insert_ne by done. apply lookup_delete_eq. }
  assert (drop 1 data !! i = Some marked) as Hr1.
  { subst data. rewrite drop1_insert. by apply list_lookup_insert_eq. }
  assert (JS.findIndex (fun row => JS.eq3 (JS.index row 0) id) (drop 1 data) = Some i)
    as Hi1.
  { subst data. rewrite drop1_insert. apply findIndex_insert_first; [done|].
    subst marked. rewrite index_setIndex_ne by done.
    unfold JS.eq3. by apply bool_decide_eq_true_2. }
  set (state := {| Dashboard.companies := map Companies.ofRow (drop 1 data);
                   Dashboard.loading := false;
                   Dashboard.error := Dashboard.error s;
                   Dashboard.showDeleted := Dashboard.showDeleted s |}).
  assert (notAdmin (session w1) = false) as Ha1 by (by rewrite Hse1).
  assert (is_Some (find (fun c => JS.eq3 (Company.id c) id) (Dashboard.companies state)))
    as Hfound.
  { apply (find_is_Some _ _ (Companies.ofRow marked)).
    - cbn [Dashboard.companies state]. apply list_elem_of_fmap.
      exists marked. split; [done|]. by eapply list_elem_of_lookup_2.
    - change (JS.eq3 (JS.index marked 0) id = true).
      subst marked. rewrite index_setIndex_ne by done.
      unfold JS.eq3. by apply bool_decide_eq_true_2. }
  destruct (restore_runs id state w1 {| rows := data; tables := tables csh |} i marked
              Ha1 Hid Hc1 Hi1 Hr1 Hfound)
    as (w2 & Hrun2 & Hs2 & Hse2).
  cbn zeta in Hrun2, Hs2. cbn [rows tables] in Hrun2, Hs2.
  exists state, (Companies.ofRow marked). split_and!.
  - done.
  - cbn [Dashboard.companies state]. by rewrite list_lookup_fmap, Hr1.
  - change ((if JS.eq3 (JS.index marked 6) (Some "true") then true else false) = true).
    subst marked. by rewrite index_setIndex_eq.
  - rewrite Hrun2. cbn [fst snd].
    eexists _, _. split_and!; [reflexivity | |].
    + cbn [Dashboard.companies]. rewrite drop1_insert.
      rewrite list_lookup_fmap, list_lookup_insert_eq; [done|].
      subst data. by rewrite drop1_insert, length_insert.
    + done.
  - rewrite Hrun2. cbn [fst snd].
    assert (sheets w2 !! companyName = None) as Hgone2.
    { rewrite Hs2. by rewrite lookup_insert_ne. }
    intros w' [->| ->]; split; intros req Hv.
    + by rewrite (Register_POST_no_sheet _ _ _ _ _ Hv Hgone).
    + by rewrite (Part001_POST_no_sheet _ _ _ _ _ _ Hv Hgone).
    + by rewrite (Register_POST_no_sheet _ _ _ _ _ Hv Hgone2).
    + by rewrite (Part001_POST_no_sheet _ _ _ _ _ _ Hv Hgone2).
Qed.

End Deleted.

(** ** The registration pages *)

Section Forms.
Variable decodeURIComponent : string -> option string.
Variable toISOString : Z -> string.
Variable Number : string -> float.

(** X19. What the first page of [part_000] lets through, the handler of
    [part_001] accepts: once the page's own checks pass and the company name
    decodes to a non-empty name, the body the page sends passes the field
    validation of the handler. *)
Theorem form1_body_passes_validation (p : Form1.Page) (companyName : string) :
  Form1.refusal Number p = None ->
  decodeURIComponent (Form1.companyName p) = Some companyName ->
  companyName <> "" ->
  Part001.valid decodeURIComponent Number (Form1.body p) = Some companyName.
Proof.
  unfold Form1.refusal, Part001.valid, Part001.missing, Part001.badAge, Form1.body.
  cbn [Part001.rawCompanyName Part001.eventName Part001.name Part001.whatsapp
       Part001.email Part001.gender Part001.education Part001.universityCollege
       Part001.age Part001.nationalId JS.toString default from_option Datatypes.id].
  intros Hr -> Hne.
  destruct (negb (JS.truthy (Form1.exactEventName p))) eqn:He; [done|].
  destruct (Form1.eventDisabled p || Form1.companyDisabled p); [done|].
  destruct (negb (JS.truthy (Some (Form1.name (Form1.formData p))))) eqn:H1; [done|].
  destruct (negb (JS.truthy (Some (Form1.whatsapp (Form1.formData p))))) eqn:H2; [done|].
  destruct (negb (JS.truthy (Some (Form1.email (Form1.formData p))))) eqn:H3; [done|].
  destruct (negb (JS.truthy (Some (Form1.gender (Form1.formData p))))) eqn:H4; [done|].
  destruct (negb (JS.truthy (Some (Form1.education (Form1.formData p))))) eqn:H5;
    [done|].
  destruct (negb (JS.truthy (Some (Form1.universityCollege (Form1.formData p)))))
    eqn:H6; [done|].
  destruct (negb (JS.truthy (Some (Form1.nationalId (Form1.formData p))))) eqn:H7;
    [done|].
  destruct (negb (JS.truthy (Some (Form1.age (Form1.formData p))))) eqn:H8; [done|].
  cbn [orb] in Hr.
  destruct (negb (Regex.test Regex.emailRegex _)) eqn:H9; [done|].
  destruct (negb (Regex.test Regex.phoneRegex _)) eqn:H10; [done|].
  destruct (PrimFloat.is_nan _ || _ || _) eqn:H11; [done|].
  assert (negb (JS.truthy (Some companyName)) = false) as ->.
  { cbn. by rewrite bool_decide_eq_false_2. }
  done.
Qed.

Lemma Register_missing_number companyName req :
  Register.whatsappNumber req = None -> Register.missing companyName req = true.
Proof.
  intros H. unfold Register.missing. rewrite H. cbn [JS.truthy negb].
  by destruct (negb _), (negb _), (negb _).
Qed.

(** X20. Neither page of [part_000] can register through [route.ts]. Both send
    the form fields under their own keys, none of which is [whatsappNumber]:
    whatever the form holds, once the page's checks pass and the company
    name decodes, the handler answers 400 before it calls a collaborator,
    and the page shows "All fields are required" and keeps the form. *)
Theorem pages_refused_by_route :
  (forall (p : Form1.Page) (w : World) (companyName : string),
     Form1.refusal Number p = None ->
     decodeURIComponent (Form1.companyName p) = Some companyName ->
     Form1.handleSubmit Number
       (fun b => Register.POST decodeURIComponent toISOString (Form1.destructured b)) p w
     = (Value {| Form1.companyName := Form1.companyName p;
                 Form1.exactEventName := Form1.exactEventName p;
                 Form1.eventDisabled := Form1.eventDisabled p;
                 Form1.companyDisabled := Form1.companyDisabled p;
                 Form1.formData := Form1.formData p;
                 Form1.error := "All fields are required";
                 Form1.success := Form1.success p;
                 Form1.submitting := false |}, w))
  /\ (forall (p : Form2.Page) (w : World) (companyName : string),
        Form2.refusal p = None ->
        decodeURIComponent (Form2.companyName p) = Some companyName ->
        Form2.handleSubmit
          (fun b => Register.POST decodeURIComponent toISOString (Form2.destructured b))
          p w
        = (Value {| Form2.companyName := Form2.companyName p;
                    Form2.exactEventName := Form2.exactEventName p;
                    Form2.eventDisabled := Form2.eventDisabled p;
                    Form2.companyDisabled := Form2.companyDisabled p;
                    Form2.formData := Form2.formData p;
                    Form2.error := "All fields are required";
                    Form2.success := Form2.success p;
                    Form2.submitting := false |}, w)).
Proof.
  split.
  - intros p w companyName Hr Hd.
    unfold Form1.handleSubmit. rewrite Hr. unfold bind at 1.
    assert (Register.POST decodeURIComponent toISOString
              (Form1.destructured (Form1.body p)) w
            = (Value (json (BError "All fields are required") 400), w)) as ->; [|done].
    unfold Register.POST, tryCatch, bind.
    change (JS.toString (Register.rawCompanyName (Form1.destructured (Form1.body p))))
      with (Form1.companyName p).
    rewrite Hd. unfold ofOption, ret.
    by rewrite Register_missing_number.
  - intros p w companyName Hr Hd.
    unfold Form2.handleSubmit. rewrite Hr. unfold bind at 1.
    assert (Register.POST decodeURIComponent toISOString
              (Form2.destructured (Form2.body p)) w
            = (Value (json (BError "All fields are required") 400), w)) as ->; [|done].
    unfold Register.POST, tryCatch, bind.
    change (JS.toString (Register.rawCompanyName (Form2.destructured (Form2.body p))))
      with (Form2.companyName p).
    rewrite Hd. unfold ofOption, ret.
    by rewrite Register_missing_number.
Qed.

Lemma Part001_codes req w response w' :
  Part001.POST decodeURIComponent toISOString Number req w = (Value response, w') ->
  code response = 200 \/ (300 <= code response /\ sheets w' = sheets w).
Proof.
  intros Hrun.
  destruct (Part001.valid decodeURIComponent Number req) as [companyName|] eqn:Hv;
    cycle 1.
  { destruct (Part001_invalid _ toISOString _ req w Hv) as (r & Hr & Hc).
    rewrite Hr in Hrun. simplify_eq. right. split; [lia | done]. }
  rewrite (Part001_POST_valid _ _ _ _ _ _ Hv) in Hrun.
  destruct (Part001.companyEnabled w companyName) eqn:He; cycle 1.
  { destruct (Part001_company_refused toISOString companyName req w He)
      as (r & w1 & Hr & Hs & Hc).
    rewrite Hr in Hrun. simplify_eq. right. split; [lia | done]. }
  rewrite (Part001_registerInCompany_enabled _ _ _ _ He) in Hrun.
  destruct (Part001.eventOpen w companyName (JS.toString (Part001.eventName req)))
    as [tableData|] eqn:Ho; cycle 1.
  { destruct (Part001_event_refused toISOString companyName req
                (logCall (CGetSheetData "companies")
                   (logCall (CGetSheetData companyName) w)) Ho)
      as (r & w1 & Hr & Hs & Hc).
    rewrite Hr in Hrun. simplify_eq. right. split; [lia | done]. }
  destruct (Part001_eventOpen_inv _ _ _ _ Ho) as (Ht & Hlen & Hopen).
  destruct (table_inv _ _ _ _ Ht) as (sh & Hsh & Htd).
  rewrite (Part001_registerInEvent_open toISOString companyName req _ sh tableData)
    in Hrun; try done.
  destruct (Part001.existingRegistration _ _); simplify_eq.
  - right. split; [cbn; lia | done].
  - by left.
Qed.

(** X21. The first page of [part_000] over the handler of [part_001] sets its
    success flag only when the registration was stored. Whatever the page
    holds, a submit ends in one of two ways: the page shows success with an
    emptied form, and the event's table has gained one row with the form's
    fields and the timestamp; or the success flag and the form are as they
    were and the spreadsheet is unchanged. *)
Theorem page_success_means_stored (p : Form1.Page) (w : World) :
  let out :=
    Form1.handleSubmit Number (Part001.POST decodeURIComponent toISOString Number) p w in
  let f := Form1.formData p in
  let eventName := JS.toString (Form1.exactEventName p) in
  exists p',
    out.1 = Value p'
    /\ ((Form1.success p' = true
         /\ Form1.formData p' = Form1.emptyForm
         /\ exists companyName tableData,
              decodeURIComponent (Form1.companyName p) = Some companyName
              /\ table w companyName eventName = Some tableData
              /\ table out.2 companyName eventName
                 = Some (tableData
                         ++ [[Some (Form1.name f); Some (Form1.whatsapp f);
                              Some (Form1.nationalId f); Some (Form1.email f);
                              Some (Form1.education f);
                              Some (Form1.universityCollege f);
                              Some (Form1.age f); Some (Form1.gender f);
                              Some (toISOString (clock w (ticks w)))]])%list)
        \/ (Form1.success p' = Form1.success p
            /\ Form1.formData p' = Form1.formData p
            /\ sheets out.2 = sheets w)).
Proof.
  intros out f eventName. subst out. unfold Form1.handleSubmit.
  destruct (Form1.refusal Number p) as [e|] eqn:Hr.
  { eexists. split; [reflexivity|]. right. by split_and!. }
  destruct (tryCatch_answers
              (companyName <~
                 ofOption (decodeURIComponent
                             (JS.toString (Part001.rawCompanyName (Form1.body p))));;
               if Part001.missing companyName (Form1.body p)
               then ret (json (BError "All fields are required") 400)
               else if negb (Regex.test Regex.emailRegex
                               (JS.toString (Part001.email (Form1.body p))))
               then ret (json (BError "Invalid email format") 400)
               else if negb (Regex.test Regex.phoneRegex
                               (JS.toString (Part001.whatsapp (Form1.body p))))
               then ret (json (BError "Invalid WhatsApp number format") 400)
               else if Part001.badAge Number (JS.toString (Part001.age (Form1.body p)))
               then ret (json (BError "Please enter a valid age between 15 and 100") 400)
               else Part001.registerInCompany toISOString companyName (Form1.body p))
              (json (BError "Failed to register for event") 500) w)
    as (response & w' & Hrun).
  change (Part001.POST decodeURIComponent toISOString Number (Form1.body p) w
          = (Value response, w')) in Hrun.
  unfold bind. rewrite Hrun.
  destruct (Part001_codes _ _ _ _ Hrun) as [Hcode|[Hcode Hs]].
  - assert (Fetch.ok response = true) as ->
      by (unfold Fetch.ok; rewrite Hcode; reflexivity).
    cbn [negb]. unfold ret. eexists. split; [reflexivity|]. left. cbn [snd].
    split_and!; [done | done |].
    destruct (Part001_200_checked _ _ _ _ _ _ _ Hrun Hcode)
      as (c & td & Hv & Hc & Ho & Hnew).
    destruct (Part001_valid_inv _ _ _ _ Hv) as (Hd & _).
    destruct (Part001_eventOpen_inv _ _ _ _ Ho) as (Ht & _ & _).
    destruct (Part001_POST_checked _ toISOString _ _ _ _ _ Hv Hc Ho)
      as (sh & w0 & Hsh & _ & _ & _ & Hrun').
    rewrite Hnew, Hrun in Hrun'. injection Hrun' as _ ->.
    exists c, td. split_and!; [exact Hd | exact Ht |].
    unfold table. cbn [sheets setSheets]. rewrite lookup_insert_eq.
    cbn [mbind option_bind tables]. by rewrite lookup_insert_eq.
  - assert (Fetch.ok response = false) as ->.
    { unfold Fetch.ok. rewrite (bool_decide_eq_false_2 (code response <= 299)) by lia.
      apply andb_false_r. }
    cbn [negb]. unfold ret. eexists. split; [reflexivity|]. right. by split_and!.
Qed.

End Forms.

(** ** Renamed and new companies *)

Lemma find_insert_only {A} (f : A -> bool) (l : list A) i x :
  i < length l -> f x = true -> (forall y, y ∈ l -> f y = false) ->
  find f (<[i := x]> l) = Some x.
Proof.
  revert i. induction l as [|y l IH]; intros i Hi Hx Hl; [cbn in Hi; lia|].
  destruct i as [|i].
  - cbn. by rewrite Hx.
  - change (<[S i := x]> (y :: l)) with (y :: <[i := x]> l). cbn [find].
    rewrite (Hl y) by left. apply IH; [cbn in Hi; lia | done |].
    intros z Hz. apply Hl. by right.
Qed.

(** X22. A renamed company keeps its events and its standing. For an admin's
    PUT that carries the id and a new name only, where the company's row is
    the first with its name, no row bears the new name, the company's sheet
    exists and the new title is free: the answer is 200, the sheet with all
    its rows and tables is found under the new name and no longer under the
    old one, and the company check of [route.ts] gives for the new name what
    it gave for the old one. *)
Theorem renamed_company_keeps_events
    (id : JS.value) (oldName newName : string) (w : World) (csh sh : Sheet)
    (i : nat) (r : row) :
  let out :=
    Companies.PUT
      {| Companies.id := id; Companies.name := Some newName;
         Companies.username := None; Companies.password := None;
         Companies.image := None; Companies.status := None;
         Companies.deleted := None |} w in
  notAdmin (session w) = false ->
  JS.truthy id = true ->
  sheets w !! "companies" = Some csh ->
  JS.findIndex (fun row => JS.eq3 (JS.index row 0) id) (drop 1 (rows csh)) = Some i ->
  JS.findIndex (fun row => JS.eq3 (JS.index row 1) (Some oldName)) (drop 1 (rows csh))
  = Some i ->
  drop 1 (rows csh) !! i = Some r ->
  (forall row, row ∈ drop 1 (rows csh) -> JS.index row 1 <> Some newName) ->
  newName <> "" ->
  oldName <> "companies" ->
  sheets w !! oldName = Some sh ->
  sheets w !! newName = None ->
  (exists company,
     out.1 = Value (json (BCompany company) 200)
     /\ Company.name company = Some newName)
  /\ sheets out.2 !! oldName = None
  /\ sheets out.2 !! newName = Some sh
  /\ Register.companyEnabled out.2 newName = Register.companyEnabled w oldName.
Proof.
  intros out Ha Hid Hc Hi Hn Hr Hnew Hne Hold Hsh Hfree.
  set (req := {| Companies.id := id; Companies.name := Some newName;
                 Companies.username := None; Companies.password := None;
                 Companies.image := None; Companies.status := None;
                 Companies.deleted := None |}) in *.
  destruct (findIndex_lookup _ _ _ Hn) as (r' & Hr' & Hname). simplify_eq.
  apply bool_decide_eq_true in Hname.
  assert (JS.truthy (Some newName) = true) as Htruthy
    by (cbn; by rewrite bool_decide_eq_false_2).
  assert (newName <> oldName) as Hdiff by (intros ->; congruence).
  assert (newName <> "companies") as Hnc by (intros ->; congruence).
  pose proof (PUT_plain req w csh i r Ha Hid Hc Hi Hr eq_refl eq_refl) as Hrun.
  cbn zeta in Hrun.
  assert (Companies.renamed req r = true) as Hren.
  { apply renamed_true; [done|]. cbn. congruence. }
  rewrite Hren, Hname in Hrun.
  cbn [Companies.password Companies.name req JS.truthy JS.toString default from_option
       Datatypes.id] in Hrun.
  set (updated := Companies.updatedCompany req r (JS.index r 3)
                    (Companies.currentImage r)) in *.
  rewrite (renameSheet_some _ oldName newName sh) in Hrun
    by (cbn [sheets setSheets logCall]; by rewrite lookup_insert_ne).
  subst out. rewrite Hrun. cbn [fst snd sheets setSheets logCall].
  assert (JS.index updated 1 = Some newName) as Hn1.
  { subst updated. unfold Companies.updatedCompany. cbn [Companies.name req].
    unfold JS.or at 1. by rewrite Htruthy. }
  assert (JS.index updated 5 = Companies.currentStatus r) as Hst by done.
  split_and!.
  - eexists. split; [reflexivity|]. cbn [Company.name]. unfold JS.or.
    by rewrite Htruthy.
  - rewrite lookup_insert_ne by done. apply lookup_delete_eq.
  - apply lookup_insert_eq.
  - unfold Register.companyEnabled, sheetRows. cbn [sheets setSheets logCall].
    rewrite lookup_insert_eq. rewrite (lookup_insert_ne _ newName "companies") by done.
    rewrite (lookup_delete_ne _ oldName "companies") by done.
    rewrite lookup_insert_eq. rewrite Hsh, Hc.
    cbn [fmap option_fmap option_map rows].
    rewrite drop1_insert.
    rewrite (find_insert_only _ _ i updated).
    + assert (find (fun row => JS.eq3 (JS.index row 1) (Some oldName))
                (drop 1 (rows csh)) = Some r) as ->.
      { rewrite <- (list_insert_id _ _ _ Hr) at 1.
        apply find_insert_first; [done|]. unfold JS.eq3.
        by apply bool_decide_eq_true_2. }
      rewrite Hst. unfold Companies.currentStatus. by rewrite or_or.
    + by eapply lookup_lt_Some.
    + unfold JS.eq3. by apply bool_decide_eq_true_2.
    + intros y Hy. unfold JS.eq3. apply bool_decide_eq_false_2. by apply Hnew.
Qed.

(** An answer 200 of [POST] means the sheet of the company was created. *)
Lemma POST_created req w :
  match Companies.POST req w with
  | (Value response, w') =>
    code response = 200 ->
    sheets w' !! JS.toString (Companies.name req) = Some {| rows := []; tables := ∅ |}
  | (Thrown, _) => True
  end.
Proof.
  unfold Companies.POST, Companies.uploaded, tryCatch, bind,
    getServerSession, getSheetData, createSheet, appendToSheet, uploadImage,
    bcrypt_hash, Date_now, ofOption, ret, throw.
  cbn [sheets logCall setSheets]. run'.
  all: try done.
  all: intros _; apply lookup_insert_eq.
Qed.

Section NewCompany.
Variable decodeURIComponent : string -> option string.
Variable toISOString : Z -> string.

(** A valid request for a company whose sheet has no rows. *)
Lemma Register_POST_empty_sheet req w companyName sh :
  Register.valid decodeURIComponent req = Some companyName ->
  sheets w !! companyName = Some sh ->
  rows sh = [] ->
  Register.POST decodeURIComponent toISOString req w
  = (Value (json (BError "Company not found") 404),
     logCall (CGetSheetData companyName) w).
Proof.
  intros Hv Hs Hrows. rewrite (Register_POST_valid _ _ _ _ _ Hv).
  unfold Register.registerInCompany, tryCatch, bind, attempt.
  rewrite (getSheetData_some _ _ _ Hs), Hrows. done.
Qed.

(** X23. A company that has just been created is not open for registration:
    POST creates its sheet without rows, and until the sheet has one, every
    valid registration for the company is answered 404 "Company not found"
    by [route.ts] and stores nothing. *)
Theorem new_company_not_yet_open (req : Companies.Json) (w : World)
    (companyName : string) :
  let out := Companies.POST req w in
  Companies.name req = Some companyName ->
  (exists response, out.1 = Value response /\ code response = 200) ->
  forall registration,
    Register.valid decodeURIComponent registration = Some companyName ->
    let answer := Register.POST decodeURIComponent toISOString registration out.2 in
    answer.1 = Value (json (BError "Company not found") 404)
    /\ sheets answer.2 = sheets out.2.
Proof.
  intros out Hname (response & Hrun & Hcode) registration Hv.
  pose proof (POST_created req w) as Hcreated. fold out in Hcreated.
  destruct out as [o w'] eqn:Hout. cbn [fst snd] in *. subst o.
  specialize (Hcreated Hcode). rewrite Hname in Hcreated.
  cbn [JS.toString default from_option Datatypes.id] in Hcreated.
  by rewrite (Register_POST_empty_sheet registration w' companyName _ Hv Hcreated).
Qed.

End NewCompany.

(** ** The diagnostics endpoint *)

Section DiagnosticsTheorems.
Variable toISOString : Z -> string.

(** X24. [GET /api/test] lists the companies to anyone. Whatever the session
    and the query, when the companies sheet can be read the answer is 200
    and its list holds, for every row after the header row and in the same
    order, the id, name and status that [GET /api/companies] gives an admin
    for that row, deleted and disabled companies included. The spreadsheet
    is left as it was. *)
Theorem diagnostics_list_needs_no_session
    (company event : JS.value) (w : World) (csh : Sheet) :
  let out := Diagnostics.GET toISOString company event w in
  sheets w !! "companies" = Some csh ->
  exists report,
    out.1 = Value (Diagnostics.Ok report, 200)
    /\ Diagnostics.companies report
       = Diagnostics.Found
           (length (rows csh),
            map (fun c => {| Diagnostics.id := Company.id c;
                             Diagnostics.name := Company.name c;
                             Diagnostics.status := Company.status c |})
              (map Companies.ofRow (drop 1 (rows csh))))
    /\ sheets out.2 = sheets w.
Proof.
  intros out Hc. subst out.
  assert (forall w0, sheets w0 = sheets w ->
            Diagnostics.probeCompanies w0
            = (Value (Diagnostics.Found
                        (length (rows csh),
                         map (fun c => {| Diagnostics.id := Company.id c;
                                          Diagnostics.name := Company.name c;
                                          Diagnostics.status := Company.status c |})
                           (map Companies.ofRow (drop 1 (rows csh))))),
               logCall (CGetSheetData "companies") w0)) as Hlist.
  { intros w0 Hw0. unfold Diagnostics.probeCompanies, tryCatch, bind.
    rewrite (getSheetData_some w0 "companies" csh) by (by rewrite Hw0).
    unfold ret. by rewrite map_map. }
  assert (exists probed w1,
            Diagnostics.probeCompany company event (tick w) = (Value probed, w1)
            /\ sheets w1 = sheets w) as (probed & w1 & Hprobe & Hw1).
  { unfold Diagnostics.probeCompany, Diagnostics.probeEvent, tryCatch, bind,
      getSheetData, getTableData, ret.
    cbn [sheets logCall tick].
    repeat case_match; simplify_eq/=; (do 2 eexists; split; reflexivity). }
  assert (Diagnostics.GET toISOString company event w
          = (Value (Diagnostics.Ok
                      {| Diagnostics.timestamp := toISOString (clock w (ticks w));
                         Diagnostics.queryCompany := company;
                         Diagnostics.queryEvent := event;
                         Diagnostics.company := probed.1;
                         Diagnostics.event := probed.2;
                         Diagnostics.companies :=
                           Diagnostics.Found
                             (length (rows csh),
                              map (fun c => {| Diagnostics.id := Company.id c;
                                               Diagnostics.name := Company.name c;
                                               Diagnostics.status := Company.status c |})
                                (map Companies.ofRow (drop 1 (rows csh)))) |}, 200),
             logCall (CGetSheetData "companies") w1)) as ->.
  { unfold Diagnostics.GET, tryCatch, bind, Date_now.
    rewrite Hprobe, (Hlist w1 Hw1). done. }
  eexists. split_and!; [reflexivity | reflexivity | exact Hw1].
Qed.

End DiagnosticsTheorems.

Lemma diagnostics_list_needs_no_session_witness :
  exists report,
    (Diagnostics.GET Demo.iso None None Cases.signedOut).1
    = Value (Diagnostics.Ok report, 200)
    /\ Diagnostics.companies report
       = Diagnostics.Found
           (2, [{| Diagnostics.id := Some Demo.acmeId;
                   Diagnostics.name := Some "Acme";
                   Diagnostics.status := Some "enabled" |}])
    /\ sheets (Diagnostics.GET Demo.iso None None Cases.signedOut).2
       = sheets Cases.signedOut.
Proof.
  apply (diagnostics_list_needs_no_session Demo.iso None None Cases.signedOut
           Cases.companiesSheet).
  vm_compute; reflexivity.
Defined.

(** ** The properties above on the small spreadsheet *)

Lemma second_registration_refused_witness :
  (Part001.POST Demo.decode Demo.iso Demo.number (Demo.mona1 "201001234567")
     (Part001.POST Demo.decode Demo.iso Demo.number (Demo.mona1 "201001234567")
        (Demo.fresh Demo.eventHeader)).2).1
  = Value (json (BError "You are already registered for this event") 400).
Proof.
  destruct (proj2 (second_registration_refused Demo.decode Demo.iso Demo.number)
              (Demo.mona1 "201001234567") (Demo.fresh Demo.eventHeader) "Acme"
              [Demo.eventHeader]) as [[H|[_ H]] _].
  - vm_compute; reflexivity.
  - vm_compute; reflexivity.
  - exists (json (BRegistration (Some "Mona Adel") (Some "mona@example.org")
                    "2025-11-02T00:00:00.000Z") 200).
    split; vm_compute; reflexivity.
  - exact H.
  - vm_compute in H. discriminate H.
Defined.

Lemma companies_require_admin_witness :
  Companies.DELETE (Some Demo.acmeId) Cases.signedOut
  = (Value (json (BError "Unauthorized") 401), Cases.signedOut).
Proof. apply (companies_require_admin Cases.signedOut). reflexivity. Defined.

Lemma unknown_company_not_found_witness :
  Companies.DELETE (Some "company_0") (Demo.fresh Demo.eventHeader)
  = (Value (json (BError "Company not found") 404),
     logCall (CGetSheetData "companies") (Demo.fresh Demo.eventHeader)).
Proof.
  apply (proj2 (proj2 (proj2 (unknown_company_not_found (Demo.fresh Demo.eventHeader)
                                eq_refl)))
           (Some "company_0") Cases.companiesSheet).
  - reflexivity.
  - vm_compute; reflexivity.
  - intros r Hr. cbn in Hr. apply list_elem_of_singleton in Hr as ->. discriminate.
Defined.

Lemma put_taken_username_rejected_witness :
  (Companies.PUT
     {| Companies.id := Some Demo.acmeId; Companies.name := None;
        Companies.username := Some "beta"; Companies.password := None;
        Companies.image := None; Companies.status := None;
        Companies.deleted := None |} Cases.twoCompanies).1
  = Value (json (BError "Username already exists") 400)
  /\ sheets
       (Companies.PUT
          {| Companies.id := Some Demo.acmeId; Companies.name := None;
             Companies.username := Some "beta"; Companies.password := None;
             Companies.image := None; Companies.status := None;
             Companies.deleted := None |} Cases.twoCompanies).2
     = sheets Cases.twoCompanies.
Proof.
  destruct (put_taken_username_rejected
              {| Companies.id := Some Demo.acmeId; Companies.name := None;
                 Companies.username := Some "beta"; Companies.password := None;
                 Companies.image := None; Companies.status := None;
                 Companies.deleted := None |}
              Cases.twoCompanies
              {| rows := [Demo.companiesHeader; Demo.acme "enabled" "false";
                          Cases.betaRow];
                 tables := ∅ |}
              0 1 (Demo.acme "enabled" "false") Cases.betaRow)
    as (H1 & H2 & _).
  - reflexivity.
  - reflexivity.
  - vm_compute; reflexivity.
  - vm_compute; reflexivity.
  - reflexivity.
  - reflexivity.
  - lia.
  - reflexivity.
  - discriminate.
  - reflexivity.
  - split; [exact H1 | exact H2].
Defined.

Lemma created_company_is_listed_witness :
  (Companies.GET (Companies.POST Demo.beta (Demo.fresh Demo.eventHeader)).2).1
  = Value (json (BCompanies
                   [Companies.ofRow (Demo.acme "enabled" "false");
                    {| Company.id := Some "company_1762041600000";
                       Company.name := Some "Beta";
                       Company.username := Some "beta";
                       Company.image := None;
                       Company.status := Some "enabled";
                       Company.deleted := false |}]) 200).
Proof.
  destruct (created_company_is_listed Demo.beta (Demo.fresh Demo.eventHeader))
    as (company & Hpost & _ & _ & _ & _ & _ & Hget).
  - reflexivity.
  - reflexivity.
  - reflexivity.
  - reflexivity.
  - intros _ fileName. eexists. reflexivity.
  - vm_compute. discriminate.
  - intros r Hr. vm_compute in Hr. apply list_elem_of_singleton in Hr as ->.
    discriminate.
  - vm_compute; reflexivity.
  - discriminate.
  - vm_compute in Hpost. injection Hpost as <-. exact Hget.
Defined.

Lemma taken_sheet_name_leaves_row_witness :
  (Companies.POST Cases.acmeAgain (Demo.fresh Demo.eventHeader)).1
  = Value (json (BError "Failed to create company") 500)
  /\ exists newRow,
       sheetRows (Companies.POST Cases.acmeAgain (Demo.fresh Demo.eventHeader)).2
         "companies"
       = Some [Demo.companiesHeader; Demo.acme "enabled" "false"; newRow]
       /\ JS.index newRow 1 = Some "Acme"
       /\ JS.index newRow 2 = Some "acme2".
Proof.
  apply (taken_sheet_name_leaves_row Cases.acmeAgain (Demo.fresh Demo.eventHeader)
           Cases.companiesSheet).
  - reflexivity.
  - reflexivity.
  - reflexivity.
  - reflexivity.
  - intros H. discriminate H.
  - vm_compute; reflexivity.
  - intros r Hr. cbn in Hr. apply list_elem_of_singleton in Hr as ->. discriminate.
  - eexists. vm_compute. reflexivity.
Defined.



Lemma dashboard_switch_flips_registration_witness :
  (Register.POST Demo.decode Demo.iso Demo.mona
     (Dashboard.handleToggleCompanyStatus (Some Demo.acmeId) "enabled" Cases.dashboard
        (Demo.fresh Demo.eventHeader)).2).1
  = Value (json (BError "Company is disabled, registration is not available") 403).
Proof.
  destruct (dashboard_switch_flips_registration Demo.decode Demo.iso Demo.number
              Cases.dashboard (Demo.fresh Demo.eventHeader) Cases.companiesSheet
              Cases.acmeSheet 0 (Demo.acme "enabled" "false") "Acme") as [Hclose _].
  - reflexivity.
  - vm_compute; reflexivity.
  - reflexivity.
  - reflexivity.
  - vm_compute; reflexivity.
  - vm_compute; reflexivity.
  - discriminate.
  - vm_compute; reflexivity.
  - discriminate.
  - destruct Hclose as (_ & Hregister & _); [discriminate|].
    apply (Hregister Demo.mona). vm_compute; reflexivity.
Defined.

Lemma dashboard_delete_closes_registration_witness :
  (Register.POST Demo.decode Demo.iso Demo.mona
     (Dashboard.handleDeleteCompany (fun id => id) true (Some Demo.acmeId)
        Cases.dashboard (Demo.fresh Demo.eventHeader)).2).1
  = Value (json (BError ("Company " +:+ JS.dq +:+ "Acme" +:+ JS.dq
                         +:+ " not found or inaccessible")) 404).
Proof.
  destruct (dashboard_delete_closes_registration Demo.decode Demo.iso Demo.number
              (fun id => id) Cases.dashboard (Demo.fresh Demo.eventHeader)
              Cases.companiesSheet Cases.acmeSheet 0 (Demo.acme "enabled" "false")
              "Acme")
    as (state & shown & _ & _ & _ & _ & Hall).
  - reflexivity.
  - reflexivity.
  - reflexivity.
  - vm_compute; reflexivity.
  - vm_compute; reflexivity.
  - reflexivity.
  - reflexivity.
  - discriminate.
  - vm_compute; reflexivity.
  - vm_compute; reflexivity.
  - destruct (Hall _ (or_introl eq_refl)) as [Hregister _].
    apply (Hregister Demo.mona). vm_compute; reflexivity.
Defined.

Lemma form1_body_passes_validation_witness :
  Part001.valid Demo.decode Demo.number (Form1.body Cases.page1) = Some "Acme".
Proof.
  apply (form1_body_passes_validation Demo.decode Demo.number Cases.page1 "Acme").
  - vm_compute; reflexivity.
  - reflexivity.
  - discriminate.
Defined.

Lemma pages_refused_by_route_witness :
  Form1.handleSubmit Demo.number
    (fun b => Register.POST Demo.decode Demo.iso (Form1.destructured b))
    Cases.page1 (Demo.fresh Demo.eventHeader)
  = (Value {| Form1.companyName := "Acme";
              Form1.exactEventName := Some "Launch";
              Form1.eventDisabled := false;
              Form1.companyDisabled := false;
              Form1.formData := Form1.formData Cases.page1;
              Form1.error := "All fields are required";
              Form1.success := false;
              Form1.submitting := false |}, Demo.fresh Demo.eventHeader).
Proof.
  apply (proj1 (pages_refused_by_route Demo.decode Demo.iso Demo.number)
           Cases.page1 (Demo.fresh Demo.eventHeader) "Acme").
  - vm_compute; reflexivity.
  - reflexivity.
Defined.


Lemma renamed_company_keeps_events_witness :
  sheets (Companies.PUT (Demo.put (Some "Acme Labs") None)
            (Demo.fresh Demo.eventHeader)).2 !! "Acme Labs"
  = Some Cases.acmeSheet
  /\ Register.companyEnabled
       (Companies.PUT (Demo.put (Some "Acme Labs") None)
          (Demo.fresh Demo.eventHeader)).2 "Acme Labs"
     = Register.companyEnabled (Demo.fresh Demo.eventHeader) "Acme".
Proof.
  destruct (renamed_company_keeps_events (Some Demo.acmeId) "Acme" "Acme Labs"
              (Demo.fresh Demo.eventHeader) Cases.companiesSheet Cases.acmeSheet
              0 (Demo.acme "enabled" "false")) as (_ & _ & Hmoved & Henabled).
  - reflexivity.
  - reflexivity.
  - vm_compute; reflexivity.
  - vm_compute; reflexivity.
  - vm_compute; reflexivity.
  - reflexivity.
  - intros r Hr. cbn in Hr. apply list_elem_of_singleton in Hr as ->. discriminate.
  - discriminate.
  - discriminate.
  - vm_compute; reflexivity.
  - vm_compute; reflexivity.
  - split; [exact Hmoved | exact Henabled].
Defined.

Lemma new_company_not_yet_open_witness :
  (Register.POST Demo.decode Demo.iso (Cases.monaFor "Beta")
     (Companies.POST Demo.beta (Demo.fresh Demo.eventHeader)).2).1
  = Value (json (BError "Company not found") 404).
Proof.
  destruct (new_company_not_yet_open Demo.decode Demo.iso Demo.beta
              (Demo.fresh Demo.eventHeader) "Beta") with (registration := Cases.monaFor "Beta")
    as [H _].
  - reflexivity.
  - eexists. split; [vm_compute; reflexivity | reflexivity].
  - vm_compute; reflexivity.
  - exact H.
Defined.
